(** * Process supervision in the LiveTalking back ends

    A shallow embedding of the three back-end variants of the repository
    ([BackEnd/backend_simple.py], [BackEnd/1/livetalking_backend.py] and
    [BackEnd/1/livetalking_backend_v2.py]): the registries of running and
    training processes, the start / stop / train / status end points and the
    helpers that terminate processes and publish training results.

    The Python code is glue around the operating system, so the embedding
    threads an explicit [World] (process table, file system, clock, the
    module-level dictionaries and a trace of the system calls issued) through
    a state-and-exception monad. *)

From Stdlib Require Import ZArith Lia.
From stdpp Require Import base gmap strings list fin_maps pretty.

Open Scope string_scope.
Open Scope Z_scope.

(** ** Python values and exceptions *)

(** Values stored in the session dictionaries and in JSON responses. *)
Inductive pyval :=
| VStr (s : string)
| VInt (z : Z)
| VBool (b : bool).

#[global] Instance pyval_eq_dec : EqDecision pyval.
Proof. solve_decision. Defined.

(** A Python [dict] with string keys. *)
Abbreviation pydict := (gmap string pyval).

(** The exception classes the back ends raise or catch. *)
Inductive exn :=
| HTTPException (status_code : Z) (detail : string)
| NoSuchProcess (pid : nat)          (* psutil.NoSuchProcess *)
| PsutilTimeoutExpired               (* psutil.TimeoutExpired *)
| SubprocessTimeoutExpired           (* subprocess.TimeoutExpired *)
| OSError (msg : string)             (* FileNotFoundError, shutil.Error, ... *)
| KeyError (key : string).

Inductive result (A : Type) :=
| Ok (a : A)
| Raise (e : exn).
Arguments Ok {A} a.
Arguments Raise {A} e.

(** ** The file system: a tree of directories *)

#[warnings="-register-all"]
Inductive node :=
| File (data : string)
| Dir (entries : gmap string node).

Abbreviation path := (list string).

Fixpoint fs_lookup (n : node) (p : path) : option node :=
  match p with
  | [] => Some n
  | c :: p' =>
      match n with
      | Dir m => match m !! c with
                 | Some n' => fs_lookup n' p'
                 | None => None
                 end
      | File _ => None
      end
  end.

(** Removes the entry at [p] (with everything below it). *)
Fixpoint fs_remove (n : node) (p : path) : node :=
  match p with
  | [] => n
  | c :: p' =>
      match n with
      | Dir m =>
          match p' with
          | [] => Dir (delete c m)
          | _ => match m !! c with
                 | Some n' => Dir (<[c := fs_remove n' p']> m)
                 | None => n
                 end
          end
      | File _ => n
      end
  end.

(** Binds [p] to [x]; the parent directory of [p] has to exist. *)
Fixpoint fs_put (n : node) (p : path) (x : node) : node :=
  match p with
  | [] => x
  | c :: p' =>
      match n with
      | Dir m =>
          match p' with
          | [] => Dir (<[c := x]> m)
          | _ => match m !! c with
                 | Some n' => Dir (<[c := fs_put n' p' x]> m)
                 | None => n
                 end
          end
      | File _ => n
      end
  end.

Definition is_dir (n : option node) : bool :=
  match n with Some (Dir _) => true | _ => false end.

Definition parent_dir (p : path) : path := removelast p.

Definition basename (p : path) : string := List.last p EmptyString.

(** [os.makedirs(p, exist_ok=True)]: [None] when a component is a file. *)
Fixpoint fs_makedirs (n : node) (p : path) : option node :=
  match p with
  | [] => match n with Dir _ => Some n | File _ => None end
  | c :: p' =>
      match n with
      | Dir m =>
          match fs_makedirs (default (Dir ∅) (m !! c)) p' with
          | Some n' => Some (Dir (<[c := n']> m))
          | None => None
          end
      | File _ => None
      end
  end.

(** A path as the code writes it: absolute, or relative to the current
    working directory ([Path("logs")], an uploaded file name). *)
Inductive pypath :=
| Abs (p : path)
| Rel (p : path).

(** [os.path.join] with a single further component. *)
Definition path_join (d : pypath) (name : string) : pypath :=
  match d with
  | Abs p => Abs (p ++ [name])
  | Rel p => Rel (p ++ [name])
  end.

(** ** Processes *)

Inductive signal := SIGTERM | SIGKILL.

Definition signum (s : signal) : Z :=
  match s with SIGTERM => 15 | SIGKILL => 9 end.

Record process := {
  ppid : nat;                 (* parent process id *)
  exit_at : option nat;       (* clock value at which it exits by itself *)
  exit_code : Z;              (* the code it exits with by itself *)
  honours_term : bool;        (* does a graceful terminate stop it? *)
  killed : option signal      (* the signal that stopped it, if any *)
}.

(** What an external command does once started: how long it runs
    ([None]: until it is signalled), its exit code, whether it reacts to a
    graceful terminate, and the worker processes it forks. *)
#[warnings="-register-all"]
Inductive program :=
| Program (lifetime : option nat) (code : Z) (graceful : bool)
          (workers : list program).

(** [Popen.poll()] on the process record: [None] while it runs. *)
Definition returncode (now : nat) (p : process) : option Z :=
  match killed p with
  | Some s => Some (- signum s)
  | None =>
      match exit_at p with
      | Some t => if (t <=? now)%nat then Some (exit_code p) else None
      | None => None
      end
  end.

Definition proc_alive (now : nat) (p : process) : bool :=
  match returncode now p with None => true | Some _ => false end.

(** ** System calls recorded in the trace *)

Inductive event :=
| EPopen (cmd : list string) (dir : path) (pid : nat)
| ETerminate (pid : nat)
| EKill (pid : nat)
| EWaitProcs (pids : list nat) (timeout : nat)
| EWait (pid : nat) (timeout : nat)
| ESleep (secs : nat)
| ERmtree (p : path)
| EMove (src dst : path)
| ECopy (src dst : path)
| EOpenW (p : path)
| EChdir (p : path)
| EMakedirs (p : path).

(** A task handed to FastAPI's [BackgroundTasks]: the arguments of
    [run_training]. *)
Record task := {
  task_session : string;
  task_avatar : string;
  task_video : string;
  task_audio : pypath;
  task_ref_text : string
}.

(** ** The world *)

Record World := {
  (* operating system *)
  procs : gmap nat process;
  clock : nat;
  fs : node;
  cwd : path;  (* current working directory *)
  script_dir : path;  (* Path(__file__).parent *)
  fs_faults : list bool;  (* head [true]: the next file operation fails *)
  programs : list (option program);  (* what the next spawned commands do *)
  trace : list event;
  (* module-level dictionaries; a Popen object is its pid *)
  sessions : gmap string pydict;
  running_processes : gmap string nat;
  training_processes : gmap string nat;
  training_status : gmap string string;
  background : list task  (* tasks added to BackgroundTasks *)
}.

Definition set_procs (x : gmap nat process) (w : World) : World :=
  {| procs := x; clock := clock w; fs := fs w; cwd := cwd w;
     script_dir := script_dir w; fs_faults := fs_faults w;
     programs := programs w; trace := trace w; sessions := sessions w;
     running_processes := running_processes w;
     training_processes := training_processes w;
     training_status := training_status w; background := background w |}.

Definition set_clock (x : nat) (w : World) : World :=
  {| procs := procs w; clock := x; fs := fs w; cwd := cwd w;
     script_dir := script_dir w; fs_faults := fs_faults w;
     programs := programs w; trace := trace w; sessions := sessions w;
     running_processes := running_processes w;
     training_processes := training_processes w;
     training_status := training_status w; background := background w |}.

Definition set_fs (x : node) (w : World) : World :=
  {| procs := procs w; clock := clock w; fs := x; cwd := cwd w;
     script_dir := script_dir w; fs_faults := fs_faults w;
     programs := programs w; trace := trace w; sessions := sessions w;
     running_processes := running_processes w;
     training_processes := training_processes w;
     training_status := training_status w; background := background w |}.

Definition set_cwd (x : path) (w : World) : World :=
  {| procs := procs w; clock := clock w; fs := fs w; cwd := x;
     script_dir := script_dir w; fs_faults := fs_faults w;
     programs := programs w; trace := trace w; sessions := sessions w;
     running_processes := running_processes w;
     training_processes := training_processes w;
     training_status := training_status w; background := background w |}.

Definition set_fs_faults (x : list bool) (w : World) : World :=
  {| procs := procs w; clock := clock w; fs := fs w; cwd := cwd w;
     script_dir := script_dir w; fs_faults := x; programs := programs w;
     trace := trace w; sessions := sessions w;
     running_processes := running_processes w;
     training_processes := training_processes w;
     training_status := training_status w; background := background w |}.

Definition set_programs (x : list (option program)) (w : World) : World :=
  {| procs := procs w; clock := clock w; fs := fs w; cwd := cwd w;
     script_dir := script_dir w; fs_faults := fs_faults w; programs := x;
     trace := trace w; sessions := sessions w;
     running_processes := running_processes w;
     training_processes := training_processes w;
     training_status := training_status w; background := background w |}.

Definition set_trace (x : list event) (w : World) : World :=
  {| procs := procs w; clock := clock w; fs := fs w; cwd := cwd w;
     script_dir := script_dir w; fs_faults := fs_faults w;
     programs := programs w; trace := x; sessions := sessions w;
     running_processes := running_processes w;
     training_processes := training_processes w;
     training_status := training_status w; background := background w |}.

Definition set_sessions (x : gmap string pydict) (w : World) : World :=
  {| procs := procs w; clock := clock w; fs := fs w; cwd := cwd w;
     script_dir := script_dir w; fs_faults := fs_faults w;
     programs := programs w; trace := trace w; sessions := x;
     running_processes := running_processes w;
     training_processes := training_processes w;
     training_status := training_status w; background := background w |}.

Definition set_running_processes (x : gmap string nat) (w : World) : World :=
  {| procs := procs w; clock := clock w; fs := fs w; cwd := cwd w;
     script_dir := script_dir w; fs_faults := fs_faults w;
     programs := programs w; trace := trace w; sessions := sessions w;
     running_processes := x; training_processes := training_processes w;
     training_status := training_status w; background := background w |}.

Definition set_training_processes (x : gmap string nat) (w : World) : World :=
  {| procs := procs w; clock := clock w; fs := fs w; cwd := cwd w;
     script_dir := script_dir w; fs_faults := fs_faults w;
     programs := programs w; trace := trace w; sessions := sessions w;
     running_processes := running_processes w; training_processes := x;
     training_status := training_status w; background := background w |}.

Definition set_training_status (x : gmap string string) (w : World) : World :=
  {| procs := procs w; clock := clock w; fs := fs w; cwd := cwd w;
     script_dir := script_dir w; fs_faults := fs_faults w;
     programs := programs w; trace := trace w; sessions := sessions w;
     running_processes := running_processes w;
     training_processes := training_processes w; training_status := x;
     background := background w |}.

Definition set_background (x : list task) (w : World) : World :=
  {| procs := procs w; clock := clock w; fs := fs w; cwd := cwd w;
     script_dir := script_dir w; fs_faults := fs_faults w;
     programs := programs w; trace := trace w; sessions := sessions w;
     running_processes := running_processes w;
     training_processes := training_processes w;
     training_status := training_status w; background := x |}.

(** ** The state-and-exception monad *)

Definition M (A : Type) : Type := World -> result A * World.

Definition ret {A} (a : A) : M A := fun w => (Ok a, w).

Definition raise {A} (e : exn) : M A := fun w => (Raise e, w).

Definition bind {A B} (m : M A) (k : A -> M B) : M B :=
  fun w =>
    match m w with
    | (Ok a, w') => k a w'
    | (Raise e, w') => (Raise e, w')
    end.

Notation "x <- m ;; k" := (bind m (fun x => k))
  (at level 100, m at next level, right associativity).
Notation "m ;;; k" := (bind m (fun _ => k))
  (at level 100, right associativity).

(** [try: body  except ...: handler]; [handler e = None] when no [except]
    clause matches [e]. *)
Definition try_except {A} (body : M A) (handler : exn -> option (M A)) : M A :=
  fun w =>
    match body w with
    | (Ok a, w') => (Ok a, w')
    | (Raise e, w') =>
        match handler e with
        | Some h => h w'
        | None => (Raise e, w')
        end
    end.

(** [try: body  finally: cleanup]. *)
Definition try_finally {A} (body : M A) (cleanup : M unit) : M A :=
  fun w =>
    match body w with
    | (r, w') =>
        match cleanup w' with
        | (Ok _, w'') => (r, w'')
        | (Raise e, w'') => (Raise e, w'')
        end
    end.

Definition gets {A} (f : World -> A) : M A := fun w => (Ok (f w), w).

Definition modify (f : World -> World) : M unit := fun w => (Ok tt, f w).

Definition log (e : event) : M unit :=
  modify (fun w => set_trace (trace w ++ [e]) w).

(** [for x in l: body x]. *)
Fixpoint for_each {A} (l : list A) (body : A -> M unit) : M unit :=
  match l with
  | [] => ret tt
  | x :: l' => body x ;;; for_each l' body
  end.

(** The handlers of [except Exception] and of a bare [except:]. *)
Definition except_Exception {A} (h : exn -> M A) : exn -> option (M A) :=
  fun e => Some (h e).

(** ** Process primitives ([subprocess], [psutil], [time]) *)

(** The process id of the back end itself, parent of what it spawns. *)
Definition server_pid : nat := 0.

(** [Popen.poll()]: [None] while the process runs.  A process that has left
    the table has exited. *)
Definition poll (pid : nat) (w : World) : option Z :=
  match procs w !! pid with
  | Some p => returncode (clock w) p
  | None => Some 1
  end.

Definition is_alive (pid : nat) (w : World) : bool :=
  match poll pid w with None => true | Some _ => false end.

Definition mark_killed (s : signal) (p : process) : process :=
  {| ppid := ppid p; exit_at := exit_at p; exit_code := exit_code p;
     honours_term := honours_term p; killed := Some s |}.

(** [psutil.Process(pid)]. *)
Definition psutil_Process (pid : nat) : M nat :=
  fun w => if is_alive pid w then (Ok pid, w) else (Raise (NoSuchProcess pid), w).

(** [psutil.Process.terminate()]: the graceful signal. *)
Definition terminate (pid : nat) : M unit :=
  log (ETerminate pid) ;;;
  fun w =>
    match procs w !! pid with
    | Some p =>
        if proc_alive (clock w) p then
          (Ok tt, if honours_term p
                  then set_procs (<[pid := mark_killed SIGTERM p]> (procs w)) w
                  else w)
        else (Raise (NoSuchProcess pid), w)
    | None => (Raise (NoSuchProcess pid), w)
    end.

(** [psutil.Process.kill()]: the forced signal. *)
Definition kill (pid : nat) : M unit :=
  log (EKill pid) ;;;
  fun w =>
    match procs w !! pid with
    | Some p =>
        if proc_alive (clock w) p then
          (Ok tt, set_procs (<[pid := mark_killed SIGKILL p]> (procs w)) w)
        else (Raise (NoSuchProcess pid), w)
    | None => (Raise (NoSuchProcess pid), w)
    end.

(** The first moment from [now] on at which the process is gone; [None] if
    it runs until it is signalled. *)
Definition gone_time (pid : nat) (w : World) : option nat :=
  match procs w !! pid with
  | Some p =>
      match killed p with
      | Some _ => Some (clock w)
      | None => (fun t => Nat.max (clock w) t) <$> exit_at p
      end
  | None => Some (clock w)
  end.

Definition all_gone_time (pids : list nat) (w : World) : option nat :=
  foldr (fun pid acc =>
           match gone_time pid w, acc with
           | Some a, Some b => Some (Nat.max a b)
           | _, _ => None
           end) (Some (clock w)) pids.

(** The clock after waiting for an exit expected at [t] for at most
    [timeout] seconds. *)
Definition wait_clock (t : option nat) (timeout : nat) (w : World) : nat :=
  match t with
  | Some t => if (t <=? clock w + timeout)%nat then t else (clock w + timeout)%nat
  | None => (clock w + timeout)%nat
  end.

(** [psutil.Process.wait(timeout)]. *)
Definition psutil_wait (pid timeout : nat) : M unit :=
  log (EWait pid timeout) ;;;
  fun w =>
    let w' := set_clock (wait_clock (gone_time pid w) timeout w) w in
    if is_alive pid w' then (Raise PsutilTimeoutExpired, w') else (Ok tt, w').

(** [psutil.wait_procs(pids, timeout)]: the pair [(gone, alive)]. *)
Definition wait_procs (pids : list nat) (timeout : nat) : M (list nat * list nat) :=
  log (EWaitProcs pids timeout) ;;;
  fun w =>
    let w' := set_clock (wait_clock (all_gone_time pids w) timeout w) w in
    (Ok (List.filter (fun c => negb (is_alive c w')) pids,
         List.filter (fun c => is_alive c w') pids), w').

(** [Popen.wait(timeout)]: the return code. *)
Definition popen_wait (pid timeout : nat) : M Z :=
  log (EWait pid timeout) ;;;
  fun w =>
    let w' := set_clock (wait_clock (gone_time pid w) timeout w) w in
    match poll pid w' with
    | Some rc => (Ok rc, w')
    | None => (Raise SubprocessTimeoutExpired, w')
    end.

(** [Popen.kill()]: no error when the process has already exited. *)
Definition popen_kill (pid : nat) : M unit :=
  log (EKill pid) ;;;
  fun w =>
    match procs w !! pid with
    | Some p =>
        (Ok tt, if proc_alive (clock w) p
                then set_procs (<[pid := mark_killed SIGKILL p]> (procs w)) w
                else w)
    | None => (Ok tt, w)
    end.

Definition fresh_pid (tbl : gmap nat process) : nat :=
  S (foldr Nat.max server_pid (map fst (map_to_list tbl))).

(** Starts [pr] and the workers it forks; the new process table and the pid
    of [pr] itself. *)
Fixpoint spawn_program (parent now : nat) (pr : program)
    (tbl : gmap nat process) : nat * gmap nat process :=
  match pr with
  | Program lifetime code graceful workers =>
      let pid := fresh_pid tbl in
      let p := {| ppid := parent; exit_at := (fun d => (now + d)%nat) <$> lifetime;
                  exit_code := code; honours_term := graceful; killed := None |} in
      (pid, fold_left (fun t wk => snd (spawn_program pid now wk t)) workers
                      (<[pid := p]> tbl))
  end.

(** [time.sleep(secs)]. *)
Definition time_sleep (secs : nat) : M unit :=
  log (ESleep secs) ;;; modify (fun w => set_clock (clock w + secs)%nat w).

(** Does [c] have [root] among its ancestors, through processes that are
    still there? *)
Fixpoint descends_from (fuel : nat) (tbl : gmap nat process) (now root c : nat) : bool :=
  match fuel with
  | O => false
  | S fuel' =>
      match tbl !! c with
      | Some p =>
          proc_alive now p &&
          ((ppid p =? root)%nat || descends_from fuel' tbl now root (ppid p))
      | None => false
      end
  end.

(** [psutil.Process(root).children(recursive=True)]. *)
Definition children_recursive (root : nat) (w : World) : list nat :=
  List.filter
    (fun c => negb (c =? root)%nat &&
              descends_from (size (procs w)) (procs w) (clock w) root c)
    (map fst (map_to_list (procs w))).

(** ** File primitives ([os], [shutil], [open]) *)

Definition resolve (p : pypath) (w : World) : path :=
  match p with
  | Abs p => p
  | Rel p => cwd w ++ p
  end.

(** Consults the fault oracle: [true] when the operation at hand fails. *)
Definition take_fault : M bool :=
  fun w => (Ok (hd false (fs_faults w)), set_fs_faults (tl (fs_faults w)) w).

Definition lookup_path (p : pypath) (w : World) : option node :=
  fs_lookup (fs w) (resolve p w).

Definition os_path_exists (p : pypath) : M bool :=
  gets (fun w => match lookup_path p w with Some _ => true | None => false end).

Definition os_path_isdir (p : pypath) : M bool :=
  gets (fun w => is_dir (lookup_path p w)).

(** [os.listdir]. *)
Definition os_listdir (p : pypath) : M (list string) :=
  fun w =>
    match lookup_path p w with
    | Some (Dir m) => (Ok (map fst (map_to_list m)), w)
    | _ => (Raise (OSError "listdir: not a directory"), w)
    end.

(** [os.chdir]. *)
Definition os_chdir (p : pypath) : M unit :=
  fun w =>
    let d := resolve p w in
    let w1 := set_trace (trace w ++ [EChdir d]) w in
    if is_dir (fs_lookup (fs w) d) then (Ok tt, set_cwd d w1)
    else (Raise (OSError "chdir: not a directory"), w1).

(** [os.makedirs(p, exist_ok=True)]. *)
Definition os_makedirs (p : pypath) : M unit :=
  fun w =>
    let d := resolve p w in
    let w1 := set_trace (trace w ++ [EMakedirs d]) w in
    match take_fault w1 with
    | (Ok false, w2) =>
        match fs_makedirs (fs w2) d with
        | Some n => (Ok tt, set_fs n w2)
        | None => (Raise (OSError "makedirs: not a directory"), w2)
        end
    | (_, w2) => (Raise (OSError "makedirs failed"), w2)
    end.

(** [shutil.rmtree]: the whole directory goes, or the call raises. *)
Definition shutil_rmtree (p : pypath) : M unit :=
  fun w =>
    let d := resolve p w in
    let w1 := set_trace (trace w ++ [ERmtree d]) w in
    if is_dir (fs_lookup (fs w1) d) then
      match take_fault w1 with
      | (Ok false, w2) => (Ok tt, set_fs (fs_remove (fs w2) d) w2)
      | (_, w2) => (Raise (OSError "rmtree failed"), w2)
      end
    else (Raise (OSError "rmtree: not a directory"), w1).

(** [shutil.move] within one volume, where it is an [os.rename]: the entry
    changes its place, or the call raises and the tree is as before.  A
    destination that is an existing directory receives the source inside
    it. *)
Definition shutil_move (src dst : pypath) : M unit :=
  fun w =>
    let s := resolve src w in
    let d := resolve dst w in
    let w1 := set_trace (trace w ++ [EMove s d]) w in
    match fs_lookup (fs w1) s with
    | None => (Raise (OSError "move: no such file or directory"), w1)
    | Some n =>
        let into := is_dir (fs_lookup (fs w1) d) in
        let real : path := if into then (d ++ [basename s])%list else d in
        if into && bool_decide (is_Some (fs_lookup (fs w1) real)) then
          (Raise (OSError "move: destination path already exists"), w1)
        else if bool_decide (s `prefix_of` real) then
          (Raise (OSError "move: cannot move a directory into itself"), w1)
        else if negb (is_dir (fs_lookup (fs w1) (parent_dir real))) then
          (Raise (OSError "move: no such file or directory"), w1)
        else if is_dir (Some n) && bool_decide (is_Some (fs_lookup (fs w1) real)) then
          (Raise (OSError "move: destination is a file"), w1)
        else
          match take_fault w1 with
          | (Ok false, w2) => (Ok tt, set_fs (fs_put (fs_remove (fs w2) s) real n) w2)
          | (_, w2) => (Raise (OSError "move failed"), w2)
          end
    end.

(** [shutil.copy2] of a file. *)
Definition shutil_copy2 (src dst : pypath) : M unit :=
  fun w =>
    let s := resolve src w in
    let d := resolve dst w in
    let w1 := set_trace (trace w ++ [ECopy s d]) w in
    match fs_lookup (fs w1) s with
    | Some (File data) =>
        let real : path := if is_dir (fs_lookup (fs w1) d) then (d ++ [basename s])%list else d in
        if negb (is_dir (fs_lookup (fs w1) (parent_dir real))) then
          (Raise (OSError "copy2: no such file or directory"), w1)
        else if is_dir (fs_lookup (fs w1) real) then
          (Raise (OSError "copy2: destination is a directory"), w1)
        else
          match take_fault w1 with
          | (Ok false, w2) => (Ok tt, set_fs (fs_put (fs w2) real (File data)) w2)
          | (_, w2) => (Raise (OSError "copy2 failed"), w2)
          end
    | _ => (Raise (OSError "copy2: no such file"), w1)
    end.

(** [open(p, "w")]: creates or truncates the file. *)
Definition open_w (p : pypath) : M unit :=
  fun w =>
    let d := resolve p w in
    let w1 := set_trace (trace w ++ [EOpenW d]) w in
    if negb (is_dir (fs_lookup (fs w1) (parent_dir d))) then
      (Raise (OSError "open: no such file or directory"), w1)
    else if is_dir (fs_lookup (fs w1) d) then
      (Raise (OSError "open: is a directory"), w1)
    else
      match take_fault w1 with
      | (Ok false, w2) => (Ok tt, set_fs (fs_put (fs w2) d (File EmptyString)) w2)
      | (_, w2) => (Raise (OSError "open failed"), w2)
      end.

(** [subprocess.Popen(cmd, cwd=dir, ...)]: the pid of the new process. *)
Definition Popen (cmd : list string) (dir : pypath) : M nat :=
  fun w =>
    let d := resolve dir w in
    if negb (is_dir (fs_lookup (fs w) d)) then
      (Raise (OSError "Popen: the working directory does not exist"), w)
    else
      match programs w with
      | Some pr :: rest =>
          let '(pid, tbl) := spawn_program server_pid (clock w) pr (procs w) in
          (Ok pid,
           set_trace (trace w ++ [EPopen cmd d pid]) (set_procs tbl (set_programs rest w)))
      | None :: rest => (Raise (OSError "Popen: cannot start the command"), set_programs rest w)
      | [] => (Raise (OSError "Popen: cannot start the command"), w)
      end.

(** [subprocess.run(cmd, cwd=dir, timeout=timeout)]: on a timeout the child
    itself is killed and [TimeoutExpired] is raised again. *)
Definition subprocess_run (cmd : list string) (dir : pypath) (timeout : nat) : M Z :=
  pid <- Popen cmd dir ;;
  try_except (popen_wait pid timeout)
    (fun e => match e with
              | SubprocessTimeoutExpired =>
                  Some (popen_kill pid ;;; raise SubprocessTimeoutExpired)
              | _ => None
              end).

(** ** Python helpers *)

(** [str(e)] for the exceptions above. *)
Definition str_exn (e : exn) : string :=
  match e with
  | HTTPException sc d => pretty sc ++ ": " ++ d
  | NoSuchProcess pid => "process no longer exists (pid=" ++ pretty pid ++ ")"
  | PsutilTimeoutExpired => "timeout"
  | SubprocessTimeoutExpired => "timed out"
  | OSError msg => msg
  | KeyError key => "'" ++ key ++ "'"
  end.

(** [str(v)]. *)
Definition str_val (v : pyval) : string :=
  match v with
  | VStr s => s
  | VInt z => pretty z
  | VBool true => "True"
  | VBool false => "False"
  end.

(** [s.startswith(p)]. *)
Definition startswith (s p : string) : bool := String.prefix p s.

(** [s.replace(old, empty)] through a counter of the characters still to
    skip. *)
Fixpoint remove_all (old : string) (skip : nat) (s : string) : string :=
  match s with
  | EmptyString => EmptyString
  | String c s' =>
      match skip with
      | S k => remove_all old k s'
      | O =>
          if String.prefix old s && negb (String.eqb old EmptyString)
          then remove_all old (String.length old - 1) s'
          else String c (remove_all old 0 s')
      end
  end.

(** [s.endswith(suffix)]. *)
Definition endswith (s suffix : string) : bool :=
  (String.length suffix <=? String.length s)%nat &&
  String.eqb
    (String.substring (String.length s - String.length suffix)
                      (String.length suffix) s)
    suffix.

(** The text of a path on Windows. *)
Definition path_str (p : pypath) : string :=
  match p with
  | Abs p => String.concat "\" p
  | Rel p => String.concat "\" p
  end.

(** [d[key] = v] on one of the dictionaries of sessions:
    [sessions[sid][key] = v], a [KeyError] when [sid] is missing. *)
Definition session_set (sid key : string) (v : pyval) : M unit :=
  fun w =>
    match sessions w !! sid with
    | Some d => (Ok tt, set_sessions (<[sid := <[key := v]> d]> (sessions w)) w)
    | None => (Raise (KeyError sid), w)
    end.

(** [sessions[sid][key]]. *)
Definition session_get (sid key : string) : M pyval :=
  fun w =>
    match sessions w !! sid with
    | Some d =>
        match d !! key with
        | Some v => (Ok v, w)
        | None => (Raise (KeyError key), w)
        end
    | None => (Raise (KeyError sid), w)
    end.

(** [del sessions[sid]["pid"]] when the key is there. *)
Definition session_drop_pid (sid : string) : M unit :=
  modify (fun w =>
    match sessions w !! sid with
    | Some d => set_sessions (<[sid := delete "pid" d]> (sessions w)) w
    | None => w
    end).

(** [del running_processes[key]]. *)
Definition del_running_processes (key : string) : M unit :=
  fun w =>
    match running_processes w !! key with
    | Some _ => (Ok tt, set_running_processes (delete key (running_processes w)) w)
    | None => (Raise (KeyError key), w)
    end.

(** [del training_processes[key]]. *)
Definition del_training_processes (key : string) : M unit :=
  fun w =>
    match training_processes w !! key with
    | Some _ => (Ok tt, set_training_processes (delete key (training_processes w)) w)
    | None => (Raise (KeyError key), w)
    end.

(** [del sessions[key]]. *)
Definition del_sessions (key : string) : M unit :=
  fun w =>
    match sessions w !! key with
    | Some _ => (Ok tt, set_sessions (delete key (sessions w)) w)
    | None => (Raise (KeyError key), w)
    end.

(** [if c: body]. *)
Definition when (c : bool) (body : M unit) : M unit :=
  if c then body else ret tt.

(** The clause [except psutil.NoSuchProcess: pass]. *)
Definition except_NoSuchProcess_pass (e : exn) : option (M unit) :=
  match e with
  | NoSuchProcess _ => Some (ret tt)
  | _ => None
  end.

(** ** Paths of the LiveTalking installation (the same in all variants) *)

Definition LIVETALKING_PATH : path :=
  ["D:"; "Projects"; "See You Again"; "src"; "LiveTalking"; "LiveTalking-main"].
Definition WAV2LIP_PATH : pypath := Abs (LIVETALKING_PATH ++ ["wav2lip"]).
Definition AVATARS_DIR : pypath := Abs (LIVETALKING_PATH ++ ["data"; "avatars"]).
Definition RESULTS_DIR : pypath :=
  Abs (LIVETALKING_PATH ++ ["wav2lip"; "results"; "avatars"]).
Definition WAV_DIR : pypath := Abs (LIVETALKING_PATH ++ ["wav"]).
Definition LOGS_DIR : pypath := Rel ["logs"].
Definition TTS_SERVER : string := "http://127.0.0.1:50000".

(** ** [kill_process_tree], the same function in [livetalking_backend.py]
    and [livetalking_backend_v2.py] (the two [logger] calls write no state) *)

(** The clause [except (psutil.NoSuchProcess, psutil.TimeoutExpired)] around
    the signalling of the parent: [try: parent.kill()] with
    [except psutil.NoSuchProcess: pass]. *)
Definition parent_handler (parent : nat) (e : exn) : option (M unit) :=
  match e with
  | NoSuchProcess _ | PsutilTimeoutExpired =>
      Some (try_except (kill parent) except_NoSuchProcess_pass)
  | _ => None
  end.

Definition kill_process_tree (pid : nat) : M unit :=
  try_except
    (parent <- psutil_Process pid ;;
     children <- gets (children_recursive parent) ;;
     for_each children (fun child =>
       try_except (terminate child) except_NoSuchProcess_pass) ;;;
     gone_alive <- wait_procs children 5 ;;
     for_each (snd gone_alive) (fun p =>
       try_except (kill p) except_NoSuchProcess_pass) ;;;
     try_except
       (terminate parent ;;; psutil_wait parent 5)
       (parent_handler parent))
    (except_Exception (fun _ => ret tt)).

(** ** [backend_simple.py] *)

Module Simple.

Record StartRequest := {
  start_avatar_id : string;
  start_ref_file : string;
  start_ref_text : string
}.

Record TrainRequest := {
  train_avatar_id : string;
  train_video_path : string;
  train_audio_path : pypath;
  train_ref_text : string
}.

Definition scan_item (item : string) (avatars : list pydict) : M (list pydict) :=
  if startswith item "wav2lip256_" then
    let avatar_path := path_join AVATARS_DIR item in
    isd <- os_path_isdir avatar_path ;;
    if isd then
      has_audio <- os_path_exists (path_join WAV_DIR (item ++ ".wav")) ;;
      rp <- gets running_processes ;;
      ret (avatars ++
           [ (list_to_map
                [("id", VStr item);
                 ("name", VStr (remove_all "wav2lip256_" 0 item));
                 ("path", VStr (path_str avatar_path));
                 ("has_audio", VBool has_audio);
                 ("is_running", VBool (bool_decide (is_Some (rp !! item))))]
              : pydict) ])%list
    else ret avatars
  else ret avatars.

Fixpoint scan_items (items : list string) (avatars : list pydict) : M (list pydict) :=
  match items with
  | [] => ret avatars
  | item :: rest => avatars' <- scan_item item avatars ;; scan_items rest avatars'
  end.

Definition scan_avatars : M (list pydict) :=
  ex <- os_path_exists AVATARS_DIR ;;
  if ex then
    items <- os_listdir AVATARS_DIR ;;
    scan_items items []
  else ret [].

Definition kill_process (pid : nat) : M unit :=
  try_except
    (process <- psutil_Process pid ;;
     terminate process ;;;
     psutil_wait process 5)
    (except_Exception (fun _ =>
       try_except
         (process <- psutil_Process pid ;;
          kill process)
         (except_Exception (fun _ => ret tt)))).

Definition start_cmd (request : StartRequest) : list string :=
  ["python"; path_str (path_join (Abs LIVETALKING_PATH) "app.py");
   "--transport"; "webrtc";
   "--model"; "wav2lip";
   "--avatar_id"; start_avatar_id request;
   "--tts"; "cosyvoice";
   "--TTS_SERVER"; "http://127.0.0.1:50000";
   "--REF_FILE"; start_ref_file request;
   "--REF_TEXT"; start_ref_text request].

Definition start_avatar (request : StartRequest) : M pydict :=
  let avatar_id := start_avatar_id request in
  let avatar_path := path_join AVATARS_DIR avatar_id in
  ex <- os_path_exists avatar_path ;;
  when (negb ex) (raise (HTTPException 404 ("数字人不存在: " ++ avatar_id))) ;;;
  rp <- gets running_processes ;;
  match rp !! avatar_id with
  | Some process =>
      rc <- gets (poll process) ;;
      when (bool_decide (rc = None)) (raise (HTTPException 400 "该数字人已在运行"))
  | None => ret tt
  end ;;;
  try_except
    (process <- Popen (start_cmd request) (Abs LIVETALKING_PATH) ;;
     modify (fun w => set_running_processes (<[avatar_id := process]> (running_processes w)) w) ;;;
     time_sleep 3 ;;;
     rc <- gets (poll process) ;;
     when (negb (bool_decide (rc = None)))
       (del_running_processes avatar_id ;;;
        raise (HTTPException 500 "启动失败")) ;;;
     ret (list_to_map
            [("status", VStr "running");
             ("pid", VInt (Z.of_nat process));
             ("avatar_id", VStr avatar_id)] : pydict))
    (except_Exception (fun e => raise (HTTPException 500 (str_exn e)))).

Definition stop_avatar (avatar_id : string) : M pydict :=
  rp <- gets running_processes ;;
  match rp !! avatar_id with
  | None => ret ({[ "status" := VStr "not_running" ]} : pydict)
  | Some process =>
      rc <- gets (poll process) ;;
      when (bool_decide (rc = None)) (kill_process process) ;;;
      del_running_processes avatar_id ;;;
      ret ({[ "status" := VStr "stopped" ]} : pydict)
  end.

(** The full identifier that [train_avatar] derives from the request. *)
Definition full_avatar_id (requested : string) : string :=
  if negb (startswith requested "wav2lip256_")
  then "wav2lip256_" ++ requested
  else requested.

Definition train_avatar (request : TrainRequest) : M pydict :=
  let avatar_id := full_avatar_id (train_avatar_id request) in
  modify (fun w => set_training_status (<[avatar_id := "training"]> (training_status w)) w) ;;;
  modify (fun w => set_background
     (background w ++
      [{| task_session := avatar_id; task_avatar := avatar_id;
          task_video := train_video_path request;
          task_audio := train_audio_path request;
          task_ref_text := train_ref_text request |}]) w) ;;;
  ret (list_to_map
         [("status", VStr "training_started");
          ("avatar_id", VStr avatar_id)] : pydict).

Definition training_cmd (avatar_id video_path : string) : list string :=
  ["python"; "genavatar.py";
   "--video_path"; video_path;
   "--img_size"; "256";
   "--avatar_id"; avatar_id].

Definition WAV2LIP_DIR : pypath := WAV2LIP_PATH.

Definition set_status (avatar_id status : string) : M unit :=
  modify (fun w => set_training_status (<[avatar_id := status]> (training_status w)) w).

Definition run_training (avatar_id video_path : string) (audio_path : pypath)
    (ref_text : string) : M unit :=
  try_except
    (returncode <- subprocess_run (training_cmd avatar_id video_path) WAV2LIP_DIR 1800 ;;
     if (returncode =? 0)%Z then
       let source := path_join RESULTS_DIR avatar_id in
       let dest := path_join AVATARS_DIR avatar_id in
       src_exists <- os_path_exists source ;;
       if src_exists then
         dest_exists <- os_path_exists dest ;;
         when dest_exists (shutil_rmtree dest) ;;;
         shutil_move source dest ;;;
         shutil_copy2 audio_path (path_join WAV_DIR (avatar_id ++ ".wav")) ;;;
         set_status avatar_id "completed"
       else set_status avatar_id "error"
     else set_status avatar_id "error")
    (except_Exception (fun _ => set_status avatar_id "error")).

Definition get_training_status (avatar_id : string) : M pydict :=
  ts <- gets training_status ;;
  ret (list_to_map
         [("avatar_id", VStr avatar_id);
          ("status", VStr (default "unknown" (ts !! avatar_id)))] : pydict).

(** The [/health] end point. *)
Definition health : M pydict :=
  avatars <- scan_avatars ;;
  rp <- gets running_processes ;;
  ts <- gets training_status ;;
  ret (list_to_map
         [("status", VStr "ok");
          ("avatars_count", VInt (Z.of_nat (length avatars)));
          ("running_count", VInt (Z.of_nat (size rp)));
          ("training_count",
           VInt (Z.of_nat (length (List.filter (fun s => String.eqb s "training")
                                      (map snd (map_to_list ts))))))] : pydict).

(** The [shutdown] hook: [for avatar_id, process in running_processes.items()]. *)
Definition shutdown : M unit :=
  rp <- gets running_processes ;;
  for_each (map_to_list rp) (fun item =>
    rc <- gets (poll (snd item)) ;;
    when (bool_decide (rc = None)) (kill_process (snd item))).

End Simple.

(** ** [1/livetalking_backend.py] *)

Module V1.

Definition training_cmd (avatar_id video_path : string) : list string :=
  ["python"; "genavatar.py";
   "--video_path"; video_path;
   "--img_size"; "256";
   "--avatar_id"; avatar_id].

(** The [finally] clause of [run_training]. *)
Definition run_training_cleanup (session_id : string) : M unit :=
  tp <- gets training_processes ;;
  when (bool_decide (is_Some (tp !! session_id))) (del_training_processes session_id) ;;;
  sd <- gets script_dir ;;
  os_chdir (Abs sd).

Definition run_training (session_id avatar_id video_path : string)
    (audio_path : pypath) (ref_text : string) : M unit :=
  try_finally
    (try_except
       (os_chdir WAV2LIP_PATH ;;;
        open_w (path_join LOGS_DIR ("train_" ++ session_id ++ ".log")) ;;;
        process <- Popen (training_cmd avatar_id video_path) WAV2LIP_PATH ;;
        modify (fun w => set_training_processes
                           (<[session_id := process]> (training_processes w)) w) ;;;
        return_code <- popen_wait process 600 ;;
        if (return_code =? 0)%Z then
          session_set session_id "status" (VStr "ready") ;;;
          let wav_dir := Abs (LIVETALKING_PATH ++ ["wav"]) in
          os_makedirs wav_dir ;;;
          let audio_filename := avatar_id ++ ".wav" in
          shutil_copy2 audio_path (path_join wav_dir audio_filename) ;;;
          session_set session_id "ref_file" (VStr ("wav/" ++ audio_filename))
        else
          session_set session_id "status" (VStr "error") ;;;
          session_set session_id "error"
            (VStr ("训练失败，返回码: " ++ pretty return_code)))
       (fun e =>
          match e with
          | SubprocessTimeoutExpired =>
              Some (session_set session_id "status" (VStr "error") ;;;
                    session_set session_id "error" (VStr "训练超时") ;;;
                    tp <- gets training_processes ;;
                    match tp !! session_id with
                    | Some process =>
                        kill_process_tree process ;;;
                        del_training_processes session_id
                    | None => ret tt
                    end)
          | _ =>
              Some (session_set session_id "status" (VStr "error") ;;;
                    session_set session_id "error" (VStr (str_exn e)))
          end))
    (run_training_cleanup session_id).

Definition start_cmd (avatar_id ref_file ref_text : string) : list string :=
  ["python"; "app.py";
   "--transport"; "webrtc";
   "--model"; "wav2lip";
   "--avatar_id"; avatar_id;
   "--tts"; "cosyvoice";
   "--TTS_SERVER"; TTS_SERVER;
   "--REF_FILE"; ref_file;
   "--REF_TEXT"; ref_text].

Definition start_avatar (session_id : string) : M pydict :=
  ss <- gets sessions ;;
  when (negb (bool_decide (is_Some (ss !! session_id))))
    (raise (HTTPException 404 "会话不存在")) ;;;
  status <- session_get session_id "status" ;;
  when (negb (bool_decide (status = VStr "ready")))
    (raise (HTTPException 400 ("会话未就绪: " ++ str_val status))) ;;;
  rp <- gets running_processes ;;
  when (bool_decide (is_Some (rp !! session_id)))
    (raise (HTTPException 400 "该数字人已在运行")) ;;;
  try_finally
    (try_except
       (os_chdir (Abs LIVETALKING_PATH) ;;;
        avatar_id <- session_get session_id "avatar_id" ;;
        ref_file <- session_get session_id "ref_file" ;;
        ref_text <- session_get session_id "ref_text" ;;
        open_w (path_join LOGS_DIR ("run_" ++ session_id ++ ".log")) ;;;
        process <- Popen (start_cmd (str_val avatar_id) (str_val ref_file) (str_val ref_text))
                         (Abs LIVETALKING_PATH) ;;
        modify (fun w => set_running_processes
                           (<[session_id := process]> (running_processes w)) w) ;;;
        session_set session_id "status" (VStr "running") ;;;
        session_set session_id "pid" (VInt (Z.of_nat process)) ;;;
        time_sleep 2 ;;;
        rc <- gets (poll process) ;;
        when (negb (bool_decide (rc = None)))
          (del_running_processes session_id ;;;
           session_set session_id "status" (VStr "error") ;;;
           raise (HTTPException 500 "启动失败，进程已退出")) ;;;
        ret (list_to_map
               [("status", VStr "started");
                ("session_id", VStr session_id);
                ("pid", VInt (Z.of_nat process));
                ("webrtc_url", VStr "http://localhost:8010")] : pydict))
       (except_Exception (fun e =>
          session_set session_id "status" (VStr "error") ;;;
          raise (HTTPException 500 ("启动失败: " ++ str_exn e)))))
    (sd <- gets script_dir ;; os_chdir (Abs sd)).

Definition stop_avatar (session_id : string) : M pydict :=
  rp <- gets running_processes ;;
  match rp !! session_id with
  | None =>
      ret (list_to_map
             [("status", VStr "not_running");
              ("message", VStr "该数字人未在运行")] : pydict)
  | Some pid =>
      try_except
        (kill_process_tree pid ;;;
         del_running_processes session_id ;;;
         ss <- gets sessions ;;
         when (bool_decide (is_Some (ss !! session_id)))
           (session_set session_id "status" (VStr "ready") ;;;
            session_drop_pid session_id) ;;;
         ret (list_to_map
                [("status", VStr "stopped");
                 ("session_id", VStr session_id);
                 ("pid", VInt (Z.of_nat pid))] : pydict))
        (except_Exception (fun e =>
           raise (HTTPException 500 ("停止失败: " ++ str_exn e))))
  end.

Definition chat_with_avatar (session_id message : string) : M pydict :=
  ss <- gets sessions ;;
  when (negb (bool_decide (is_Some (ss !! session_id))))
    (raise (HTTPException 404 "会话不存在")) ;;;
  rp <- gets running_processes ;;
  match rp !! session_id with
  | None => raise (HTTPException 400 "数字人未运行")
  | Some process =>
      rc <- gets (poll process) ;;
      when (negb (bool_decide (rc = None)))
        (del_running_processes session_id ;;;
         session_set session_id "status" (VStr "error") ;;;
         raise (HTTPException 400 "数字人进程已退出")) ;;;
      ret (list_to_map
             [("status", VStr "success");
              ("message", VStr "消息已接收，请通过WebRTC查看数字人回应");
              ("webrtc_url", VStr "http://localhost:8010")] : pydict)
  end.

Definition get_session (session_id : string) : M pydict :=
  ss <- gets sessions ;;
  match ss !! session_id with
  | None => raise (HTTPException 404 "会话不存在")
  | Some stored =>
      let session := stored in   (* .copy() *)
      rp <- gets running_processes ;;
      match rp !! session_id with
      | Some process =>
          rc <- gets (poll process) ;;
          if bool_decide (rc = None) then
            ret (<["pid" := VInt (Z.of_nat process)]>
                   (<["is_running" := VBool true]> session))
          else
            del_running_processes session_id ;;;
            ret (<["is_running" := VBool false]> session)
      | None => ret (<["is_running" := VBool false]> session)
      end
  end.

Record TrainRequest := {
  train_session_id : string;
  train_avatar_id : string;
  train_video_path : string;
  train_audio_path : pypath;
  train_ref_text : string;
  train_prompt : string
}.

Definition check_livetalking_installation : M bool :=
  ex <- os_path_exists (Abs LIVETALKING_PATH) ;;
  if negb ex then ret false
  else
    ex <- os_path_exists (path_join (Abs LIVETALKING_PATH) "app.py") ;;
    if negb ex then ret false
    else
      ex <- os_path_exists (path_join WAV2LIP_PATH "genavatar.py") ;;
      if negb ex then ret false else ret true.

Definition ffmpeg_cmd (image_path output_path : string) : list string :=
  ["ffmpeg";
   "-loop"; "1";
   "-i"; image_path;
   "-c:v"; "libx264";
   "-t"; "3";
   "-pix_fmt"; "yuv420p";
   "-vf"; "scale=256:256";
   "-y";
   output_path].

(** [subprocess.run] without [cwd]: the command runs in the current
    directory. *)
Definition generate_video_from_image (image_path output_path : string) : M bool :=
  try_except
    (returncode <- subprocess_run (ffmpeg_cmd image_path output_path) (Rel []) 30 ;;
     if (returncode =? 0)%Z then ret true else ret false)
    (except_Exception (fun _ => ret false)).

(** [isoformat]: [datetime.now().isoformat()] as a function of the clock. *)
Definition train_model (isoformat : nat -> string) (request : TrainRequest) : M pydict :=
  let session_id := train_session_id request in
  ss <- gets sessions ;;
  match ss !! session_id with
  | Some _ =>
      status <- session_get session_id "status" ;;
      when (bool_decide (status = VStr "training"))
        (raise (HTTPException 400 "该会话正在训练中"))
  | None => ret tt
  end ;;;
  now <- gets clock ;;
  modify (fun w => set_sessions
    (<[session_id :=
         (list_to_map
            [("session_id", VStr session_id);
             ("avatar_id", VStr (train_avatar_id request));
             ("video_path", VStr (train_video_path request));
             ("audio_path", VStr (path_str (train_audio_path request)));
             ("ref_text", VStr (train_ref_text request));
             ("prompt", VStr (train_prompt request));
             ("status", VStr "training");
             ("created_at", VStr (isoformat now));
             ("progress", VInt 0)] : pydict)]> (sessions w)) w) ;;;
  modify (fun w => set_background
     (background w ++
      [{| task_session := session_id; task_avatar := train_avatar_id request;
          task_video := train_video_path request;
          task_audio := train_audio_path request;
          task_ref_text := train_ref_text request |}]) w) ;;;
  ret (list_to_map
         [("status", VStr "training_started");
          ("session_id", VStr session_id);
          ("avatar_id", VStr (train_avatar_id request))] : pydict).

Definition delete_session (session_id : string) : M pydict :=
  ss <- gets sessions ;;
  when (negb (bool_decide (is_Some (ss !! session_id))))
    (raise (HTTPException 404 "会话不存在")) ;;;
  rp <- gets running_processes ;;
  when (bool_decide (is_Some (rp !! session_id)))
    (stop_avatar session_id ;;; ret tt) ;;;
  tp <- gets training_processes ;;
  match tp !! session_id with
  | Some process =>
      kill_process_tree process ;;;
      del_training_processes session_id
  | None => ret tt
  end ;;;
  del_sessions session_id ;;;
  ret (list_to_map
         [("status", VStr "deleted");
          ("session_id", VStr session_id)] : pydict).

Definition health_check : M pydict :=
  livetalking_ok <- check_livetalking_installation ;;
  ss <- gets sessions ;;
  rp <- gets running_processes ;;
  tp <- gets training_processes ;;
  ret (list_to_map
         [("status", VStr (if livetalking_ok then "healthy" else "degraded"));
          ("livetalking", VBool livetalking_ok);
          ("sessions", VInt (Z.of_nat (size ss)));
          ("running", VInt (Z.of_nat (size rp)));
          ("training", VInt (Z.of_nat (size tp)))] : pydict).

(** The [shutdown] hook; every [kill_process_tree] sits in a [try] with a
    bare [except: pass]. *)
Definition shutdown_event : M unit :=
  rp <- gets running_processes ;;
  for_each (map_to_list rp) (fun item =>
    try_except (kill_process_tree (snd item)) (except_Exception (fun _ => ret tt))) ;;;
  tp <- gets training_processes ;;
  for_each (map_to_list tp) (fun item =>
    try_except (kill_process_tree (snd item)) (except_Exception (fun _ => ret tt))).

End V1.

(** ** [1/livetalking_backend_v2.py] *)

Module V2.

Section Calendar.

(** [datetime.now().strftime('%Y%m%d_%H%M%S')] and
    [datetime.now().isoformat()] as functions of the clock. *)
Variable strftime : nat -> string.
Variable isoformat : nat -> string.

Record TrainRequest := {
  train_avatar_id : string;
  train_video_path : string;
  train_audio_path : pypath;
  train_ref_text : string;
  train_prompt : string
}.

Definition check_avatar_exists (avatar_id : string) : M bool :=
  os_path_exists (path_join AVATARS_DIR avatar_id).

(** [f"{dest_path}_backup_{...}"]: a sibling of the destination. *)
Definition backup_name (avatar_id : string) (now : nat) : string :=
  avatar_id ++ "_backup_" ++ strftime now.

Definition move_trained_avatar (avatar_id : string) : M bool :=
  let source_path := path_join RESULTS_DIR avatar_id in
  let dest_path := path_join AVATARS_DIR avatar_id in
  try_except
    (src_exists <- os_path_exists source_path ;;
     if src_exists then
       dest_exists <- os_path_exists dest_path ;;
       when dest_exists
         (now <- gets clock ;;
          let backup_path := path_join AVATARS_DIR (backup_name avatar_id now) in
          shutil_move dest_path backup_path) ;;;
       shutil_move source_path dest_path ;;;
       ret true
     else ret false)
    (except_Exception (fun _ => ret false)).

(** The full identifier that [train_model] derives from the request. *)
Definition full_avatar_id (requested : string) : string :=
  if negb (startswith requested "wav2lip256_")
  then "wav2lip256_" ++ requested
  else requested.

Definition train_model (request : TrainRequest) : M pydict :=
  let full_avatar_id := full_avatar_id (train_avatar_id request) in
  tp <- gets training_processes ;;
  match tp !! full_avatar_id with
  | Some process =>
      rc <- gets (poll process) ;;
      when (bool_decide (rc = None)) (raise (HTTPException 400 "该数字人正在训练中"))
  | None => ret tt
  end ;;;
  now <- gets clock ;;
  modify (fun w => set_sessions
    (<[full_avatar_id :=
         (list_to_map
            [("avatar_id", VStr full_avatar_id);
             ("video_path", VStr (train_video_path request));
             ("audio_path", VStr (path_str (train_audio_path request)));
             ("ref_text", VStr (train_ref_text request));
             ("prompt", VStr (train_prompt request));
             ("status", VStr "training");
             ("created_at", VStr (isoformat now))] : pydict)]> (sessions w)) w) ;;;
  modify (fun w => set_background
     (background w ++
      [{| task_session := full_avatar_id; task_avatar := full_avatar_id;
          task_video := train_video_path request;
          task_audio := train_audio_path request;
          task_ref_text := train_ref_text request |}]) w) ;;;
  ret (list_to_map
         [("status", VStr "training_started");
          ("avatar_id", VStr full_avatar_id);
          ("message", VStr ("开始训练 " ++ full_avatar_id))] : pydict).

Definition training_cmd (avatar_id video_path : string) : list string :=
  ["python"; "genavatar.py";
   "--video_path"; video_path;
   "--img_size"; "256";
   "--avatar_id"; avatar_id].

(** The [finally] clause of [run_training]. *)
Definition run_training_cleanup (avatar_id : string) : M unit :=
  tp <- gets training_processes ;;
  when (bool_decide (is_Some (tp !! avatar_id))) (del_training_processes avatar_id) ;;;
  sd <- gets script_dir ;;
  os_chdir (Abs sd).

Definition run_training (avatar_id video_path : string) (audio_path : pypath)
    (ref_text : string) : M unit :=
  try_finally
    (try_except
       (session_set avatar_id "status" (VStr "training") ;;;
        os_chdir WAV2LIP_PATH ;;;
        now <- gets clock ;;
        open_w (path_join LOGS_DIR
                  ("train_" ++ avatar_id ++ "_" ++ strftime now ++ ".log")) ;;;
        process <- Popen (training_cmd avatar_id video_path) WAV2LIP_PATH ;;
        modify (fun w => set_training_processes
                           (<[avatar_id := process]> (training_processes w)) w) ;;;
        return_code <- popen_wait process 1200 ;;
        if (return_code =? 0)%Z then
          moved <- move_trained_avatar avatar_id ;;
          if moved then
            session_set avatar_id "status" (VStr "ready") ;;;
            let audio_filename := avatar_id ++ ".wav" in
            shutil_copy2 audio_path (path_join WAV_DIR audio_filename) ;;;
            session_set avatar_id "ref_file" (VStr ("wav/" ++ audio_filename))
          else
            session_set avatar_id "status" (VStr "error") ;;;
            session_set avatar_id "error" (VStr "无法移动训练结果")
        else
          session_set avatar_id "status" (VStr "error") ;;;
          session_set avatar_id "error"
            (VStr ("训练失败，返回码: " ++ pretty return_code)))
       (fun e =>
          match e with
          | SubprocessTimeoutExpired =>
              Some (session_set avatar_id "status" (VStr "error") ;;;
                    session_set avatar_id "error" (VStr "训练超时") ;;;
                    tp <- gets training_processes ;;
                    match tp !! avatar_id with
                    | Some process => kill_process_tree process
                    | None => ret tt
                    end)
          | _ =>
              Some (session_set avatar_id "status" (VStr "error") ;;;
                    session_set avatar_id "error" (VStr (str_exn e)))
          end))
    (run_training_cleanup avatar_id).

Definition start_cmd (avatar_id ref_file ref_text : string) : list string :=
  ["python"; "app.py";
   "--transport"; "webrtc";
   "--model"; "wav2lip";
   "--avatar_id"; avatar_id;
   "--tts"; "cosyvoice";
   "--TTS_SERVER"; TTS_SERVER;
   "--REF_FILE"; ref_file;
   "--REF_TEXT"; ref_text].

(** The reference audio [start_avatar] settles on. *)
Definition choose_ref_file (avatar_id : string) : M string :=
  let ref_file := "wav/" ++ avatar_id ++ ".wav" in
  ex <- os_path_exists (Abs (LIVETALKING_PATH ++ ["wav"; avatar_id ++ ".wav"])) ;;
  if ex then ret ref_file
  else
    names <- os_listdir WAV_DIR ;;
    match List.filter (fun f => endswith f ".wav") names with
    | first :: _ => ret ("wav/" ++ first)
    | [] => ret "wav/default.wav"
    end.

Definition start_avatar (avatar_id : string) : M pydict :=
  ex <- check_avatar_exists avatar_id ;;
  when (negb ex) (raise (HTTPException 404 ("数字人不存在: " ++ avatar_id))) ;;;
  rp <- gets running_processes ;;
  match rp !! avatar_id with
  | Some process =>
      rc <- gets (poll process) ;;
      when (bool_decide (rc = None)) (raise (HTTPException 400 "该数字人已在运行"))
  | None => ret tt
  end ;;;
  try_finally
    (try_except
       (os_chdir (Abs LIVETALKING_PATH) ;;;
        ss <- gets sessions ;;
        let ref_text :=
          default (VStr "Hello, I am a digital avatar.")
                  (default ∅ (ss !! avatar_id) !! "ref_text") in
        ref_file <- choose_ref_file avatar_id ;;
        now <- gets clock ;;
        open_w (path_join LOGS_DIR
                  ("run_" ++ avatar_id ++ "_" ++ strftime now ++ ".log")) ;;;
        process <- Popen (start_cmd avatar_id ref_file (str_val ref_text))
                         (Abs LIVETALKING_PATH) ;;
        modify (fun w => set_running_processes
                           (<[avatar_id := process]> (running_processes w)) w) ;;;
        modify (fun w =>
          match sessions w !! avatar_id with
          | Some _ => w
          | None => set_sessions (<[avatar_id := ∅]> (sessions w)) w
          end) ;;;
        session_set avatar_id "status" (VStr "running") ;;;
        session_set avatar_id "pid" (VInt (Z.of_nat process)) ;;;
        time_sleep 2 ;;;
        rc <- gets (poll process) ;;
        when (negb (bool_decide (rc = None)))
          (del_running_processes avatar_id ;;;
           session_set avatar_id "status" (VStr "error") ;;;
           raise (HTTPException 500 "启动失败，进程已退出")) ;;;
        ret (list_to_map
               [("status", VStr "started");
                ("avatar_id", VStr avatar_id);
                ("pid", VInt (Z.of_nat process));
                ("webrtc_url", VStr "http://localhost:8010")] : pydict))
       (except_Exception (fun e =>
          ss <- gets sessions ;;
          when (bool_decide (is_Some (ss !! avatar_id)))
            (session_set avatar_id "status" (VStr "error")) ;;;
          raise (HTTPException 500 ("启动失败: " ++ str_exn e)))))
    (sd <- gets script_dir ;; os_chdir (Abs sd)).

Definition stop_avatar (avatar_id : string) : M pydict :=
  rp <- gets running_processes ;;
  match rp !! avatar_id with
  | None =>
      ret (list_to_map
             [("status", VStr "not_running");
              ("message", VStr "该数字人未在运行")] : pydict)
  | Some pid =>
      try_except
        (kill_process_tree pid ;;;
         del_running_processes avatar_id ;;;
         ss <- gets sessions ;;
         when (bool_decide (is_Some (ss !! avatar_id)))
           (session_set avatar_id "status" (VStr "ready") ;;;
            session_drop_pid avatar_id) ;;;
         ret (list_to_map
                [("status", VStr "stopped");
                 ("avatar_id", VStr avatar_id);
                 ("pid", VInt (Z.of_nat pid))] : pydict))
        (except_Exception (fun e =>
           raise (HTTPException 500 ("停止失败: " ++ str_exn e))))
  end.

Definition scan_existing_item (item : string) (avatars : list string) : M (list string) :=
  isd <- os_path_isdir (path_join AVATARS_DIR item) ;;
  if isd && startswith item "wav2lip256_" then ret (avatars ++ [item])%list
  else ret avatars.

Fixpoint scan_existing_items (items : list string) (avatars : list string) :
    M (list string) :=
  match items with
  | [] => ret avatars
  | item :: rest =>
      avatars' <- scan_existing_item item avatars ;; scan_existing_items rest avatars'
  end.

Definition scan_existing_avatars : M (list string) :=
  ex <- os_path_exists AVATARS_DIR ;;
  if ex then
    items <- os_listdir AVATARS_DIR ;;
    scan_existing_items items []
  else ret [].

(** The body of the loop of [list_avatars]: the entry of one avatar. *)
Definition avatar_info (avatar_id : string) : M pydict :=
  let info : pydict :=
    list_to_map
      [("avatar_id", VStr avatar_id);
       ("name", VStr (remove_all "wav2lip256_" 0 avatar_id));
       ("status", VStr "ready");
       ("is_running", VBool false)] in
  rp <- gets running_processes ;;
  info <- match rp !! avatar_id with
          | Some process =>
              rc <- gets (poll process) ;;
              if bool_decide (rc = None) then
                ret (<["pid" := VInt (Z.of_nat process)]>
                       (<["is_running" := VBool true]>
                          (<["status" := VStr "running"]> info)))
              else ret info
          | None => ret info
          end ;;
  tp <- gets training_processes ;;
  match tp !! avatar_id with
  | Some process =>
      rc <- gets (poll process) ;;
      if bool_decide (rc = None) then ret (<["status" := VStr "training"]> info)
      else ret info
  | None => ret info
  end.

Fixpoint avatar_infos (avatars : list string) (avatar_info_list : list pydict) :
    M (list pydict) :=
  match avatars with
  | [] => ret avatar_info_list
  | avatar_id :: rest =>
      info <- avatar_info avatar_id ;;
      avatar_infos rest (avatar_info_list ++ [info])%list
  end.

(** The answer of [list_avatars]: the entries and their number. *)
Definition list_avatars : M (list pydict * nat) :=
  avatars <- scan_existing_avatars ;;
  avatar_info_list <- avatar_infos avatars [] ;;
  ret (avatar_info_list, length avatar_info_list).

Definition get_training_status (avatar_id : string) : M pydict :=
  ss <- gets sessions ;;
  match ss !! avatar_id with
  | Some session => ret session
  | None =>
      ex <- check_avatar_exists avatar_id ;;
      if ex then
        ret (list_to_map
               [("avatar_id", VStr avatar_id);
                ("status", VStr "ready");
                ("exists", VBool true)] : pydict)
      else
        ret (list_to_map
               [("avatar_id", VStr avatar_id);
                ("status", VStr "not_found");
                ("exists", VBool false)] : pydict)
  end.

(** The [shutdown] hook; every [kill_process_tree] sits in a [try] with a
    bare [except: pass]. *)
Definition shutdown_event : M unit :=
  rp <- gets running_processes ;;
  for_each (map_to_list rp) (fun item =>
    try_except (kill_process_tree (snd item)) (except_Exception (fun _ => ret tt))) ;;;
  tp <- gets training_processes ;;
  for_each (map_to_list tp) (fun item =>
    try_except (kill_process_tree (snd item)) (except_Exception (fun _ => ret tt))).

End Calendar.

End V2.

(** * Specification vocabulary *)

Open Scope list_scope.

(** Everything but the process table, the clock and the trace. *)
Definition frame (w w' : World) : Prop :=
  fs w' = fs w /\ cwd w' = cwd w /\ script_dir w' = script_dir w /\
  fs_faults w' = fs_faults w /\ programs w' = programs w /\
  sessions w' = sessions w /\ running_processes w' = running_processes w /\
  training_processes w' = training_processes w /\
  training_status w' = training_status w /\ background w' = background w.

(** Time passes and processes die; nothing comes back to life. *)
Definition decays (w w' : World) : Prop :=
  frame w w' /\
  (clock w <= clock w')%nat /\
  forall pid, is_alive pid w' = true -> is_alive pid w = true.

(** * Worlds, answers and predicates used in the statements *)

Definition stopped_simple : pydict := {[ "status" := VStr "stopped" ]}.

Definition not_running_simple : pydict := {[ "status" := VStr "not_running" ]}.

Definition same_os (w w' : World) : Prop :=
  procs w' = procs w /\ clock w' = clock w /\ trace w' = trace w /\
  fs w' = fs w /\ cwd w' = cwd w /\ script_dir w' = script_dir w /\
  fs_faults w' = fs_faults w /\ programs w' = programs w.

(** The session table after [stop_avatar] has reset the entry of [sid]. *)
Definition sessions_after_stop (sid : string) (ss : gmap string pydict) :
    gmap string pydict :=
  match ss !! sid with
  | Some d => <[sid := delete "pid" (<["status" := VStr "ready"]> d)]> ss
  | None => ss
  end.

Definition stopped_v1 (session_id : string) (pid : nat) : pydict :=
  list_to_map [("status", VStr "stopped"); ("session_id", VStr session_id);
               ("pid", VInt (Z.of_nat pid))].

Definition stopped_v2 (avatar_id : string) (pid : nat) : pydict :=
  list_to_map [("status", VStr "stopped"); ("avatar_id", VStr avatar_id);
               ("pid", VInt (Z.of_nat pid))].

Definition not_running_v : pydict :=
  list_to_map [("status", VStr "not_running"); ("message", VStr "该数字人未在运行")].

Definition empty_world : World :=
  {| procs := ∅; clock := 0; fs := Dir ∅; cwd := []; script_dir := [];
     fs_faults := []; programs := []; trace := [];
     sessions := ∅; running_processes := ∅; training_processes := ∅;
     training_status := ∅; background := [] |}.

(** A process without an end of its own. *)
Definition daemon (parent : nat) (graceful : bool) : process :=
  {| ppid := parent; exit_at := None; exit_code := 0;
     honours_term := graceful; killed := None |}.

(** A serving process 1 with a worker 2, registered under one name. *)
Definition world_with_worker : World :=
  set_running_processes {[ "wav2lip256_a" := 1%nat ]}
    (set_procs (<[1%nat := daemon 0 true]> {[ 2%nat := daemon 1 true ]}) empty_world).

(** A serving process that ignores the graceful signal. *)
Definition world_stubborn : World :=
  set_running_processes {[ "s1" := 1%nat ]}
    (set_procs {[ 1%nat := daemon 0 false ]} empty_world).

(** The stop procedure of the specification, on the trace: every
    descendant receives the graceful signal before the parent does, and
    afterwards neither the parent nor a descendant is alive. *)
Definition terminates_tree_first (stop : string -> M pydict) : Prop :=
  forall w name pid,
    running_processes w !! name = Some pid -> is_alive pid w = true ->
    exists resp w' before after,
      stop name w = (Ok resp, w') /\
      trace w' = trace w ++ before ++ ETerminate pid :: after /\
      (forall c, In c (children_recursive pid w) -> In (ETerminate c) before) /\
      (forall c, In c (children_recursive pid w) -> is_alive c w' = false) /\
      is_alive pid w' = false.

(** The last system call of the stop procedure collects the parent. *)
Definition reaps_parent (stop : string -> M pydict) : Prop :=
  forall w name pid,
    running_processes w !! name = Some pid -> is_alive pid w = true ->
    exists resp w' evs,
      stop name w = (Ok resp, w') /\
      trace w' = trace w ++ evs ++ [EWait pid 5].

(** What a tree-terminating [stop] does to a live job: the descendants found
    at call time get the graceful signal, the supervisor waits for them for
    at most five seconds (until [w2]), those still alive then are
    force-killed, and only then the parent is signalled, waited for and, when
    the wait runs out, force-killed. *)
Definition tree_stop_outcome (stop : string -> M pydict) (resp : pydict)
    (w : World) (name : string) (pid : nat) : Prop :=
  let ds := children_recursive pid w in
  exists w2 w' tail,
    stop name w = (Ok resp, w') /\
    trace w' = trace w ++ map ETerminate ds ++ [EWaitProcs ds 5]
                 ++ map EKill (List.filter (fun c => is_alive c w2) ds)
                 ++ ETerminate pid :: tail /\
    (tail = [EWait pid 5] \/ tail = [EWait pid 5; EKill pid] \/ tail = [EKill pid]) /\
    trace w2 = trace w ++ map ETerminate ds ++ [EWaitProcs ds 5] /\
    (clock w <= clock w2 <= clock w + 5)%nat /\
    (clock w2 <= clock w' <= clock w2 + 5)%nat /\
    (forall c, In c ds -> is_alive c w' = false) /\
    is_alive pid w' = false /\
    running_processes w' !! name = None.

(** What [stop_avatar] of [backend_simple.py] does to a live job: only the
    process itself is signalled. *)
Definition single_stop_outcome (w : World) (name : string) (pid : nat) : Prop :=
  exists w' tail,
    Simple.stop_avatar name w = (Ok stopped_simple, w') /\
    trace w' = trace w ++ ETerminate pid :: EWait pid 5 :: tail /\
    (tail = [] \/ tail = [EKill pid]) /\
    (clock w <= clock w' <= clock w + 5)%nat /\
    is_alive pid w' = false /\
    (forall c, c <> pid -> procs w' !! c = procs w !! c) /\
    running_processes w' !! name = None.

Definition running_simple (avatar_id : string) (pid : nat) : pydict :=
  list_to_map [("status", VStr "running"); ("pid", VInt (Z.of_nat pid));
               ("avatar_id", VStr avatar_id)].

(** The new pid and the world once [start_avatar] has spawned the command,
    registered it and slept through the grace interval. *)
Definition simple_spawned (request : Simple.StartRequest) (pr : program)
    (rest : list (option program)) (w : World) : nat * World :=
  let '(pid, tbl) := spawn_program server_pid (clock w) pr (procs w) in
  (pid,
   set_clock (clock w + 3)
     (set_trace ((trace w ++ [EPopen (Simple.start_cmd request) LIVETALKING_PATH pid])
                   ++ [ESleep 3])
        (set_running_processes
           (<[Simple.start_avatar_id request := pid]> (running_processes w))
           (set_procs tbl (set_programs rest w))))).

(** A registry entry whose process ended by itself before the stop. *)
Definition world_exited : World :=
  set_clock 10
    (set_running_processes {[ "wav2lip256_a" := 1%nat ]}
       (set_procs {[ 1%nat := {| ppid := 0; exit_at := Some 4%nat; exit_code := 1;
                                 honours_term := true; killed := None |} ]}
          empty_world)).

(** [m] only appends to the trace, and every event it appends satisfies
    [P]. *)
Definition emits_only {A} (P : event -> Prop) (m : M A) : Prop :=
  forall w, exists evs, trace (snd (m w)) = trace w ++ evs /\ Forall P evs.

Create HintDb emits.

(** The events of a run in which every spawned command is [cmd]. *)
Definition spawns_only (cmd : list string) (e : event) : Prop :=
  match e with
  | EPopen c _ _ => c = cmd
  | _ => True
  end.

(** The response of [train_avatar]. *)
Definition training_started_simple (avatar_id : string) : pydict :=
  list_to_map [("status", VStr "training_started"); ("avatar_id", VStr avatar_id)].

(** The command line of the trainer for the job [avatar_id]. *)
Definition genavatar_cmd (avatar_id video_path : string) : list string :=
  ["python"; "genavatar.py"; "--video_path"; video_path; "--img_size"; "256";
   "--avatar_id"; avatar_id]%string.

(** A train request for a name without the prefix. *)
Definition simple_train_request : Simple.TrainRequest :=
  {| Simple.train_avatar_id := "anna"; Simple.train_video_path := "uploads\anna.mp4";
     Simple.train_audio_path := Rel ["uploads"; "anna.wav"]%string;
     Simple.train_ref_text := "hello" |}.

Definition v2_train_request : V2.TrainRequest :=
  {| V2.train_avatar_id := "wav2lip256_anna"; V2.train_video_path := "uploads\anna.mp4";
     V2.train_audio_path := Rel ["uploads"; "anna.wav"]%string;
     V2.train_ref_text := "hello"; V2.train_prompt := EmptyString |}.

(** The rejection of a start request for a job that is running. *)
Definition already_running : exn := HTTPException 400 "该数字人已在运行".

(** The status code of [409 Conflict]. *)
Definition HTTP_409_CONFLICT : Z := 409.

(** A tree with the given directories. *)
Definition tree_with (dirs : list path) : node :=
  fold_left (fun n d => default n (fs_makedirs n d)) dirs (Dir ∅).

(** The avatar [wav2lip256_a] is published and served by process 1. *)
Definition world_serving : World :=
  set_fs (tree_with [LIVETALKING_PATH ++ ["data"; "avatars"; "wav2lip256_a"]%string])
    (set_running_processes {[ "wav2lip256_a" := 1%nat ]}
       (set_procs {[ 1%nat := daemon 0 true ]} empty_world)).

(** The same job after its published directory has been removed. *)
Definition world_serving_unpublished : World :=
  set_fs (tree_with [LIVETALKING_PATH ++ ["data"; "avatars"]%string]) world_serving.

Definition start_request_a : Simple.StartRequest :=
  {| Simple.start_avatar_id := "wav2lip256_a";
     Simple.start_ref_file := "wav\wav2lip256_a.wav";
     Simple.start_ref_text := "hello" |}.

(** C3 as stated: a start request for a name with a live process is answered
    with [409 Conflict]. *)
Definition rejects_with_conflict (start : string -> M pydict) : Prop :=
  forall w name pid,
    running_processes w !! name = Some pid -> is_alive pid w = true ->
    exists detail, start name w = (Raise (HTTPException HTTP_409_CONFLICT detail), w).

(** A session that is ready to be served; the command will exit at once with
    the code 1. *)
Definition world_v1_ready : World :=
  set_programs [Some (Program (Some 0%nat) 1 true [])]
    (set_sessions
       {[ "s1" := (list_to_map
                     [("session_id", VStr "s1"); ("avatar_id", VStr "wav2lip256_a");
                      ("ref_file", VStr "wav/wav2lip256_a.wav"); ("ref_text", VStr "hello");
                      ("status", VStr "ready")] : pydict) ]}
       (set_fs (tree_with [LIVETALKING_PATH ++ ["logs"]%string]) empty_world)).

(** The avatar is published and registered, but its process ended at time 4. *)
Definition world_stale : World :=
  set_fs (tree_with [LIVETALKING_PATH ++ ["data"; "avatars"; "wav2lip256_a"]%string])
    world_exited.

(** A session marked as running whose process ended at time 4. *)
Definition world_v1_stale : World :=
  set_sessions
    {[ "s1" := (list_to_map
                  [("session_id", VStr "s1"); ("avatar_id", VStr "wav2lip256_a");
                   ("status", VStr "running"); ("pid", VInt 1)] : pydict) ]}
    (set_clock 10
       (set_running_processes {[ "s1" := 1%nat ]}
          (set_procs {[ 1%nat := {| ppid := 0; exit_at := Some 4%nat; exit_code := 1;
                                    honours_term := true; killed := None |} ]}
             empty_world))).

Definition avatars_path : path := LIVETALKING_PATH ++ ["data"; "avatars"]%string.

Definition results_path : path := LIVETALKING_PATH ++ ["wav2lip"; "results"; "avatars"]%string.

(** The world with the training status of [avatar_id] set. *)
Definition with_status (avatar_id status : string) (w : World) : World :=
  set_training_status (<[avatar_id := status]> (training_status w)) w.

(** The relocation step of [run_training]: the published directory, when
    there is one, is removed and the staged one is moved to its place. *)
Definition simple_relocate (avatar_id : string) : M unit :=
  dest_exists <- os_path_exists (path_join AVATARS_DIR avatar_id) ;;
  when dest_exists (shutil_rmtree (path_join AVATARS_DIR avatar_id)) ;;;
  shutil_move (path_join RESULTS_DIR avatar_id) (path_join AVATARS_DIR avatar_id).

(** A publish that never removes a directory. *)
Definition displaces_without_deleting {A} (publish : M A) : Prop :=
  emits_only (fun e => match e with ERmtree _ => False | _ => True end) publish.

(** A published artifact [v1], a staged artifact [v2], a trainer that exits
    with the code 0 after five seconds, and a file system on which the
    second file operation fails. *)
Definition world_publish : World :=
  set_fs_faults [false; true]
    (set_programs [Some (Program (Some 5%nat) 0 true [])]
       (set_fs
          (fs_put
             (fs_put
                (tree_with [avatars_path ++ ["wav2lip256_a"]%string;
                            results_path ++ ["wav2lip256_a"]%string;
                            LIVETALKING_PATH ++ ["wav"]%string])
                (avatars_path ++ ["wav2lip256_a"; "model.pth"]%string) (File "v1"))
             (results_path ++ ["wav2lip256_a"; "model.pth"]%string) (File "v2"))
          empty_world)).

Definition artifact_v1 : node := Dir {[ "model.pth" := File "v1" ]}.

Definition artifact_v2 : node := Dir {[ "model.pth" := File "v2" ]}.

(** What [run_training] of [livetalking_backend_v2.py] does up to the end of
    the wait for the trainer. *)
Definition v2_await (strftime : nat -> string) (avatar_id video_path : string) : M Z :=
  session_set avatar_id "status" (VStr "training") ;;;
  os_chdir WAV2LIP_PATH ;;;
  now <- gets clock ;;
  open_w (path_join LOGS_DIR
            ("train_" +:+ avatar_id +:+ "_" +:+ strftime now +:+ ".log")) ;;;
  process <- Popen (V2.training_cmd avatar_id video_path) WAV2LIP_PATH ;;
  modify (fun w => set_training_processes
                     (<[avatar_id := process]> (training_processes w)) w) ;;;
  popen_wait process 1200.

(** The value of a key of a session. *)
Definition session_field (sid key : string) (w : World) : option pyval :=
  match sessions w !! sid with
  | Some d => d !! key
  | None => None
  end.

(** Code that does not raise [subprocess.TimeoutExpired]. *)
Definition no_timeout {A} (m : M A) : Prop :=
  forall w w', m w <> (Raise SubprocessTimeoutExpired, w').

(** What [run_training] of [livetalking_backend.py] does up to the end of
    the wait for the trainer. *)
Definition v1_await (session_id avatar_id video_path : string) : M Z :=
  os_chdir WAV2LIP_PATH ;;;
  open_w (path_join LOGS_DIR ("train_" +:+ session_id +:+ ".log")) ;;;
  process <- Popen (V1.training_cmd avatar_id video_path) WAV2LIP_PATH ;;
  modify (fun w => set_training_processes
                     (<[session_id := process]> (training_processes w)) w) ;;;
  popen_wait process 600.

(** A trainer that never exits and has forked one worker; the session [s1]
    waits for it. *)
Definition world_hung : World :=
  set_sessions {[ "s1" := ({[ "status" := VStr "training" ]} : pydict) ]}
    (set_programs [Some (Program None 0 true [Program None 0 true []])]
       (set_fs (tree_with [LIVETALKING_PATH ++ ["wav2lip"; "logs"]%string]) empty_world)).

(** The reading of the claim on [backend_simple.py]: after a timeout no
    descendant of the trainer is alive. *)
Definition simple_timeout_kills_tree : Prop :=
  forall avatar_id video audio text w pid w0 w1 r w',
    Popen (Simple.training_cmd avatar_id video) Simple.WAV2LIP_DIR w = (Ok pid, w0) ->
    subprocess_run (Simple.training_cmd avatar_id video) Simple.WAV2LIP_DIR 1800 w
      = (Raise SubprocessTimeoutExpired, w1) ->
    Simple.run_training avatar_id video audio text w = (r, w') ->
    forall c, In c (children_recursive pid w1) -> is_alive c w' = false.

(** Run from [w], [m] leaves the table entry of every process outside [S]
    as it was. *)
Definition spares {A} (S : nat -> Prop) (m : M A) (w : World) : Prop :=
  forall c, ~ S c -> procs (snd (m w)) !! c = procs w !! c.

(** The test of the scanning loops on one directory entry. *)
Definition published (w : World) (item : string) : bool :=
  startswith item "wav2lip256_" && is_dir (lookup_path (path_join AVATARS_DIR item) w).

(** The process registered under [name] in [registry], when it is alive. *)
Definition live_entry (registry : gmap string nat) (name : string) (w : World) : option nat :=
  match registry !! name with
  | Some pid => if is_alive pid w then Some pid else None
  | None => None
  end.

(** The status [list_avatars] reports for an avatar. *)
Definition listed_status (w : World) (avatar_id : string) : string :=
  if bool_decide (is_Some (live_entry (training_processes w) avatar_id w)) then "training"
  else if bool_decide (is_Some (live_entry (running_processes w) avatar_id w)) then "running"
  else "ready".

(** The copy of the reference audio in [run_training] of
    [livetalking_backend.py]. *)
Definition v1_copy_audio (avatar_id : string) (audio_path : pypath) : M unit :=
  os_makedirs (Abs (LIVETALKING_PATH ++ ["wav"])) ;;;
  shutil_copy2 audio_path
    (path_join (Abs (LIVETALKING_PATH ++ ["wav"])) (avatar_id +:+ ".wav")).

(** Code whose outcome does not depend on the sessions and which leaves
    them alone. *)
Definition ignores_sessions {A} (m : M A) : Prop :=
  forall s w, m (set_sessions s w) = (fst (m w), set_sessions s (snd (m w))).

(** A trainer that has exited by itself after five seconds: the session
    [s1], the log directory under [wav2lip] and an uploaded audio file, but
    no results directory. *)
Definition world_v1_training (code : Z) : World :=
  set_sessions {[ "s1" := ({[ "status" := VStr "training" ]} : pydict) ]}
    (set_programs [Some (Program (Some 5%nat) code true [])]
       (set_fs
          (fs_put (tree_with [LIVETALKING_PATH ++ ["wav2lip"; "logs"]; ["uploads"]])
                  ["uploads"; "a.wav"] (File "RIFF"))
          empty_world)).

(** The published avatar [wav2lip256_a] is still to come: its result is
    staged, the session waits, and the uploaded audio lies below the
    directory of the server. *)
Definition world_v2_training : World :=
  set_sessions {[ "wav2lip256_a" := ({[ "status" := VStr "training" ]} : pydict) ]}
    (set_programs [Some (Program (Some 5%nat) 0 true [])]
       (set_fs
          (fs_put
             (fs_put
                (tree_with [LIVETALKING_PATH ++ ["wav2lip"; "logs"];
                            results_path ++ ["wav2lip256_a"];
                            avatars_path;
                            LIVETALKING_PATH ++ ["wav"];
                            ["uploads"]])
                (results_path ++ ["wav2lip256_a"; "model.pth"]) (File "v2"))
             ["uploads"; "a.wav"] (File "RIFF"))
          empty_world)).

(** A session that is ready to be served by a command that keeps running. *)
Definition world_v1_idle : World :=
  set_programs [Some (Program None 0 true [])] world_v1_ready.

(** No occurrence of [old] in [s]. *)
Fixpoint free_of (old s : string) : bool :=
  match s with
  | EmptyString => true
  | String c s' => negb (String.prefix old s) && free_of old s'
  end.

(** Does the path exist? *)
Definition path_exists (p : pypath) (w : World) : bool :=
  match lookup_path p w with Some _ => true | None => false end.

(** * Properties *)

(** ** Stepping through monadic code *)

Lemma bind_ok {A B} (m : M A) (k : A -> M B) w a w' :
  m w = (Ok a, w') -> (x <- m ;; k x) w = k a w'.
Proof. intros H. unfold bind. rewrite H. reflexivity. Qed.

Lemma bind_raise {A B} (m : M A) (k : A -> M B) w e w' :
  m w = (Raise e, w') -> (x <- m ;; k x) w = (Raise e, w').
Proof. intros H. unfold bind. rewrite H. reflexivity. Qed.

Lemma try_except_ok {A} (m : M A) h w a w' :
  m w = (Ok a, w') -> try_except m h w = (Ok a, w').
Proof. intros H. unfold try_except. rewrite H. reflexivity. Qed.

Lemma try_except_raise {A} (m : M A) h w e w' :
  m w = (Raise e, w') ->
  try_except m h w = match h e with Some k => k w' | None => (Raise e, w') end.
Proof. intros H. unfold try_except. rewrite H. reflexivity. Qed.

(** ** What the signalling primitives change *)

Lemma frame_refl w : frame w w.
Proof. repeat split. Qed.

Lemma frame_trans w1 w2 w3 : frame w1 w2 -> frame w2 w3 -> frame w1 w3.
Proof. unfold frame. intros H1 H2. intuition congruence. Qed.

Lemma decays_refl w : decays w w.
Proof. split; [apply frame_refl | split; [lia | auto]]. Qed.

Lemma decays_trans w1 w2 w3 : decays w1 w2 -> decays w2 w3 -> decays w1 w3.
Proof.
  intros (F1 & C1 & A1) (F2 & C2 & A2).
  split; [eapply frame_trans; eauto | split; [lia | auto]].
Qed.

Lemma decays_dead w w' pid : decays w w' -> is_alive pid w = false -> is_alive pid w' = false.
Proof.
  intros (_ & _ & A) H. destruct (is_alive pid w') eqn:E; [|reflexivity].
  apply A in E. congruence.
Qed.

Lemma returncode_later now now' p :
  (now <= now')%nat -> proc_alive now' p = true -> proc_alive now p = true.
Proof.
  unfold proc_alive, returncode. intros Hle.
  destruct (killed p); [discriminate|].
  destruct (exit_at p) as [t|]; [|reflexivity].
  destruct (t <=? now')%nat eqn:E1; [discriminate|].
  destruct (t <=? now)%nat eqn:E2; [|reflexivity].
  apply Nat.leb_le in E2. apply Nat.leb_gt in E1. lia.
Qed.

Lemma is_alive_proc pid w :
  is_alive pid w = true <->
  exists p, procs w !! pid = Some p /\ proc_alive (clock w) p = true.
Proof.
  unfold is_alive, poll, proc_alive. destruct (procs w !! pid) as [p|].
  - split; [intros H; exists p; split; [reflexivity | exact H] | intros (q & [= <-] & H); exact H].
  - split; [discriminate | intros (q & [=] & _)].
Qed.

Lemma decays_set_clock w t : (clock w <= t)%nat -> decays w (set_clock t w).
Proof.
  intros Hle. split; [repeat split | split; [exact Hle|]].
  intros pid H. apply is_alive_proc in H as (p & Hp & Ha). apply is_alive_proc.
  exists p. split; [exact Hp|]. simpl in Ha. eapply returncode_later; eauto.
Qed.

Lemma mark_killed_dead now s p : proc_alive now (mark_killed s p) = false.
Proof. reflexivity. Qed.

Lemma decays_mark_killed w pid p s :
  procs w !! pid = Some p ->
  decays w (set_procs (<[pid := mark_killed s p]> (procs w)) w).
Proof.
  intros Hp. split; [repeat split | split; [simpl; lia|]].
  intros q H. apply is_alive_proc in H as (p' & Hq & Ha). simpl in Hq, Ha.
  destruct (decide (pid = q)) as [->|Hne].
  - rewrite lookup_insert_eq in Hq. injection Hq as <-. discriminate.
  - rewrite lookup_insert_ne in Hq by exact Hne. apply is_alive_proc. eauto.
Qed.

Lemma decays_set_trace w t : decays w (set_trace t w).
Proof. split; [repeat split | split; [simpl; lia | auto]]. Qed.

Lemma is_alive_mark_killed w pid p s :
  is_alive pid (set_procs (<[pid := mark_killed s p]> (procs w)) w) = false.
Proof. unfold is_alive, poll. simpl. rewrite lookup_insert_eq. reflexivity. Qed.

Lemma terminate_spec pid w :
  exists r w',
    terminate pid w = (r, w') /\
    ((r = Ok tt /\ is_alive pid w = true) \/
     (r = Raise (NoSuchProcess pid) /\ is_alive pid w = false)) /\
    trace w' = trace w ++ [ETerminate pid] /\
    clock w' = clock w /\ decays w w'.
Proof.
  unfold terminate, bind, log, modify. simpl.
  unfold is_alive, poll.
  destruct (procs w !! pid) as [p|] eqn:Hp.
  - unfold proc_alive. destruct (returncode (clock w) p) eqn:Ha.
    + eexists _, _. split; [reflexivity|]. split; [by right|]. split; [reflexivity|].
      split; [reflexivity|]. apply decays_set_trace.
    + destruct (honours_term p).
      * eexists _, _. split; [reflexivity|]. split; [by left|]. split; [reflexivity|].
        split; [reflexivity|].
        eapply decays_trans; [apply (decays_set_trace w)|].
        apply (decays_mark_killed (set_trace _ w)). exact Hp.
      * eexists _, _. split; [reflexivity|]. split; [by left|]. split; [reflexivity|].
        split; [reflexivity|]. apply decays_set_trace.
  - eexists _, _. split; [reflexivity|]. split; [by right|]. split; [reflexivity|].
    split; [reflexivity|]. apply decays_set_trace.
Qed.

Lemma kill_spec pid w :
  exists r w',
    kill pid w = (r, w') /\
    (r = Ok tt \/ r = Raise (NoSuchProcess pid)) /\
    trace w' = trace w ++ [EKill pid] /\
    clock w' = clock w /\ decays w w' /\ is_alive pid w' = false.
Proof.
  unfold kill, bind, log, modify. simpl.
  destruct (procs w !! pid) as [p|] eqn:Hp.
  - destruct (proc_alive (clock w) p) eqn:Ha.
    + eexists _, _. split; [reflexivity|]. split; [by left|]. split; [reflexivity|].
      split; [reflexivity|]. split.
      * eapply decays_trans; [apply (decays_set_trace w)|].
        apply (decays_mark_killed (set_trace _ w)). exact Hp.
      * apply (is_alive_mark_killed (set_trace _ w)).
    + eexists _, _. split; [reflexivity|]. split; [by right|]. split; [reflexivity|].
      split; [reflexivity|]. split; [apply decays_set_trace|].
      unfold is_alive, poll, proc_alive in *. simpl. rewrite Hp.
      destruct (returncode (clock w) p); [reflexivity | discriminate].
  - eexists _, _. split; [reflexivity|]. split; [by right|]. split; [reflexivity|].
    split; [reflexivity|]. split; [apply decays_set_trace|].
    unfold is_alive, poll. simpl. rewrite Hp. reflexivity.
Qed.

Lemma gone_time_ge pid w t : gone_time pid w = Some t -> (clock w <= t)%nat.
Proof.
  unfold gone_time. destruct (procs w !! pid) as [p|]; [|intros [= <-]; lia].
  destruct (killed p); [intros [= <-]; lia|].
  destruct (exit_at p); simpl; [intros [= <-]; lia | discriminate].
Qed.

Lemma all_gone_time_ge pids w t : all_gone_time pids w = Some t -> (clock w <= t)%nat.
Proof.
  revert t. induction pids as [|pid pids IH]; simpl; intros t.
  - intros [= <-]. lia.
  - destruct (gone_time pid w) as [a|] eqn:Ha; [|discriminate].
    destruct (all_gone_time pids w) as [b|]; [|discriminate].
    intros [= <-]. specialize (IH b eq_refl). lia.
Qed.

Lemma wait_clock_bounds t timeout w :
  (forall t0, t = Some t0 -> (clock w <= t0)%nat) ->
  (clock w <= wait_clock t timeout w <= clock w + timeout)%nat.
Proof.
  intros H. unfold wait_clock. destruct t as [t0|]; [|lia].
  specialize (H t0 eq_refl).
  destruct (t0 <=? clock w + timeout)%nat eqn:E; [apply Nat.leb_le in E|]; lia.
Qed.

Lemma psutil_wait_spec pid timeout w :
  exists r w',
    psutil_wait pid timeout w = (r, w') /\
    ((r = Ok tt /\ is_alive pid w' = false) \/
     (r = Raise PsutilTimeoutExpired /\ is_alive pid w' = true)) /\
    trace w' = trace w ++ [EWait pid timeout] /\
    (clock w <= clock w' <= clock w + timeout)%nat /\ decays w w'.
Proof.
  unfold psutil_wait, bind, log, modify. simpl.
  set (w1 := set_trace (trace w ++ [EWait pid timeout]) w).
  set (w2 := set_clock (wait_clock (gone_time pid w1) timeout w1) w1).
  assert (Hb : (clock w <= clock w2 <= clock w + timeout)%nat).
  { apply (wait_clock_bounds _ timeout w1). intros t0. apply gone_time_ge. }
  assert (Hd : decays w w2).
  { eapply decays_trans; [apply (decays_set_trace w)|].
    apply (decays_set_clock w1). apply Hb. }
  destruct (is_alive pid w2) eqn:Ha.
  - eexists _, _. split; [reflexivity|]. split; [right; split; [reflexivity | exact Ha]|].
    split; [reflexivity|]. split; [exact Hb | exact Hd].
  - eexists _, _. split; [reflexivity|]. split; [left; split; [reflexivity | exact Ha]|].
    split; [reflexivity|]. split; [exact Hb | exact Hd].
Qed.

Lemma wait_procs_spec pids timeout w :
  exists w',
    wait_procs pids timeout w =
      (Ok (List.filter (fun c => negb (is_alive c w')) pids,
           List.filter (fun c => is_alive c w') pids), w') /\
    trace w' = trace w ++ [EWaitProcs pids timeout] /\
    (clock w <= clock w' <= clock w + timeout)%nat /\ decays w w'.
Proof.
  unfold wait_procs, bind, log, modify. simpl.
  set (w1 := set_trace (trace w ++ [EWaitProcs pids timeout]) w).
  set (w2 := set_clock (wait_clock (all_gone_time pids w1) timeout w1) w1).
  assert (Hb : (clock w <= clock w2 <= clock w + timeout)%nat).
  { apply (wait_clock_bounds _ timeout w1). intros t0. apply all_gone_time_ge. }
  exists w2. split; [reflexivity|]. split; [reflexivity|]. split; [exact Hb|].
  eapply decays_trans; [apply (decays_set_trace w)|].
  apply (decays_set_clock w1). apply Hb.
Qed.

(** ** The two loops and the parent step of [kill_process_tree] *)

Lemma terminate_all_spec l w :
  exists w',
    for_each l (fun child => try_except (terminate child) except_NoSuchProcess_pass) w
      = (Ok tt, w') /\
    trace w' = trace w ++ map ETerminate l /\
    clock w' = clock w /\ decays w w'.
Proof.
  revert w. induction l as [|c l IH]; intros w; simpl.
  - exists w. split; [reflexivity|]. split; [by rewrite app_nil_r|].
    split; [reflexivity | apply decays_refl].
  - destruct (terminate_spec c w) as (r & w1 & Ht & Hr & Htr & Hc & Hd).
    destruct (IH w1) as (w' & Hl & Htr' & Hc' & Hd').
    exists w'. split.
    + erewrite bind_ok; [exact Hl|].
      destruct Hr as [[-> _]|[-> _]].
      * erewrite try_except_ok by exact Ht. reflexivity.
      * erewrite try_except_raise by exact Ht. reflexivity.
    + split; [rewrite Htr', Htr, <- app_assoc; reflexivity|].
      split; [congruence | eapply decays_trans; eauto].
Qed.

Lemma kill_all_spec l w :
  exists w',
    for_each l (fun p => try_except (kill p) except_NoSuchProcess_pass) w
      = (Ok tt, w') /\
    trace w' = trace w ++ map EKill l /\
    clock w' = clock w /\ decays w w' /\
    forall c, In c l -> is_alive c w' = false.
Proof.
  revert w. induction l as [|c l IH]; intros w; simpl.
  - exists w. split; [reflexivity|]. split; [by rewrite app_nil_r|].
    split; [reflexivity|]. split; [apply decays_refl | intros c []].
  - destruct (kill_spec c w) as (r & w1 & Hk & Hr & Htr & Hc & Hd & Hdead).
    destruct (IH w1) as (w' & Hl & Htr' & Hc' & Hd' & Hall).
    exists w'. split.
    + erewrite bind_ok; [exact Hl|].
      destruct Hr as [->| ->].
      * erewrite try_except_ok by exact Hk. reflexivity.
      * erewrite try_except_raise by exact Hk. reflexivity.
    + split; [rewrite Htr', Htr, <- app_assoc; reflexivity|].
      split; [congruence|]. split; [eapply decays_trans; eauto|].
      intros c' [<-|Hin]; [eapply decays_dead; eauto | auto].
Qed.

Lemma kill_caught_spec pid w :
  exists w',
    try_except (kill pid) except_NoSuchProcess_pass w = (Ok tt, w') /\
    trace w' = trace w ++ [EKill pid] /\
    clock w' = clock w /\ decays w w' /\ is_alive pid w' = false.
Proof.
  destruct (kill_spec pid w) as (r & w1 & Hk & Hr & Htr & Hc & Hd & Hdead).
  exists w1. split; [|auto].
  destruct Hr as [->| ->].
  - erewrite try_except_ok by exact Hk. reflexivity.
  - erewrite try_except_raise by exact Hk. reflexivity.
Qed.

Lemma terminate_parent_spec pid w :
  exists w' tail,
    try_except (terminate pid ;;; psutil_wait pid 5) (parent_handler pid) w = (Ok tt, w') /\
    trace w' = trace w ++ ETerminate pid :: tail /\
    ((is_alive pid w = true /\ tail = [EWait pid 5]) \/
     (is_alive pid w = true /\ tail = [EWait pid 5; EKill pid]) \/
     (is_alive pid w = false /\ tail = [EKill pid])) /\
    (clock w <= clock w' <= clock w + 5)%nat /\
    decays w w' /\ is_alive pid w' = false.
Proof.
  destruct (terminate_spec pid w) as (r & w1 & Ht & Hr & Htr & Hc & Hd).
  destruct Hr as [[-> Ha]|[-> Ha]].
  - destruct (psutil_wait_spec pid 5 w1) as (r2 & w2 & Hw & Hr2 & Htr2 & Hc2 & Hd2).
    destruct Hr2 as [[-> Hdead]|[-> Halive]].
    + exists w2, [EWait pid 5]. split.
      * erewrite try_except_ok; [reflexivity|]. erewrite bind_ok by exact Ht. exact Hw.
      * split; [rewrite Htr2, Htr, <- app_assoc; reflexivity|].
        split; [by left|]. split; [lia|]. split; [eapply decays_trans; eauto | exact Hdead].
    + destruct (kill_caught_spec pid w2) as (w3 & Hk & Htr3 & Hc3 & Hd3 & Hdead).
      exists w3, [EWait pid 5; EKill pid]. split.
      * erewrite try_except_raise; [|erewrite bind_ok by exact Ht; exact Hw].
        simpl. exact Hk.
      * split; [rewrite Htr3, Htr2, Htr, <- !app_assoc; reflexivity|].
        split; [right; by left|]. split; [lia|].
        split; [eapply decays_trans; [|exact Hd3]; eapply decays_trans; eauto | exact Hdead].
  - destruct (kill_caught_spec pid w1) as (w3 & Hk & Htr3 & Hc3 & Hd3 & Hdead).
    exists w3, [EKill pid]. split.
    + erewrite try_except_raise; [|erewrite bind_raise by exact Ht; reflexivity].
      simpl. exact Hk.
    + split; [rewrite Htr3, Htr, <- !app_assoc; reflexivity|].
      split; [right; by right|]. split; [lia|].
      split; [eapply decays_trans; eauto | exact Hdead].
Qed.

(** ** [kill_process_tree] as a whole *)

Lemma kill_process_tree_alive pid w :
  is_alive pid w = true ->
  let ds := children_recursive pid w in
  exists w2 w' tail,
    kill_process_tree pid w = (Ok tt, w') /\
    trace w' = trace w ++ map ETerminate ds ++ [EWaitProcs ds 5]
                 ++ map EKill (List.filter (fun c => is_alive c w2) ds)
                 ++ ETerminate pid :: tail /\
    (tail = [EWait pid 5] \/ tail = [EWait pid 5; EKill pid] \/ tail = [EKill pid]) /\
    trace w2 = trace w ++ map ETerminate ds ++ [EWaitProcs ds 5] /\
    (clock w <= clock w2 <= clock w + 5)%nat /\
    (clock w2 <= clock w' <= clock w2 + 5)%nat /\
    decays w w2 /\ decays w2 w' /\
    (forall c, In c ds -> is_alive c w' = false) /\
    is_alive pid w' = false.
Proof.
  intros Ha ds.
  destruct (terminate_all_spec ds w) as (w1 & H1 & Htr1 & Hc1 & Hd1).
  destruct (wait_procs_spec ds 5 w1) as (w2 & H2 & Htr2 & Hc2 & Hd2).
  destruct (kill_all_spec (List.filter (fun c => is_alive c w2) ds) w2)
    as (w3 & H3 & Htr3 & Hc3 & Hd3 & Hdead3).
  destruct (terminate_parent_spec pid w3) as (w4 & tail & H4 & Htr4 & Htail & Hc4 & Hd4 & Hdead4).
  exists w2, w4, tail. split.
  - unfold kill_process_tree. erewrite try_except_ok; [reflexivity|].
    erewrite bind_ok by (unfold psutil_Process; rewrite Ha; reflexivity).
    erewrite bind_ok by reflexivity.
    erewrite bind_ok by exact H1.
    erewrite bind_ok by exact H2.
    simpl snd. erewrite bind_ok by exact H3. exact H4.
  - split; [rewrite Htr4, Htr3, Htr2, Htr1, <- !app_assoc; reflexivity|].
    split; [tauto|]. split; [rewrite Htr2, Htr1, <- app_assoc; reflexivity|].
    split; [lia|]. split; [lia|].
    split; [eapply decays_trans; eauto|]. split; [eapply decays_trans; eauto|].
    split; [|exact Hdead4].
    intros c Hin. destruct (is_alive c w2) eqn:E.
    + eapply decays_dead; [exact Hd4|]. apply Hdead3.
      apply filter_In. split; [exact Hin | exact E].
    + eapply decays_dead; [|exact E]. eapply decays_trans; eauto.
Qed.

Lemma kill_process_tree_gone pid w :
  is_alive pid w = false -> kill_process_tree pid w = (Ok tt, w).
Proof.
  intros Ha. unfold kill_process_tree.
  erewrite try_except_raise; [reflexivity|].
  erewrite bind_raise; [reflexivity|].
  unfold psutil_Process. rewrite Ha. reflexivity.
Qed.

Lemma kill_process_tree_total pid w :
  exists w', kill_process_tree pid w = (Ok tt, w') /\ decays w w' /\
             is_alive pid w' = false.
Proof.
  destruct (is_alive pid w) eqn:Ha.
  - destruct (kill_process_tree_alive pid w Ha)
      as (w2 & w' & tail & H & _ & _ & _ & _ & _ & Hd1 & Hd2 & _ & Hdead).
    exists w'. split; [exact H|]. split; [eapply decays_trans; eauto | exact Hdead].
  - exists w. split; [apply kill_process_tree_gone; exact Ha|].
    split; [apply decays_refl | exact Ha].
Qed.

(** ** [kill_process] of [backend_simple.py] *)

Lemma terminate_others pid w c :
  c <> pid -> procs (snd (terminate pid w)) !! c = procs w !! c.
Proof.
  intros Hne. unfold terminate, bind, log, modify. simpl.
  destruct (procs w !! pid) as [p|]; [|reflexivity].
  destruct (proc_alive (clock w) p); [|reflexivity].
  destruct (honours_term p); [|reflexivity].
  simpl. apply lookup_insert_ne. congruence.
Qed.

Lemma kill_others pid w c :
  c <> pid -> procs (snd (kill pid w)) !! c = procs w !! c.
Proof.
  intros Hne. unfold kill, bind, log, modify. simpl.
  destruct (procs w !! pid) as [p|]; [|reflexivity].
  destruct (proc_alive (clock w) p); [|reflexivity].
  simpl. apply lookup_insert_ne. congruence.
Qed.

Lemma psutil_wait_procs pid timeout w :
  procs (snd (psutil_wait pid timeout w)) = procs w.
Proof.
  unfold psutil_wait, bind, log, modify. simpl.
  match goal with |- context [if ?b then _ else _] => destruct b end; reflexivity.
Qed.

Lemma kill_process_alive pid w :
  is_alive pid w = true ->
  exists w' tail,
    Simple.kill_process pid w = (Ok tt, w') /\
    trace w' = trace w ++ ETerminate pid :: EWait pid 5 :: tail /\
    (tail = [] \/ tail = [EKill pid]) /\
    (clock w <= clock w' <= clock w + 5)%nat /\
    decays w w' /\ is_alive pid w' = false /\
    forall c, c <> pid -> procs w' !! c = procs w !! c.
Proof.
  intros Ha.
  assert (HP : psutil_Process pid w = (Ok pid, w))
    by (unfold psutil_Process; rewrite Ha; reflexivity).
  destruct (terminate_spec pid w) as (r & w1 & Ht & Hr & Htr & Hc & Hd).
  destruct Hr as [[-> _]|[_ Hdead]]; [|congruence].
  assert (Ho1 : forall c, c <> pid -> procs w1 !! c = procs w !! c).
  { intros c Hne. pose proof (terminate_others pid w c Hne) as H.
    rewrite Ht in H. exact H. }
  destruct (psutil_wait_spec pid 5 w1) as (r2 & w2 & Hw & Hr2 & Htr2 & Hc2 & Hd2).
  assert (Ho2 : procs w2 = procs w1).
  { pose proof (psutil_wait_procs pid 5 w1) as H. rewrite Hw in H. exact H. }
  destruct Hr2 as [[-> Hgone]|[-> Halive]].
  - exists w2, []. split.
    + unfold Simple.kill_process. erewrite try_except_ok; [reflexivity|].
      erewrite bind_ok by exact HP. erewrite bind_ok by exact Ht. exact Hw.
    + split; [rewrite Htr2, Htr, <- app_assoc; reflexivity|].
      split; [by left|]. split; [lia|]. split; [eapply decays_trans; eauto|].
      split; [exact Hgone|]. intros c Hne. rewrite Ho2. auto.
  - destruct (kill_spec pid w2) as (r3 & w3 & Hk & Hr3 & Htr3 & Hc3 & Hd3 & Hdead3).
    assert (Ho3 : forall c, c <> pid -> procs w3 !! c = procs w2 !! c).
    { intros c Hne. pose proof (kill_others pid w2 c Hne) as H.
      rewrite Hk in H. exact H. }
    assert (HP2 : psutil_Process pid w2 = (Ok pid, w2))
      by (unfold psutil_Process; rewrite Halive; reflexivity).
    exists w3, [EKill pid]. split.
    + unfold Simple.kill_process.
      erewrite try_except_raise;
        [|erewrite bind_ok by exact HP; erewrite bind_ok by exact Ht; exact Hw].
      simpl. destruct Hr3 as [->| ->].
      * erewrite try_except_ok; [reflexivity|]. erewrite bind_ok by exact HP2. exact Hk.
      * erewrite try_except_raise; [reflexivity|]. erewrite bind_ok by exact HP2. exact Hk.
    + split; [rewrite Htr3, Htr2, Htr, <- !app_assoc; reflexivity|].
      split; [by right|]. split; [lia|].
      split; [eapply decays_trans; [|exact Hd3]; eapply decays_trans; eauto|].
      split; [exact Hdead3|]. intros c Hne. rewrite Ho3, Ho2 by exact Hne. auto.
Qed.

Lemma kill_process_gone pid w :
  is_alive pid w = false -> Simple.kill_process pid w = (Ok tt, w).
Proof.
  intros Ha.
  assert (HP : psutil_Process pid w = (Raise (NoSuchProcess pid), w))
    by (unfold psutil_Process; rewrite Ha; reflexivity).
  unfold Simple.kill_process.
  erewrite try_except_raise by (erewrite bind_raise by exact HP; reflexivity).
  simpl.
  erewrite try_except_raise by (erewrite bind_raise by exact HP; reflexivity).
  reflexivity.
Qed.

(** ** [stop_avatar] *)

Lemma is_alive_same w w' pid :
  procs w' = procs w -> clock w' = clock w -> is_alive pid w' = is_alive pid w.
Proof. intros Hp Hc. unfold is_alive, poll. rewrite Hp, Hc. reflexivity. Qed.

Lemma del_running_processes_ok key pid w :
  running_processes w !! key = Some pid ->
  del_running_processes key w =
    (Ok tt, set_running_processes (delete key (running_processes w)) w).
Proof. intros H. unfold del_running_processes. rewrite H. reflexivity. Qed.

Lemma simple_stop_alive avatar_id pid w :
  running_processes w !! avatar_id = Some pid ->
  is_alive pid w = true ->
  exists w' tail,
    Simple.stop_avatar avatar_id w = (Ok stopped_simple, w') /\
    trace w' = trace w ++ ETerminate pid :: EWait pid 5 :: tail /\
    (tail = [] \/ tail = [EKill pid]) /\
    (clock w <= clock w' <= clock w + 5)%nat /\
    is_alive pid w' = false /\
    (forall c, c <> pid -> procs w' !! c = procs w !! c) /\
    running_processes w' = delete avatar_id (running_processes w).
Proof.
  intros Hreg Ha.
  destruct (kill_process_alive pid w Ha)
    as (w1 & tail & Hk & Htr & Htail & Hc & Hd & Hdead & Ho).
  assert (Hrp : running_processes w1 = running_processes w) by apply Hd.
  eexists _, tail. split.
  - unfold Simple.stop_avatar. erewrite bind_ok by reflexivity. rewrite Hreg.
    erewrite bind_ok by reflexivity.
    assert (Hpoll : poll pid w = None)
      by (unfold is_alive in Ha; destruct (poll pid w); [discriminate | reflexivity]).
    rewrite Hpoll. simpl when.
    erewrite bind_ok by exact Hk.
    erewrite bind_ok by (apply (del_running_processes_ok _ pid); congruence).
    reflexivity.
  - simpl. split; [exact Htr|]. split; [exact Htail|]. split; [exact Hc|].
    split; [rewrite <- Hdead; apply is_alive_same; reflexivity|].
    split; [exact Ho | congruence].
Qed.

Lemma simple_stop_exited avatar_id pid w :
  running_processes w !! avatar_id = Some pid ->
  is_alive pid w = false ->
  Simple.stop_avatar avatar_id w =
    (Ok stopped_simple, set_running_processes (delete avatar_id (running_processes w)) w).
Proof.
  intros Hreg Ha.
  unfold Simple.stop_avatar. erewrite bind_ok by reflexivity. rewrite Hreg.
  erewrite bind_ok by reflexivity.
  unfold is_alive in Ha. destruct (poll pid w) eqn:Hpoll; [|discriminate].
  simpl when. erewrite bind_ok by reflexivity.
  erewrite bind_ok by (apply (del_running_processes_ok _ pid); exact Hreg).
  reflexivity.
Qed.

Lemma simple_stop_absent avatar_id w :
  running_processes w !! avatar_id = None ->
  Simple.stop_avatar avatar_id w = (Ok not_running_simple, w).
Proof.
  intros Hreg. unfold Simple.stop_avatar. erewrite bind_ok by reflexivity.
  rewrite Hreg. reflexivity.
Qed.

Lemma stop_tail_spec sid pid (resp : pydict) w1 :
  running_processes w1 !! sid = Some pid ->
  exists w',
    (del_running_processes sid ;;;
     ss <- gets sessions ;;
     when (bool_decide (is_Some (ss !! sid)))
       (session_set sid "status" (VStr "ready") ;;; session_drop_pid sid) ;;;
     ret resp) w1 = (Ok resp, w') /\
    same_os w1 w' /\
    running_processes w' = delete sid (running_processes w1) /\
    sessions w' = sessions_after_stop sid (sessions w1) /\
    training_processes w' = training_processes w1 /\
    training_status w' = training_status w1 /\
    background w' = background w1.
Proof.
  intros Hreg.
  erewrite bind_ok by (apply (del_running_processes_ok _ pid); exact Hreg).
  erewrite bind_ok by reflexivity. simpl sessions.
  unfold sessions_after_stop.
  destruct (sessions w1 !! sid) as [d|] eqn:Hs.
  - rewrite bool_decide_true by eauto. simpl when.
    eexists. split.
    + erewrite bind_ok; [reflexivity|].
      erewrite bind_ok; [|unfold session_set; simpl; rewrite Hs; reflexivity].
      unfold session_drop_pid, modify. simpl. rewrite lookup_insert_eq. reflexivity.
    + simpl. rewrite insert_insert_eq. repeat split.
  - rewrite bool_decide_false by (intros [? ?]; discriminate). simpl when.
    eexists. split; [reflexivity|]. simpl. repeat split.
Qed.

Lemma v1_stop_registered sid pid w :
  running_processes w !! sid = Some pid ->
  exists w1 w',
    kill_process_tree pid w = (Ok tt, w1) /\
    V1.stop_avatar sid w = (Ok (stopped_v1 sid pid), w') /\
    same_os w1 w' /\
    running_processes w' = delete sid (running_processes w) /\
    sessions w' = sessions_after_stop sid (sessions w) /\
    training_processes w' = training_processes w /\
    training_status w' = training_status w /\
    background w' = background w.
Proof.
  intros Hreg.
  destruct (kill_process_tree_total pid w) as (w1 & Hk & Hd & _).
  destruct Hd as ((_ & _ & _ & _ & _ & Hs & Hr & Htp & Hts & Hb) & _).
  destruct (stop_tail_spec sid pid (stopped_v1 sid pid) w1) as (w' & Ht & Hos & Hr' & Hs' & Htp' & Hts' & Hb');
    [congruence|].
  exists w1, w'. split; [exact Hk|]. split.
  - unfold V1.stop_avatar. erewrite bind_ok by reflexivity. rewrite Hreg.
    erewrite try_except_ok; [reflexivity|].
    erewrite bind_ok by exact Hk. exact Ht.
  - split; [exact Hos|]. repeat split; congruence.
Qed.

Lemma v2_stop_registered avatar_id pid w :
  running_processes w !! avatar_id = Some pid ->
  exists w1 w',
    kill_process_tree pid w = (Ok tt, w1) /\
    V2.stop_avatar avatar_id w = (Ok (stopped_v2 avatar_id pid), w') /\
    same_os w1 w' /\
    running_processes w' = delete avatar_id (running_processes w) /\
    sessions w' = sessions_after_stop avatar_id (sessions w) /\
    training_processes w' = training_processes w /\
    training_status w' = training_status w /\
    background w' = background w.
Proof.
  intros Hreg.
  destruct (kill_process_tree_total pid w) as (w1 & Hk & Hd & _).
  destruct Hd as ((_ & _ & _ & _ & _ & Hs & Hr & Htp & Hts & Hb) & _).
  destruct (stop_tail_spec avatar_id pid (stopped_v2 avatar_id pid) w1)
    as (w' & Ht & Hos & Hr' & Hs' & Htp' & Hts' & Hb'); [congruence|].
  exists w1, w'. split; [exact Hk|]. split.
  - unfold V2.stop_avatar. erewrite bind_ok by reflexivity. rewrite Hreg.
    erewrite try_except_ok; [reflexivity|].
    erewrite bind_ok by exact Hk. exact Ht.
  - split; [exact Hos|]. repeat split; congruence.
Qed.

Lemma v1_stop_absent sid w :
  running_processes w !! sid = None ->
  V1.stop_avatar sid w = (Ok not_running_v, w).
Proof.
  intros Hreg. unfold V1.stop_avatar. erewrite bind_ok by reflexivity.
  rewrite Hreg. reflexivity.
Qed.

Lemma v2_stop_absent avatar_id w :
  running_processes w !! avatar_id = None ->
  V2.stop_avatar avatar_id w = (Ok not_running_v, w).
Proof.
  intros Hreg. unfold V2.stop_avatar. erewrite bind_ok by reflexivity.
  rewrite Hreg. reflexivity.
Qed.

(** ** Concrete worlds *)

Example simple_stop_demo :
  children_recursive 1 world_with_worker = [2%nat] /\
  exists w', Simple.stop_avatar "wav2lip256_a" world_with_worker = (Ok stopped_simple, w') /\
             trace w' = [ETerminate 1; EWait 1 5] /\ is_alive 2 w' = true.
Proof. split; [vm_compute; reflexivity|]. eexists. split; [vm_compute; reflexivity|]. split; vm_compute; reflexivity. Qed.

Example v1_stop_demo :
  exists w', V1.stop_avatar "s1" world_stubborn = (Ok (stopped_v1 "s1" 1), w') /\
             trace w' = [EWaitProcs [] 5; ETerminate 1; EWait 1 5; EKill 1].
Proof. eexists. split; vm_compute; reflexivity. Qed.

(** ** Spawning *)

Lemma le_foldr_max (l : list nat) (x b : nat) :
  In x l -> (x <= foldr Nat.max b l)%nat.
Proof.
  induction l as [|y l IH]; simpl; [intros []|].
  intros [->|Hin]; [lia | specialize (IH Hin); lia].
Qed.

Lemma fresh_pid_fresh (tbl : gmap nat process) : tbl !! fresh_pid tbl = None.
Proof.
  destruct (tbl !! fresh_pid tbl) as [p|] eqn:E; [exfalso|reflexivity].
  apply elem_of_map_to_list in E.
  assert (Hin : In (fresh_pid tbl) (map fst (map_to_list tbl))).
  { apply in_map_iff. exists (fresh_pid tbl, p). split; [reflexivity|].
    apply list_elem_of_In. exact E. }
  apply (le_foldr_max _ _ server_pid) in Hin. unfold fresh_pid in Hin at 1. lia.
Qed.

Lemma spawn_program_preserves :
  forall pr parent now (tbl : gmap nat process) k v,
    tbl !! k = Some v -> snd (spawn_program parent now pr tbl) !! k = Some v.
Proof.
  fix IH 1. intros [lifetime code graceful workers] parent now tbl k v Hk. simpl.
  assert (Hne : fresh_pid tbl <> k).
  { intros E. subst k. rewrite fresh_pid_fresh in Hk. discriminate. }
  set (p := {| ppid := parent; exit_at := _; exit_code := code;
               honours_term := graceful; killed := None |}).
  assert (H0 : <[fresh_pid tbl := p]> tbl !! k = Some v)
    by (rewrite lookup_insert_ne by exact Hne; exact Hk).
  revert H0. generalize (<[fresh_pid tbl := p]> tbl). generalize (fresh_pid tbl).
  induction workers as [|wk workers IHw]; intros root t Ht; simpl.
  - exact Ht.
  - apply IHw. apply IH. exact Ht.
Qed.

Lemma spawn_program_root parent now lifetime code graceful workers tbl :
  let r := spawn_program parent now (Program lifetime code graceful workers) tbl in
  fst r = fresh_pid tbl /\
  snd r !! fresh_pid tbl =
    Some {| ppid := parent; exit_at := (fun d => (now + d)%nat) <$> lifetime;
            exit_code := code; honours_term := graceful; killed := None |} /\
  forall k v, tbl !! k = Some v -> snd r !! k = Some v.
Proof.
  split; [reflexivity|]. split.
  - simpl.
    set (p := {| ppid := parent; exit_at := _; exit_code := code;
                 honours_term := graceful; killed := None |}).
    set (k := fresh_pid tbl).
    assert (H0 : <[k := p]> tbl !! k = Some p) by apply lookup_insert_eq.
    revert H0. generalize (<[k := p]> tbl). clearbody k.
    induction workers as [|wk workers IHw]; intros t Ht; simpl.
    + exact Ht.
    + apply IHw. apply spawn_program_preserves. exact Ht.
  - intros k v Hk. apply (spawn_program_preserves (Program lifetime code graceful workers)).
    exact Hk.
Qed.

(** ** The file tree *)

Lemma fs_lookup_app n p q :
  fs_lookup n (p ++ q) =
  match fs_lookup n p with Some m => fs_lookup m q | None => None end.
Proof.
  revert n. induction p as [|c p IH]; intros n; simpl; [reflexivity|].
  destruct n as [|m]; [reflexivity|]. destruct (m !! c); [apply IH | reflexivity].
Qed.

Lemma fs_lookup_parent_dir n p c q x :
  fs_lookup n (p ++ c :: q) = Some x -> is_dir (fs_lookup n p) = true.
Proof.
  rewrite fs_lookup_app. destruct (fs_lookup n p) as [[|m]|]; simpl; try discriminate.
  reflexivity.
Qed.

Lemma fs_put_cons n c p x :
  p <> [] ->
  fs_put n (c :: p) x =
  match n with
  | Dir m => match m !! c with
             | Some n' => Dir (<[c := fs_put n' p x]> m)
             | None => n
             end
  | File _ => n
  end.
Proof. destruct p; [congruence | reflexivity]. Qed.

Lemma fs_remove_cons n c p :
  p <> [] ->
  fs_remove n (c :: p) =
  match n with
  | Dir m => match m !! c with
             | Some n' => Dir (<[c := fs_remove n' p]> m)
             | None => n
             end
  | File _ => n
  end.
Proof. destruct p; [congruence | reflexivity]. Qed.

(** Writing below one branch leaves another branch alone. *)
Lemma fs_put_diverge r a b p q n x :
  a <> b ->
  fs_lookup (fs_put n (r ++ a :: p) x) (r ++ b :: q) = fs_lookup n (r ++ b :: q).
Proof.
  intros Hab. revert n. induction r as [|c r IH]; intros n.
  - simpl app. destruct n as [|m]; [destruct p; reflexivity|].
    destruct p as [|p0 p].
    + simpl. rewrite lookup_insert_ne by exact Hab. reflexivity.
    + rewrite fs_put_cons by discriminate.
      destruct (m !! a); [|reflexivity].
      simpl. rewrite lookup_insert_ne by exact Hab. reflexivity.
  - simpl app. rewrite fs_put_cons by (destruct r; discriminate).
    destruct n as [|m]; [reflexivity|].
    destruct (m !! c) as [n'|] eqn:Hc; [|reflexivity].
    simpl. rewrite lookup_insert_eq, Hc. apply IH.
Qed.

Lemma fs_remove_diverge r a b p q n :
  a <> b ->
  fs_lookup (fs_remove n (r ++ a :: p)) (r ++ b :: q) = fs_lookup n (r ++ b :: q).
Proof.
  intros Hab. revert n. induction r as [|c r IH]; intros n.
  - simpl app. destruct n as [|m]; [destruct p; reflexivity|].
    destruct p as [|p0 p].
    + simpl. rewrite lookup_delete_ne by exact Hab. reflexivity.
    + rewrite fs_remove_cons by discriminate.
      destruct (m !! a); [|reflexivity].
      simpl. rewrite lookup_insert_ne by exact Hab. reflexivity.
  - simpl app. rewrite fs_remove_cons by (destruct r; discriminate).
    destruct n as [|m]; [reflexivity|].
    destruct (m !! c) as [n'|] eqn:Hc; [|reflexivity].
    simpl. rewrite lookup_insert_eq, Hc. apply IH.
Qed.

Lemma fs_put_lookup_eq r c n x :
  is_dir (fs_lookup n r) = true ->
  fs_lookup (fs_put n (r ++ [c]) x) (r ++ [c]) = Some x.
Proof.
  revert n. induction r as [|d r IH]; intros n Hd.
  - simpl in *. destruct n as [|m]; [discriminate|].
    simpl. rewrite lookup_insert_eq. reflexivity.
  - simpl app. rewrite fs_put_cons by (destruct r; discriminate).
    simpl in Hd. destruct n as [|m]; [discriminate|].
    destruct (m !! d) as [n'|] eqn:Hm; [|discriminate].
    simpl. rewrite lookup_insert_eq. apply IH. exact Hd.
Qed.

Lemma fs_remove_lookup_eq r c n :
  fs_lookup (fs_remove n (r ++ [c])) (r ++ [c]) = None.
Proof.
  revert n. induction r as [|d r IH]; intros n.
  - simpl. destruct n as [|m]; [reflexivity|]. simpl. rewrite lookup_delete_eq. reflexivity.
  - simpl app. rewrite fs_remove_cons by (destruct r; discriminate).
    destruct n as [|m]; [reflexivity|].
    destruct (m !! d) as [n'|] eqn:Hm.
    + simpl. rewrite lookup_insert_eq. apply IH.
    + simpl. rewrite Hm. reflexivity.
Qed.

(** The directory that receives or loses an entry stays a directory. *)
Lemma fs_put_parent_dir r c n x :
  is_dir (fs_lookup n r) = true ->
  is_dir (fs_lookup (fs_put n (r ++ [c]) x) r) = true.
Proof.
  revert n. induction r as [|d r IH]; intros n Hd.
  - simpl in *. destruct n; [discriminate | reflexivity].
  - simpl app. rewrite fs_put_cons by (destruct r; discriminate).
    simpl in Hd. destruct n as [|m]; [discriminate|].
    destruct (m !! d) as [n'|] eqn:Hm; [|discriminate].
    simpl. rewrite lookup_insert_eq. apply IH. exact Hd.
Qed.

Lemma fs_remove_parent_dir r c n :
  is_dir (fs_lookup n r) = true ->
  is_dir (fs_lookup (fs_remove n (r ++ [c])) r) = true.
Proof.
  revert n. induction r as [|d r IH]; intros n Hd.
  - simpl in *. destruct n; [discriminate | reflexivity].
  - simpl app. rewrite fs_remove_cons by (destruct r; discriminate).
    simpl in Hd. destruct n as [|m]; [discriminate|].
    destruct (m !! d) as [n'|] eqn:Hm; [|discriminate].
    simpl. rewrite lookup_insert_eq. apply IH. exact Hd.
Qed.

Lemma parent_dir_snoc (r : path) c : parent_dir (r ++ [c]) = r.
Proof. apply removelast_last. Qed.

Lemma basename_snoc (r : path) c : basename (r ++ [c]) = c.
Proof. apply last_last. Qed.

(** ** Stopping a job whose process is alive (claim C1) *)

Lemma kill_process_tree_det pid w w1 w2 :
  kill_process_tree pid w = (Ok tt, w1) ->
  kill_process_tree pid w = (Ok tt, w2) -> w1 = w2.
Proof. congruence. Qed.

Lemma tree_stop_outcome_of stop resp w name pid :
  running_processes w !! name = Some pid ->
  is_alive pid w = true ->
  (exists w1 w',
     kill_process_tree pid w = (Ok tt, w1) /\
     stop name w = (Ok resp, w') /\ same_os w1 w' /\
     running_processes w' = delete name (running_processes w)) ->
  tree_stop_outcome stop resp w name pid.
Proof.
  intros Hreg Ha (w1 & w' & Hk & Hstop & Hos & Hrp).
  destruct (kill_process_tree_alive pid w Ha)
    as (w2 & w1' & tail & Hk' & Htr & Htail & Htr2 & Hc2 & Hc' & _ & _ & Hds & Hdead).
  assert (w1' = w1) by congruence. subst w1'.
  destruct Hos as (Hp & Hc & Ht & _).
  exists w2, w', tail. split; [exact Hstop|].
  split; [rewrite Ht; exact Htr|]. split; [exact Htail|]. split; [exact Htr2|].
  split; [exact Hc2|]. split; [rewrite Hc; exact Hc'|].
  split; [intros c Hin; rewrite (is_alive_same w1 w' c Hp Hc); auto|].
  split; [rewrite (is_alive_same w1 w' pid Hp Hc); exact Hdead|].
  rewrite Hrp. apply lookup_delete_eq.
Qed.

(** C1, as amended: on a job whose process is alive, [stop_avatar] of
    [livetalking_backend.py] and of [livetalking_backend_v2.py] signals every
    descendant found at call time gracefully, waits for them for at most five
    seconds, force-kills the descendants still alive, and only then
    terminates the parent gracefully, waits for it for at most five seconds
    and force-kills it when the wait runs out; [stop_avatar] of
    [backend_simple.py] signals the job's own process only.  Afterwards the
    process (and, in the first two, every descendant) is gone and the
    registry entry is removed. *)
Theorem stop_avatar_termination_order w name pid :
  running_processes w !! name = Some pid ->
  is_alive pid w = true ->
  tree_stop_outcome V1.stop_avatar (stopped_v1 name pid) w name pid /\
  tree_stop_outcome V2.stop_avatar (stopped_v2 name pid) w name pid /\
  single_stop_outcome w name pid.
Proof.
  intros Hreg Ha. split; [|split].
  - apply tree_stop_outcome_of; [exact Hreg | exact Ha|].
    destruct (v1_stop_registered name pid w Hreg) as (w1 & w' & Hk & Hs & Hos & Hrp & _).
    exists w1, w'. auto.
  - apply tree_stop_outcome_of; [exact Hreg | exact Ha|].
    destruct (v2_stop_registered name pid w Hreg) as (w1 & w' & Hk & Hs & Hos & Hrp & _).
    exists w1, w'. auto.
  - destruct (simple_stop_alive name pid w Hreg Ha)
      as (w' & tail & Hs & Htr & Htail & Hc & Hdead & Ho & Hrp).
    exists w', tail. repeat (split; [assumption|]).
    rewrite Hrp. apply lookup_delete_eq.
Qed.

Lemma stop_avatar_termination_order_witness :
  running_processes world_with_worker !! "wav2lip256_a" = Some 1%nat /\
  is_alive 1 world_with_worker = true /\
  tree_stop_outcome V1.stop_avatar (stopped_v1 "wav2lip256_a" 1)
    world_with_worker "wav2lip256_a" 1 /\
  tree_stop_outcome V2.stop_avatar (stopped_v2 "wav2lip256_a" 1)
    world_with_worker "wav2lip256_a" 1 /\
  single_stop_outcome world_with_worker "wav2lip256_a" 1.
Proof.
  assert (H1 : running_processes world_with_worker !! "wav2lip256_a" = Some 1%nat)
    by (vm_compute; reflexivity).
  assert (H2 : is_alive 1 world_with_worker = true) by (vm_compute; reflexivity).
  split; [exact H1|]. split; [exact H2|].
  exact (stop_avatar_termination_order world_with_worker "wav2lip256_a" 1 H1 H2).
Defined.

(** C1 as stated does not hold: [stop_avatar] of [backend_simple.py] leaves
    the worker of the stopped process running, and [stop_avatar] of
    [livetalking_backend.py] ends with the forced kill of a parent that
    ignored the graceful signal, without waiting for it again. *)
Lemma stop_avatar_claimed_order_fails :
  ~ terminates_tree_first Simple.stop_avatar /\ ~ reaps_parent V1.stop_avatar.
Proof.
  split.
  - intros H.
    destruct (H world_with_worker "wav2lip256_a" 1%nat)
      as (resp & w' & before & after & Hs & _ & _ & Hds & _);
      [vm_compute; reflexivity | vm_compute; reflexivity|].
    destruct simple_stop_demo as (Hc & w1 & Hs1 & _ & Halive).
    rewrite Hs1 in Hs. injection Hs as _ <-.
    specialize (Hds 2%nat). rewrite Hc in Hds. specialize (Hds (or_introl eq_refl)).
    congruence.
  - intros H.
    destruct (H world_stubborn "s1" 1%nat) as (resp & w' & evs & Hs & Htr);
      [vm_compute; reflexivity | vm_compute; reflexivity|].
    destruct v1_stop_demo as (w1 & Hs1 & Htr1).
    rewrite Hs1 in Hs. injection Hs as _ <-.
    rewrite Htr1 in Htr. simpl in Htr.
    apply (f_equal (@rev event)) in Htr. rewrite rev_app_distr in Htr.
    simpl in Htr. discriminate.
Qed.

(** ** [start_avatar] of [backend_simple.py] *)

Lemma simple_start_missing request w :
  lookup_path (path_join AVATARS_DIR (Simple.start_avatar_id request)) w = None ->
  exists detail, Simple.start_avatar request w = (Raise (HTTPException 404 detail), w).
Proof.
  intros Hex. unfold Simple.start_avatar.
  eexists. erewrite bind_ok by reflexivity. simpl fst. rewrite Hex. reflexivity.
Qed.

Lemma simple_start_running request w n pid :
  lookup_path (path_join AVATARS_DIR (Simple.start_avatar_id request)) w = Some n ->
  running_processes w !! Simple.start_avatar_id request = Some pid ->
  is_alive pid w = true ->
  Simple.start_avatar request w = (Raise (HTTPException 400 "该数字人已在运行"), w).
Proof.
  intros Hex Hreg Ha. unfold Simple.start_avatar.
  erewrite bind_ok by reflexivity. rewrite Hex. simpl negb. simpl when.
  erewrite bind_ok by reflexivity. erewrite bind_ok by reflexivity. rewrite Hreg.
  unfold is_alive in Ha. destruct (poll pid w) eqn:Hp; [discriminate|].
  erewrite bind_raise; [reflexivity|].
  erewrite bind_ok by reflexivity. rewrite Hp. reflexivity.
Qed.

Lemma avatar_exists_livetalking_dir w name n :
  lookup_path (path_join AVATARS_DIR name) w = Some n ->
  is_dir (fs_lookup (fs w) LIVETALKING_PATH) = true.
Proof.
  unfold lookup_path. intros H.
  change (resolve (path_join AVATARS_DIR name) w)
    with (LIVETALKING_PATH ++ "data"%string :: ["avatars"%string; name]) in H.
  eapply fs_lookup_parent_dir. exact H.
Qed.

Lemma simple_start_spawn request w n pr rest :
  lookup_path (path_join AVATARS_DIR (Simple.start_avatar_id request)) w = Some n ->
  (forall pid, running_processes w !! Simple.start_avatar_id request = Some pid ->
               is_alive pid w = false) ->
  programs w = Some pr :: rest ->
  Simple.start_avatar request w =
    let '(pid, w1) := simple_spawned request pr rest w in
    if is_alive pid w1
    then (Ok (running_simple (Simple.start_avatar_id request) pid), w1)
    else (Raise (HTTPException 500 (str_exn (HTTPException 500 "启动失败"))),
          set_running_processes
            (delete (Simple.start_avatar_id request) (running_processes w1)) w1).
Proof.
  intros Hex Hreg Hprog.
  pose proof (avatar_exists_livetalking_dir _ _ _ Hex) as Hdir.
  unfold Simple.start_avatar.
  erewrite bind_ok by reflexivity. rewrite Hex. simpl negb. simpl when.
  erewrite bind_ok by reflexivity. erewrite bind_ok by reflexivity.
  erewrite bind_ok.
  2:{ destruct (running_processes w !! Simple.start_avatar_id request) as [pid|] eqn:E;
        [|reflexivity].
      specialize (Hreg pid eq_refl). unfold is_alive in Hreg.
      erewrite bind_ok by reflexivity.
      destruct (poll pid w); [reflexivity | discriminate]. }
  unfold simple_spawned.
  destruct (spawn_program server_pid (clock w) pr (procs w)) as [pid tbl] eqn:Hsp.
  set (w1 := set_clock _ _).
  assert (HP : Popen (Simple.start_cmd request) (Abs LIVETALKING_PATH) w =
               (Ok pid, set_trace (trace w ++ [EPopen (Simple.start_cmd request) LIVETALKING_PATH pid])
                          (set_procs tbl (set_programs rest w)))).
  { unfold Popen. simpl resolve. rewrite Hdir, Hprog, Hsp. reflexivity. }
  destruct (is_alive pid w1) eqn:Ha.
  - erewrite try_except_ok; [reflexivity|].
    erewrite bind_ok by exact HP.
    erewrite bind_ok by reflexivity.
    erewrite bind_ok by reflexivity.
    erewrite bind_ok by reflexivity.
    unfold is_alive in Ha. fold w1.
    destruct (poll pid w1) eqn:Hp; [discriminate|].
    change (poll pid _) with (poll pid w1). rewrite Hp. reflexivity.
  - erewrite try_except_raise.
    2:{ erewrite bind_ok by exact HP.
        erewrite bind_ok by reflexivity.
        erewrite bind_ok by reflexivity.
        erewrite bind_ok by reflexivity.
        unfold is_alive in Ha.
        change (poll pid _) with (poll pid w1).
        destruct (poll pid w1) eqn:Hp; [|discriminate].
        erewrite bind_raise; [reflexivity|].
        simpl when.
        erewrite bind_ok; [reflexivity|].
        unfold del_running_processes. simpl. rewrite lookup_insert_eq. reflexivity. }
    reflexivity.
Qed.

(** ** Stopping twice (claim C7) *)

Lemma simple_stop_twice w name :
  exists r w1,
    Simple.stop_avatar name w = (Ok r, w1) /\
    Simple.stop_avatar name w1 = (Ok not_running_simple, w1).
Proof.
  destruct (running_processes w !! name) as [pid|] eqn:Hreg.
  - destruct (is_alive pid w) eqn:Ha.
    + destruct (simple_stop_alive name pid w Hreg Ha)
        as (w' & tail & Hs & _ & _ & _ & _ & _ & Hrp).
      exists stopped_simple, w'. split; [exact Hs|].
      apply simple_stop_absent. rewrite Hrp. apply lookup_delete_eq.
    + eexists _, _. split; [apply (simple_stop_exited name pid w Hreg Ha)|].
      apply simple_stop_absent. simpl. apply lookup_delete_eq.
  - exists not_running_simple, w. split; apply simple_stop_absent; exact Hreg.
Qed.

Lemma v2_stop_twice w name :
  exists r w1,
    V2.stop_avatar name w = (Ok r, w1) /\
    V2.stop_avatar name w1 = (Ok not_running_v, w1).
Proof.
  destruct (running_processes w !! name) as [pid|] eqn:Hreg.
  - destruct (v2_stop_registered name pid w Hreg) as (w1 & w' & _ & Hs & _ & Hrp & _).
    exists (stopped_v2 name pid), w'. split; [exact Hs|].
    apply v2_stop_absent. rewrite Hrp. apply lookup_delete_eq.
  - exists not_running_v, w. split; apply v2_stop_absent; exact Hreg.
Qed.

(** C7: [stop_avatar] on a name without an entry in the registry of running
    processes (so also on a fresh registry) answers [not_running] without an
    error and without changing anything; a second [stop_avatar] in a row
    answers [not_running] and leaves the world as the first call left it.
    Shown for [backend_simple.py] and [livetalking_backend_v2.py]. *)
Theorem stop_avatar_idempotent w name :
  (running_processes w !! name = None ->
   Simple.stop_avatar name w = (Ok not_running_simple, w) /\
   V2.stop_avatar name w = (Ok not_running_v, w)) /\
  (exists r w1,
     Simple.stop_avatar name w = (Ok r, w1) /\
     Simple.stop_avatar name w1 = (Ok not_running_simple, w1)) /\
  (exists r w1,
     V2.stop_avatar name w = (Ok r, w1) /\
     V2.stop_avatar name w1 = (Ok not_running_v, w1)).
Proof.
  split; [|split].
  - intros Hreg. split; [apply simple_stop_absent | apply v2_stop_absent]; exact Hreg.
  - apply simple_stop_twice.
  - apply v2_stop_twice.
Qed.

Lemma stop_avatar_idempotent_witness :
  running_processes empty_world !! "wav2lip256_a" = None /\
  Simple.stop_avatar "wav2lip256_a" empty_world = (Ok not_running_simple, empty_world) /\
  V2.stop_avatar "wav2lip256_a" empty_world = (Ok not_running_v, empty_world).
Proof.
  assert (H : running_processes empty_world !! "wav2lip256_a" = None)
    by (vm_compute; reflexivity).
  split; [exact H|].
  exact (proj1 (stop_avatar_idempotent empty_world "wav2lip256_a") H).
Defined.

(** ** Stopping a job whose process has exited (claim C10) *)

(** C10: in [backend_simple.py], [stop_avatar] on a name whose registry entry
    holds a process that has already exited issues no signal, removes the
    entry and answers [stopped]; a following [start_avatar] for the name is
    not turned away as already running but goes on to spawn the command. *)
Theorem stop_avatar_exited_process w name pid :
  running_processes w !! name = Some pid ->
  is_alive pid w = false ->
  let w' := set_running_processes (delete name (running_processes w)) w in
  Simple.stop_avatar name w = (Ok stopped_simple, w') /\
  trace w' = trace w /\ procs w' = procs w /\
  running_processes w' !! name = None /\
  forall request n pr rest,
    Simple.start_avatar_id request = name ->
    lookup_path (path_join AVATARS_DIR name) w = Some n ->
    programs w = Some pr :: rest ->
    Simple.start_avatar request w' =
      let '(pid', w1) := simple_spawned request pr rest w' in
      if is_alive pid' w1
      then (Ok (running_simple name pid'), w1)
      else (Raise (HTTPException 500 (str_exn (HTTPException 500 "启动失败"))),
            set_running_processes (delete name (running_processes w1)) w1).
Proof.
  intros Hreg Ha w'.
  split; [apply (simple_stop_exited name pid w Hreg Ha)|].
  split; [reflexivity|]. split; [reflexivity|].
  split; [apply lookup_delete_eq|].
  intros request n pr rest <- Hex Hprog.
  apply (simple_start_spawn request w' n pr rest).
  - exact Hex.
  - intros q Hq. unfold w' in Hq. simpl in Hq. rewrite lookup_delete_eq in Hq. discriminate.
  - exact Hprog.
Qed.

Lemma stop_avatar_exited_process_witness :
  running_processes world_exited !! "wav2lip256_a" = Some 1%nat /\
  is_alive 1 world_exited = false /\
  Simple.stop_avatar "wav2lip256_a" world_exited =
    (Ok stopped_simple,
     set_running_processes (delete "wav2lip256_a" (running_processes world_exited))
       world_exited).
Proof.
  assert (H1 : running_processes world_exited !! "wav2lip256_a" = Some 1%nat)
    by (vm_compute; reflexivity).
  assert (H2 : is_alive 1 world_exited = false) by (vm_compute; reflexivity).
  split; [exact H1|]. split; [exact H2|].
  exact (proj1 (stop_avatar_exited_process world_exited "wav2lip256_a" 1 H1 H2)).
Defined.

(** ** Which system calls a piece of code can issue *)

Lemma emits_ret {A} P (a : A) : emits_only P (ret a).
Proof. intros w. exists []. split; [simpl; by rewrite app_nil_r | constructor]. Qed.

Lemma emits_raise {A} P e : emits_only P (@raise A e).
Proof. intros w. exists []. split; [simpl; by rewrite app_nil_r | constructor]. Qed.

Lemma emits_gets {A} P (f : World -> A) : emits_only P (gets f).
Proof. intros w. exists []. split; [simpl; by rewrite app_nil_r | constructor]. Qed.

Lemma emits_silent {A} P (m : M A) :
  (forall w, trace (snd (m w)) = trace w) -> emits_only P m.
Proof. intros H w. exists []. split; [rewrite H; by rewrite app_nil_r | constructor]. Qed.

Lemma emits_one {A} (P : event -> Prop) (m : M A) e :
  P e -> (forall w, trace (snd (m w)) = trace w ++ [e]) -> emits_only P m.
Proof. intros HP H w. exists [e]. split; [apply H | repeat constructor; exact HP]. Qed.

Lemma emits_bind {A B} P (m : M A) (k : A -> M B) :
  emits_only P m -> (forall a, emits_only P (k a)) -> emits_only P (bind m k).
Proof.
  intros Hm Hk w. unfold bind. destruct (Hm w) as (e1 & H1 & F1).
  destruct (m w) as [[a|e] w1]; simpl in H1.
  - destruct (Hk a w1) as (e2 & H2 & F2). exists (e1 ++ e2).
    split; [rewrite H2, H1, app_assoc; reflexivity | apply Forall_app; auto].
  - exists e1. auto.
Qed.

Lemma emits_try_except {A} P (m : M A) h :
  emits_only P m -> (forall e k, h e = Some k -> emits_only P k) ->
  emits_only P (try_except m h).
Proof.
  intros Hm Hh w. unfold try_except. destruct (Hm w) as (e1 & H1 & F1).
  destruct (m w) as [[a|e] w1]; simpl in H1.
  - exists e1. auto.
  - destruct (h e) as [k|] eqn:Hk; [|exists e1; auto].
    destruct (Hh e k Hk w1) as (e2 & H2 & F2). exists (e1 ++ e2).
    split; [rewrite H2, H1, app_assoc; reflexivity | apply Forall_app; auto].
Qed.

Lemma emits_try_finally {A} P (m : M A) c :
  emits_only P m -> emits_only P c -> emits_only P (try_finally m c).
Proof.
  intros Hm Hc w. unfold try_finally. destruct (Hm w) as (e1 & H1 & F1).
  destruct (m w) as [r w1]; simpl in H1.
  destruct (Hc w1) as (e2 & H2 & F2).
  destruct (c w1) as [[[]|e] w2]; simpl in H2; exists (e1 ++ e2);
    (split; [simpl; rewrite H2, H1, app_assoc; reflexivity | apply Forall_app; auto]).
Qed.

Lemma emits_when P c m : emits_only P m -> emits_only P (when c m).
Proof. intros H. destruct c; [exact H | apply emits_ret]. Qed.

Lemma emits_for_each {A} P (l : list A) body :
  (forall x, emits_only P (body x)) -> emits_only P (for_each l body).
Proof.
  intros H. induction l as [|x l IH]; simpl; [apply emits_ret|].
  apply emits_bind; [apply H | intros _; exact IH].
Qed.

#[export] Hint Resolve emits_ret emits_raise emits_gets emits_bind emits_try_except
  emits_try_finally emits_when emits_for_each : emits.

Ltac emits_prim :=
  let w := fresh "w" in
  intros w;
  repeat match goal with
         | |- context [match ?x with _ => _ end] => destruct x
         | |- context [if ?x then _ else _] => destruct x
         end;
  simpl;
  first [ exists []; split; [by rewrite app_nil_r | constructor]
        | eexists [_]; split; [reflexivity | repeat constructor; assumption] ].

Lemma emits_modify P (f : World -> World) :
  (forall w, trace (f w) = trace w) -> emits_only P (modify f).
Proof. intros H. apply emits_silent. intros w. simpl. apply H. Qed.

Lemma emits_log (P : event -> Prop) e : P e -> emits_only P (log e).
Proof. intros H. apply (emits_one P _ e H). reflexivity. Qed.

Lemma emits_terminate (P : event -> Prop) pid :
  P (ETerminate pid) -> emits_only P (terminate pid).
Proof. intros H. unfold terminate, bind, log, modify. emits_prim. Qed.

Lemma emits_kill (P : event -> Prop) pid : P (EKill pid) -> emits_only P (kill pid).
Proof. intros H. unfold kill, bind, log, modify. emits_prim. Qed.

Lemma emits_popen_kill (P : event -> Prop) pid :
  P (EKill pid) -> emits_only P (popen_kill pid).
Proof. intros H. unfold popen_kill, bind, log, modify. emits_prim. Qed.

Lemma emits_psutil_wait (P : event -> Prop) pid t :
  P (EWait pid t) -> emits_only P (psutil_wait pid t).
Proof. intros H. unfold psutil_wait, bind, log, modify. emits_prim. Qed.

Lemma emits_popen_wait (P : event -> Prop) pid t :
  P (EWait pid t) -> emits_only P (popen_wait pid t).
Proof. intros H. unfold popen_wait, bind, log, modify. emits_prim. Qed.

Lemma emits_wait_procs (P : event -> Prop) pids t :
  P (EWaitProcs pids t) -> emits_only P (wait_procs pids t).
Proof. intros H. unfold wait_procs, bind, log, modify. emits_prim. Qed.

Lemma emits_time_sleep (P : event -> Prop) s :
  P (ESleep s) -> emits_only P (time_sleep s).
Proof.
  intros H. unfold time_sleep. apply emits_bind; [apply emits_log; exact H|].
  intros _. apply emits_modify. reflexivity.
Qed.

Lemma emits_psutil_Process P pid : emits_only P (psutil_Process pid).
Proof. unfold psutil_Process. emits_prim. Qed.

Lemma emits_Popen (P : event -> Prop) cmd dir :
  (forall d pid, P (EPopen cmd d pid)) -> emits_only P (Popen cmd dir).
Proof.
  intros H w. unfold Popen.
  destruct (negb _); [exists []; split; [by rewrite app_nil_r | constructor]|].
  destruct (programs w) as [|[pr|] rest];
    try (exists []; split; [simpl; by rewrite app_nil_r | constructor]).
  destruct (spawn_program _ _ _ _) as [pid tbl]. simpl.
  eexists [_]. split; [reflexivity | repeat constructor; apply H].
Qed.

Lemma emits_take_fault P : emits_only P take_fault.
Proof. unfold take_fault. emits_prim. Qed.

Lemma emits_os_path_exists P p : emits_only P (os_path_exists p).
Proof. apply emits_gets. Qed.

Lemma emits_os_path_isdir P p : emits_only P (os_path_isdir p).
Proof. apply emits_gets. Qed.

Lemma emits_os_listdir P p : emits_only P (os_listdir p).
Proof. unfold os_listdir. emits_prim. Qed.

Lemma emits_os_chdir (P : event -> Prop) p :
  (forall d, P (EChdir d)) -> emits_only P (os_chdir p).
Proof.
  intros H w. unfold os_chdir.
  destruct (is_dir _); simpl; eexists [_];
    (split; [reflexivity | repeat constructor; apply H]).
Qed.

Lemma emits_os_makedirs (P : event -> Prop) p :
  (forall d, P (EMakedirs d)) -> emits_only P (os_makedirs p).
Proof.
  intros H w. unfold os_makedirs, take_fault. simpl.
  destruct (fs_faults w) as [|[] ?]; simpl;
    repeat match goal with |- context [match ?x with _ => _ end] => destruct x end;
    simpl; eexists [_]; (split; [reflexivity | repeat constructor; apply H]).
Qed.

Lemma emits_shutil_rmtree (P : event -> Prop) p :
  (forall d, P (ERmtree d)) -> emits_only P (shutil_rmtree p).
Proof.
  intros H w. unfold shutil_rmtree, take_fault. simpl.
  destruct (is_dir _); [|simpl; eexists [_]; split; [reflexivity | repeat constructor; apply H]].
  destruct (fs_faults w) as [|[] ?]; simpl; eexists [_];
    (split; [reflexivity | repeat constructor; apply H]).
Qed.

Lemma emits_shutil_move (P : event -> Prop) src dst :
  (forall s d, P (EMove s d)) -> emits_only P (shutil_move src dst).
Proof.
  intros H w. unfold shutil_move, take_fault. simpl.
  repeat match goal with
         | |- context [match fs_lookup ?a ?b with _ => _ end] => destruct (fs_lookup a b)
         | |- context [if ?x then _ else _] => destruct x
         | |- context [match fs_faults ?w with _ => _ end] => destruct (fs_faults w) as [|[] ?]
         end; simpl; eexists [_]; (split; [reflexivity | repeat constructor; apply H]).
Qed.

Lemma emits_shutil_copy2 (P : event -> Prop) src dst :
  (forall s d, P (ECopy s d)) -> emits_only P (shutil_copy2 src dst).
Proof.
  intros H w. unfold shutil_copy2, take_fault. simpl.
  repeat match goal with
         | |- context [match fs_lookup ?a ?b with _ => _ end] => destruct (fs_lookup a b) as [[|]|]
         | |- context [if ?x then _ else _] => destruct x
         | |- context [match fs_faults ?w with _ => _ end] => destruct (fs_faults w) as [|[] ?]
         end; simpl; eexists [_]; (split; [reflexivity | repeat constructor; apply H]).
Qed.

Lemma emits_open_w (P : event -> Prop) p :
  (forall d, P (EOpenW d)) -> emits_only P (open_w p).
Proof.
  intros H w. unfold open_w, take_fault. simpl.
  repeat match goal with
         | |- context [if ?x then _ else _] => destruct x
         | |- context [match fs_faults ?w with _ => _ end] => destruct (fs_faults w) as [|[] ?]
         end; simpl; eexists [_]; (split; [reflexivity | repeat constructor; apply H]).
Qed.

Lemma emits_session_set P sid key v : emits_only P (session_set sid key v).
Proof. unfold session_set. emits_prim. Qed.

Lemma emits_session_get P sid key : emits_only P (session_get sid key).
Proof. unfold session_get. emits_prim. Qed.

Lemma emits_session_drop_pid P sid : emits_only P (session_drop_pid sid).
Proof.
  apply emits_modify. intros w. destruct (sessions w !! sid); reflexivity.
Qed.

Lemma emits_del_running_processes P key : emits_only P (del_running_processes key).
Proof. unfold del_running_processes. emits_prim. Qed.

Lemma emits_del_training_processes P key : emits_only P (del_training_processes key).
Proof. unfold del_training_processes. emits_prim. Qed.

#[export] Hint Resolve emits_modify emits_log emits_terminate emits_kill emits_popen_kill
  emits_psutil_wait emits_popen_wait emits_wait_procs emits_time_sleep
  emits_psutil_Process emits_Popen emits_take_fault emits_os_path_exists
  emits_os_path_isdir emits_os_listdir emits_os_chdir emits_os_makedirs
  emits_shutil_rmtree emits_shutil_move emits_shutil_copy2 emits_open_w
  emits_session_set emits_session_get emits_session_drop_pid
  emits_del_running_processes emits_del_training_processes : emits.

Ltac emits_leaf :=
  first
    [ apply emits_ret | apply emits_raise | apply emits_gets
    | apply emits_psutil_Process | apply emits_take_fault
    | apply emits_os_path_exists | apply emits_os_path_isdir | apply emits_os_listdir
    | apply emits_session_set | apply emits_session_get | apply emits_session_drop_pid
    | apply emits_del_running_processes | apply emits_del_training_processes
    | apply emits_modify; intros; simpl;
      repeat match goal with |- context [match ?x with _ => _ end] => destruct x end;
      reflexivity
    | first [ apply emits_log | apply emits_terminate | apply emits_kill
            | apply emits_popen_kill | apply emits_psutil_wait | apply emits_popen_wait
            | apply emits_wait_procs | apply emits_time_sleep | apply emits_Popen
            | apply emits_os_chdir | apply emits_os_makedirs | apply emits_shutil_rmtree
            | apply emits_shutil_move | apply emits_shutil_copy2 | apply emits_open_w ];
      intros; simpl; first [exact I | reflexivity | solve [auto] | tauto] ].

Ltac emits_go :=
  repeat first
    [ progress intros
    | emits_leaf
    | apply emits_bind
    | apply emits_when
    | apply emits_for_each
    | apply emits_try_finally
    | apply emits_try_except;
      [| let e := fresh "e" in let k := fresh "k" in let H := fresh "H" in
         intros e k H; destruct e; simpl in H; try discriminate; injection H as <- ]
    | match goal with
      | |- emits_only _ (if ?c then _ else _) => destruct c
      | |- emits_only _ (match ?x with _ => _ end) => destruct x
      end ].

Lemma emits_kill_process_tree (P : event -> Prop) pid :
  (forall e, match e with
             | ETerminate _ | EKill _ | EWait _ _ | EWaitProcs _ _ => P e
             | _ => True
             end) ->
  emits_only P (kill_process_tree pid).
Proof.
  intros H. unfold kill_process_tree, parent_handler, except_NoSuchProcess_pass,
    except_Exception.
  pose proof (fun p => H (ETerminate p)) as H1. pose proof (fun p => H (EKill p)) as H2.
  pose proof (fun p t => H (EWait p t)) as H3.
  pose proof (fun p t => H (EWaitProcs p t)) as H4. simpl in H1, H2, H3, H4.
  emits_go; auto.
Qed.

Lemma simple_run_training_spawns avatar_id video_path audio_path ref_text :
  emits_only (spawns_only (Simple.training_cmd avatar_id video_path))
    (Simple.run_training avatar_id video_path audio_path ref_text).
Proof.
  unfold Simple.run_training, subprocess_run, Simple.set_status, except_Exception.
  emits_go.
Qed.

Lemma v2_move_trained_avatar_emits strftime (P : event -> Prop) avatar_id :
  (forall s d, P (EMove s d)) ->
  emits_only P (V2.move_trained_avatar strftime avatar_id).
Proof.
  intros H. unfold V2.move_trained_avatar, except_Exception. emits_go.
Qed.

Lemma v2_run_training_spawns strftime avatar_id video_path audio_path ref_text :
  emits_only (spawns_only (V2.training_cmd avatar_id video_path))
    (V2.run_training strftime avatar_id video_path audio_path ref_text).
Proof.
  unfold V2.run_training, V2.run_training_cleanup.
  apply emits_try_finally; [|emits_go].
  apply emits_try_except.
  - emits_go.
  - intros e k Hk. destruct e; injection Hk as <-; emits_go.
Qed.

(** ** The name of a training job (claim C9) *)

Lemma prefix_append (p x : string) : String.prefix p (p +:+ x) = true.
Proof.
  induction p as [|c p IH]; simpl; [destruct x; reflexivity|].
  destruct (Ascii.ascii_dec c c) as [_|Hne]; [exact IH | congruence].
Qed.

Lemma simple_full_avatar_id_spec requested :
  Simple.full_avatar_id requested =
    (if startswith requested "wav2lip256_" then requested
     else "wav2lip256_" +:+ requested).
Proof. unfold Simple.full_avatar_id. destruct (startswith _ _); reflexivity. Qed.

Lemma simple_full_avatar_id_prefixed requested :
  startswith (Simple.full_avatar_id requested) "wav2lip256_" = true.
Proof.
  rewrite simple_full_avatar_id_spec.
  destruct (startswith requested "wav2lip256_") eqn:E; [exact E|].
  unfold startswith. apply prefix_append.
Qed.

Lemma simple_full_avatar_id_idem requested :
  Simple.full_avatar_id (Simple.full_avatar_id requested) = Simple.full_avatar_id requested.
Proof.
  rewrite (simple_full_avatar_id_spec (Simple.full_avatar_id requested)).
  rewrite simple_full_avatar_id_prefixed. reflexivity.
Qed.

Lemma v2_train_model_ok isoformat (request : V2.TrainRequest) w :
  let id := V2.full_avatar_id (V2.train_avatar_id request) in
  (forall pid, training_processes w !! id = Some pid -> is_alive pid w = false) ->
  exists resp w' d t,
    V2.train_model isoformat request w = (Ok resp, w') /\
    resp !! "avatar_id" = Some (VStr id) /\
    sessions w' !! id = Some d /\ d !! "avatar_id" = Some (VStr id) /\
    d !! "status" = Some (VStr "training") /\
    background w' = background w ++ [t] /\
    task_avatar t = id /\ task_video t = V2.train_video_path request /\
    trace w' = trace w.
Proof.
  intros id Hlive. unfold V2.train_model. fold id.
  erewrite bind_ok by reflexivity.
  erewrite bind_ok.
  2:{ destruct (training_processes w !! id) as [pid|] eqn:E; [|reflexivity].
      specialize (Hlive pid eq_refl). unfold is_alive in Hlive.
      erewrite bind_ok by reflexivity.
      destruct (poll pid w); [reflexivity | discriminate]. }
  erewrite bind_ok by reflexivity.
  erewrite bind_ok by reflexivity.
  erewrite bind_ok by reflexivity.
  eexists _, _, _, _. split; [reflexivity|].
  split; [vm_compute; reflexivity|].
  split; [simpl; apply lookup_insert_eq|].
  split; [vm_compute; reflexivity|].
  split; [vm_compute; reflexivity|].
  split; [reflexivity|]. split; [reflexivity|]. split; reflexivity.
Qed.

(** An event in the trace stays there. *)
Lemma trace_kept {A} (m : M A) w e :
  emits_only (fun _ => True) m -> In e (trace w) -> In e (trace (snd (m w))).
Proof.
  intros H Hin. destruct (H w) as (evs & -> & _). apply in_or_app. left. exact Hin.
Qed.

Lemma Popen_ok cmd dir w pr rest :
  is_dir (fs_lookup (fs w) (resolve dir w)) = true ->
  programs w = Some pr :: rest ->
  let sp := spawn_program server_pid (clock w) pr (procs w) in
  Popen cmd dir w
    = (Ok (fst sp),
       set_trace (trace w ++ [EPopen cmd (resolve dir w) (fst sp)])
         (set_procs (snd sp) (set_programs rest w))).
Proof.
  intros Hd Hp sp. unfold Popen. rewrite Hd, Hp. simpl negb. cbv iota.
  subst sp. destruct (spawn_program _ _ _ _). reflexivity.
Qed.

Lemma open_w_ok p w :
  is_dir (fs_lookup (fs w) (parent_dir (resolve p w))) = true ->
  is_dir (fs_lookup (fs w) (resolve p w)) = false ->
  hd false (fs_faults w) = false ->
  open_w p w
    = (Ok tt,
       set_fs (fs_put (fs w) (resolve p w) (File EmptyString))
         (set_fs_faults (tl (fs_faults w))
            (set_trace (trace w ++ [EOpenW (resolve p w)]) w))).
Proof.
  intros H1 H2 H3. unfold open_w, take_fault. simpl. rewrite H1, H2, H3. reflexivity.
Qed.

Lemma try_except_bind2_ok {A B C} (m : M A) (f : A -> M B) (k : B -> M C) h w a w1 :
  m w = (Ok a, w1) ->
  try_except (bind (bind m f) k) h w = try_except (bind (f a) k) h w1.
Proof. intros H. unfold try_except, bind. rewrite H. reflexivity. Qed.

Lemma try_finally_except_bind_ok {A B} (m : M A) (k : A -> M B) h c w a w1 :
  m w = (Ok a, w1) ->
  try_finally (try_except (bind m k) h) c w = try_finally (try_except (k a) h) c w1.
Proof. intros H. unfold try_finally, try_except, bind. rewrite H. reflexivity. Qed.

(** [run_training] of [backend_simple.py] starts the trainer as soon as the
    [wav2lip] directory is there and the command can be started. *)
Lemma simple_run_training_starts avatar_id video audio text w pr rest :
  is_dir (fs_lookup (fs w) (LIVETALKING_PATH ++ ["wav2lip"])) = true ->
  programs w = Some pr :: rest ->
  exists pid,
    In (EPopen (Simple.training_cmd avatar_id video) (LIVETALKING_PATH ++ ["wav2lip"]) pid)
       (trace (snd (Simple.run_training avatar_id video audio text w))).
Proof.
  intros Hd Hp.
  pose proof (Popen_ok (Simple.training_cmd avatar_id video) Simple.WAV2LIP_DIR w pr rest
                Hd Hp) as HP.
  cbv zeta in HP.
  exists (fst (spawn_program server_pid (clock w) pr (procs w))).
  unfold Simple.run_training, subprocess_run.
  rewrite (try_except_bind2_ok _ _ _ _ _ _ _ HP).
  apply trace_kept.
  - unfold Simple.set_status, except_Exception. emits_go.
  - apply in_or_app. right. left. reflexivity.
Qed.

(** [run_training] of [livetalking_backend_v2.py] starts the trainer when
    the session is there, the log file can be written below [wav2lip\logs]
    and the command can be started. *)
Lemma v2_run_training_starts strftime avatar_id video audio text w d pr rest :
  sessions w !! avatar_id = Some d ->
  is_dir (fs_lookup (fs w) (LIVETALKING_PATH ++ ["wav2lip"; "logs"])) = true ->
  is_dir (fs_lookup (fs w)
            (LIVETALKING_PATH ++
               ["wav2lip"; "logs";
                "train_" +:+ avatar_id +:+ "_" +:+ strftime (clock w) +:+ ".log"])) = false ->
  hd false (fs_faults w) = false ->
  programs w = Some pr :: rest ->
  exists pid,
    In (EPopen (V2.training_cmd avatar_id video) (LIVETALKING_PATH ++ ["wav2lip"]) pid)
       (trace (snd (V2.run_training strftime avatar_id video audio text w))).
Proof.
  intros Hs Hlogs Hfile Hfault Hp.
  set (name := "train_" +:+ avatar_id +:+ "_" +:+ strftime (clock w) +:+ ".log") in *.
  set (L := LIVETALKING_PATH ++ ["wav2lip"; "logs"]) in *.
  set (W := LIVETALKING_PATH ++ ["wav2lip"]).
  set (w1 := set_sessions (<[avatar_id := <["status" := VStr "training"]> d]> (sessions w)) w).
  set (w2 := set_cwd W (set_trace (trace w1 ++ [EChdir W]) w1)).
  assert (H1 : session_set avatar_id "status" (VStr "training") w = (Ok tt, w1)).
  { unfold session_set. rewrite Hs. reflexivity. }
  assert (HW : is_dir (fs_lookup (fs w) W) = true).
  { destruct (fs_lookup (fs w) L) as [x|] eqn:E; [|discriminate].
    apply (fs_lookup_parent_dir (fs w) W "logs" [] x). exact E. }
  assert (H2 : os_chdir WAV2LIP_PATH w1 = (Ok tt, w2)).
  { unfold os_chdir. change (resolve WAV2LIP_PATH w1) with W.
    change (fs w1) with (fs w). rewrite HW. reflexivity. }
  assert (H3 : gets clock w2 = (Ok (clock w), w2)) by reflexivity.
  pose proof (open_w_ok (path_join LOGS_DIR name) w2) as H4.
  change (resolve (path_join LOGS_DIR name) w2) with (L ++ [name]) in H4.
  rewrite parent_dir_snoc in H4. change (fs w2) with (fs w) in H4.
  change (fs_faults w2) with (fs_faults w) in H4.
  specialize (H4 Hlogs Hfile Hfault).
  match type of H4 with _ = (_, ?x) => set (w3 := x) in H4 end.
  assert (HW3 : is_dir (fs_lookup (fs w3) (resolve WAV2LIP_PATH w3)) = true).
  { change (is_dir (fs_lookup (fs_put (fs w) (L ++ [name]) (File EmptyString)) W) = true).
    pose proof (fs_put_parent_dir L name (fs w) (File EmptyString) Hlogs) as Hl.
    destruct (fs_lookup (fs_put (fs w) (L ++ [name]) (File EmptyString)) L) as [x|] eqn:E;
      [|discriminate].
    apply (fs_lookup_parent_dir _ W "logs" [] x). exact E. }
  pose proof (Popen_ok (V2.training_cmd avatar_id video) WAV2LIP_PATH w3 pr rest HW3 Hp) as H5.
  cbv zeta in H5.
  exists (fst (spawn_program server_pid (clock w3) pr (procs w3))).
  unfold V2.run_training.
  rewrite (try_finally_except_bind_ok _ _ _ _ _ _ _ H1).
  rewrite (try_finally_except_bind_ok _ _ _ _ _ _ _ H2).
  rewrite (try_finally_except_bind_ok _ _ _ _ _ _ _ H3).
  rewrite (try_finally_except_bind_ok _ _ _ _ _ _ _ H4).
  rewrite (try_finally_except_bind_ok _ _ _ _ _ _ _ H5).
  apply trace_kept.
  - unfold V2.run_training_cleanup.
    apply emits_try_finally; [|emits_go].
    apply emits_try_except.
    + emits_go.
    + intros e k Hk. destruct e; injection Hk as <-; emits_go.
  - apply in_or_app. right. left. reflexivity.
Qed.

(** C9: the name under which a train request is registered, passed to the
    trainer and answered is the requested [avatar_id] when that starts with
    [wav2lip256_], and [wav2lip256_] followed by the requested [avatar_id]
    otherwise; normalising twice changes nothing.  In [backend_simple.py] the
    registry is [training_status], in [livetalking_backend_v2.py] it is
    [sessions] (there a request is accepted unless a training process for
    the name is still alive).  [run_training] spawns no other command than
    the trainer with that name after [--avatar_id], and it does spawn it:
    in [backend_simple.py] when the [wav2lip] directory is there and the
    command can be started, in [livetalking_backend_v2.py] when moreover the
    session is there and the log file can be written. *)
Theorem train_name_normalized isoformat strftime
    (rs : Simple.TrainRequest) (rv : V2.TrainRequest) w :
  let ids := Simple.full_avatar_id (Simple.train_avatar_id rs) in
  let idv := V2.full_avatar_id (V2.train_avatar_id rv) in
  (forall pid, training_processes w !! idv = Some pid -> is_alive pid w = false) ->
  (* the normal form *)
  (forall requested,
     Simple.full_avatar_id requested =
       (if startswith requested "wav2lip256_" then requested
        else "wav2lip256_" +:+ requested) /\
     V2.full_avatar_id requested = Simple.full_avatar_id requested /\
     Simple.full_avatar_id (Simple.full_avatar_id requested) =
       Simple.full_avatar_id requested) /\
  (* backend_simple.py *)
  (exists w' t,
     Simple.train_avatar rs w = (Ok (training_started_simple ids), w') /\
     training_status w' !! ids = Some "training"%string /\
     background w' = background w ++ [t] /\
     task_avatar t = ids /\ task_video t = Simple.train_video_path rs) /\
  (forall video audio text,
     emits_only (spawns_only (genavatar_cmd ids video))
       (Simple.run_training ids video audio text)) /\
  (forall video audio text w0 pr rest,
     is_dir (fs_lookup (fs w0) (LIVETALKING_PATH ++ ["wav2lip"])) = true ->
     programs w0 = Some pr :: rest ->
     exists pid,
       In (EPopen (genavatar_cmd ids video) (LIVETALKING_PATH ++ ["wav2lip"]) pid)
          (trace (snd (Simple.run_training ids video audio text w0)))) /\
  (* livetalking_backend_v2.py *)
  (exists resp w' d t,
     V2.train_model isoformat rv w = (Ok resp, w') /\
     resp !! "avatar_id" = Some (VStr idv) /\
     sessions w' !! idv = Some d /\ d !! "avatar_id" = Some (VStr idv) /\
     background w' = background w ++ [t] /\
     task_avatar t = idv /\ task_video t = V2.train_video_path rv) /\
  (forall video audio text,
     emits_only (spawns_only (genavatar_cmd idv video))
       (V2.run_training strftime idv video audio text)) /\
  (forall video audio text w0 d pr rest,
     sessions w0 !! idv = Some d ->
     is_dir (fs_lookup (fs w0) (LIVETALKING_PATH ++ ["wav2lip"; "logs"])) = true ->
     is_dir (fs_lookup (fs w0)
               (LIVETALKING_PATH ++
                  ["wav2lip"; "logs";
                   "train_" +:+ idv +:+ "_" +:+ strftime (clock w0) +:+ ".log"])) = false ->
     hd false (fs_faults w0) = false ->
     programs w0 = Some pr :: rest ->
     exists pid,
       In (EPopen (genavatar_cmd idv video) (LIVETALKING_PATH ++ ["wav2lip"]) pid)
          (trace (snd (V2.run_training strftime idv video audio text w0)))).
Proof.
  intros ids idv Hlive. split; [|split; [|split; [|split; [|split; [|split]]]]].
  - intros requested. split; [apply simple_full_avatar_id_spec|].
    split; [reflexivity | apply simple_full_avatar_id_idem].
  - eexists _, _. split; [reflexivity|].
    split; [simpl; apply lookup_insert_eq|]. split; [reflexivity|]. split; reflexivity.
  - intros video audio text. apply simple_run_training_spawns.
  - intros video audio text w0 pr rest Hd Hp.
    exact (simple_run_training_starts ids video audio text w0 pr rest Hd Hp).
  - destruct (v2_train_model_ok isoformat rv w Hlive)
      as (resp & w' & d & t & H1 & H2 & H3 & H4 & _ & H5 & H6 & H7 & _).
    exists resp, w', d, t. auto 10.
  - intros video audio text. apply v2_run_training_spawns.
  - intros video audio text w0 d pr rest Hs Hlogs Hfile Hfault Hp.
    exact (v2_run_training_starts strftime idv video audio text w0 d pr rest
             Hs Hlogs Hfile Hfault Hp).
Qed.

Lemma train_name_normalized_witness :
  let w0 := snd (V2.train_model (fun _ => EmptyString) v2_train_request world_hung) in
  (forall pid, training_processes empty_world !! "wav2lip256_anna" = Some pid ->
               is_alive pid empty_world = false) /\
  (exists w' t,
     Simple.train_avatar simple_train_request empty_world
       = (Ok (training_started_simple "wav2lip256_anna"), w') /\
     training_status w' !! "wav2lip256_anna" = Some "training"%string /\
     background w' = background empty_world ++ [t] /\
     task_avatar t = "wav2lip256_anna"%string /\
     task_video t = "uploads\anna.mp4"%string) /\
  (exists pid,
     In (EPopen (genavatar_cmd "wav2lip256_anna" "uploads\anna.mp4")
                (LIVETALKING_PATH ++ ["wav2lip"]) pid)
        (trace (snd (Simple.run_training "wav2lip256_anna" "uploads\anna.mp4"
                       (Rel ["uploads"; "anna.wav"]) "hello" world_hung)))) /\
  (exists pid,
     In (EPopen (genavatar_cmd "wav2lip256_anna" "uploads\anna.mp4")
                (LIVETALKING_PATH ++ ["wav2lip"]) pid)
        (trace (snd (V2.run_training (fun _ => EmptyString) "wav2lip256_anna"
                       "uploads\anna.mp4" (Rel ["uploads"; "anna.wav"]) "hello" w0)))).
Proof.
  intros w0.
  assert (H : forall pid, training_processes empty_world !! "wav2lip256_anna" = Some pid ->
                          is_alive pid empty_world = false)
    by (intros pid Hp; vm_compute in Hp; discriminate).
  pose proof (train_name_normalized (fun _ => EmptyString) (fun _ => EmptyString)
                simple_train_request v2_train_request empty_world H) as T.
  cbv zeta in T. destruct T as (_ & T1 & _ & T2 & _ & _ & T3).
  split; [exact H|]. split; [exact T1|]. split.
  - apply (T2 "uploads\anna.mp4" (Rel ["uploads"; "anna.wav"]) "hello" world_hung
              (Program None 0 true [Program None 0 true []]) []);
      vm_compute; reflexivity.
  - apply (T3 "uploads\anna.mp4" (Rel ["uploads"; "anna.wav"]) "hello" w0
              (default ∅ (sessions w0 !! "wav2lip256_anna"))
              (Program None 0 true [Program None 0 true []]) []);
      vm_compute; reflexivity.
Defined.

(** ** Starting a job twice (claim C3) *)

Lemma simple_start_nospawn request w n :
  lookup_path (path_join AVATARS_DIR (Simple.start_avatar_id request)) w = Some n ->
  (forall pid, running_processes w !! Simple.start_avatar_id request = Some pid ->
               is_alive pid w = false) ->
  (forall pr rest, programs w <> Some pr :: rest) ->
  exists e w', Simple.start_avatar request w = (Raise e, w').
Proof.
  intros Hex Hreg Hprog.
  pose proof (avatar_exists_livetalking_dir _ _ _ Hex) as Hdir.
  unfold Simple.start_avatar.
  erewrite bind_ok by reflexivity. rewrite Hex. simpl negb. simpl when.
  erewrite bind_ok by reflexivity. erewrite bind_ok by reflexivity.
  erewrite bind_ok.
  2:{ destruct (running_processes w !! Simple.start_avatar_id request) as [pid|] eqn:E;
        [|reflexivity].
      specialize (Hreg pid eq_refl). unfold is_alive in Hreg.
      erewrite bind_ok by reflexivity.
      destruct (poll pid w); [reflexivity | discriminate]. }
  assert (HP : exists e w', Popen (Simple.start_cmd request) (Abs LIVETALKING_PATH) w
                            = (Raise e, w')).
  { unfold Popen. simpl resolve. rewrite Hdir. simpl negb.
    destruct (programs w) as [|[pr|] rest] eqn:E; [eauto | | eauto].
    exfalso. eapply Hprog. reflexivity. }
  destruct HP as (e & w' & HP).
  erewrite try_except_raise by (erewrite bind_raise by exact HP; reflexivity).
  simpl. eauto.
Qed.

Lemma simple_start_ok_inv request w resp w1 :
  Simple.start_avatar request w = (Ok resp, w1) ->
  exists n pid,
    lookup_path (path_join AVATARS_DIR (Simple.start_avatar_id request)) w1 = Some n /\
    running_processes w1 !! Simple.start_avatar_id request = Some pid /\
    is_alive pid w1 = true /\
    resp = running_simple (Simple.start_avatar_id request) pid /\
    procs w !! pid = None.
Proof.
  intros H.
  destruct (lookup_path (path_join AVATARS_DIR (Simple.start_avatar_id request)) w)
    as [n|] eqn:Hex.
  2:{ destruct (simple_start_missing request w Hex) as (d & Hm). congruence. }
  assert (Hreg : forall pid,
             running_processes w !! Simple.start_avatar_id request = Some pid ->
             is_alive pid w = false).
  { intros pid Hp. destruct (is_alive pid w) eqn:Ha; [|reflexivity].
    rewrite (simple_start_running request w n pid Hex Hp Ha) in H. discriminate. }
  destruct (programs w) as [|[pr|] rest] eqn:Hprog.
  - destruct (simple_start_nospawn request w n Hex Hreg) as (e & w' & Hr);
      [rewrite Hprog; discriminate | congruence].
  - rewrite (simple_start_spawn request w n pr rest Hex Hreg Hprog) in H.
    unfold simple_spawned in H.
    destruct pr as [lifetime code graceful workers].
    pose proof (spawn_program_root server_pid (clock w) lifetime code graceful workers (procs w))
      as (Hfst & _ & _).
    destruct (spawn_program _ _ _ _) as [pid tbl] eqn:Hsp. simpl in Hfst.
    destruct (is_alive pid _) eqn:Ha; [|discriminate].
    injection H as <- <-.
    exists n, pid. split; [exact Hex|]. split; [simpl; apply lookup_insert_eq|].
    split; [exact Ha|]. split; [reflexivity|]. subst pid. apply fresh_pid_fresh.
  - destruct (simple_start_nospawn request w n Hex Hreg) as (e & w' & Hr);
      [rewrite Hprog; discriminate | congruence].
Qed.

Lemma v2_start_running strftime name w n pid :
  lookup_path (path_join AVATARS_DIR name) w = Some n ->
  running_processes w !! name = Some pid ->
  is_alive pid w = true ->
  V2.start_avatar strftime name w = (Raise (HTTPException 400 "该数字人已在运行"), w).
Proof.
  intros Hex Hreg Ha. unfold V2.start_avatar, V2.check_avatar_exists.
  erewrite bind_ok by reflexivity. rewrite Hex. simpl negb. simpl when.
  erewrite bind_ok by reflexivity. erewrite bind_ok by reflexivity. rewrite Hreg.
  unfold is_alive in Ha. destruct (poll pid w) eqn:Hp; [discriminate|].
  erewrite bind_raise; [reflexivity|].
  erewrite bind_ok by reflexivity. rewrite Hp. reflexivity.
Qed.

Lemma bind_ok_inv {A B} (m : M A) (k : A -> M B) w b w' :
  bind m k w = (Ok b, w') ->
  exists a w1, m w = (Ok a, w1) /\ k a w1 = (Ok b, w').
Proof.
  unfold bind. destruct (m w) as [[a|e] w1]; [eauto | discriminate].
Qed.

Lemma os_chdir_ok_inv p w a w1 :
  os_chdir p w = (Ok a, w1) ->
  is_dir (fs_lookup (fs w) (resolve p w)) = true /\
  w1 = set_cwd (resolve p w) (set_trace (trace w ++ [EChdir (resolve p w)]) w).
Proof.
  unfold os_chdir. destruct (is_dir _); [|discriminate].
  intros [= _ <-]. split; reflexivity.
Qed.

Lemma open_w_ok_inv p w a w1 :
  open_w p w = (Ok a, w1) ->
  w1 = set_fs (fs_put (fs w) (resolve p w) (File EmptyString))
         (set_fs_faults (tl (fs_faults w))
            (set_trace (trace w ++ [EOpenW (resolve p w)]) w)).
Proof.
  unfold open_w, take_fault. simpl.
  destruct (negb _); [discriminate|]. destruct (is_dir _); [discriminate|].
  destruct (hd false (fs_faults w)); [discriminate|].
  intros [= _ <-]. reflexivity.
Qed.

Lemma Popen_ok_inv cmd dir w pid w1 :
  Popen cmd dir w = (Ok pid, w1) ->
  exists pr rest tbl,
    programs w = Some pr :: rest /\
    spawn_program server_pid (clock w) pr (procs w) = (pid, tbl) /\
    w1 = set_trace (trace w ++ [EPopen cmd (resolve dir w) pid])
           (set_procs tbl (set_programs rest w)).
Proof.
  unfold Popen. destruct (negb _); [discriminate|].
  destruct (programs w) as [|[pr|] rest]; [discriminate | | discriminate].
  destruct (spawn_program _ _ _ _) as [q tbl] eqn:E. intros [= <- <-].
  exists pr, rest, tbl. split; [reflexivity|]. split; [exact E | reflexivity].
Qed.

Lemma session_set_ok_inv sid key v w a w1 :
  session_set sid key v w = (Ok a, w1) ->
  exists d, sessions w !! sid = Some d /\
            w1 = set_sessions (<[sid := <[key := v]> d]> (sessions w)) w.
Proof.
  unfold session_set. destruct (sessions w !! sid) as [d|]; [|discriminate].
  intros [= _ <-]. eauto.
Qed.

Lemma v2_choose_ref_file_pure name w r w1 :
  V2.choose_ref_file name w = (r, w1) -> w1 = w.
Proof.
  unfold V2.choose_ref_file, bind, os_path_exists, gets, os_listdir, ret.
  destruct (lookup_path (Abs _) w); [intros [= _ <-]; reflexivity|].
  destruct (lookup_path WAV_DIR w) as [[|m]|]; try (intros [= _ <-]; reflexivity).
  destruct (List.filter _ _); intros [= _ <-]; reflexivity.
Qed.

Lemma v2_start_handler_raises name e w :
  exists e' w',
    ((ss <- gets sessions ;;
      when (bool_decide (is_Some (ss !! name)))
        (session_set name "status" (VStr "error")) ;;;
      raise (HTTPException 500 ("启动失败: " +:+ str_exn e))) : M pydict) w
    = (Raise e', w').
Proof.
  unfold bind, gets, when, session_set, raise, ret.
  destruct (bool_decide _); [|eauto].
  destruct (sessions w !! name); eauto.
Qed.

Tactic Notation "inv_bind" hyp(H) ident(a) ident(w) ident(E) :=
  apply bind_ok_inv in H as (a & w & E & H).

Tactic Notation "inv_pure" hyp(E) ident(a) ident(w) :=
  unfold gets, ret, modify in E; cbv beta in E;
  injection E; clear E; intros; subst w; subst a.

Lemma modify_ok_inv (f : World -> World) w a w1 :
  modify f w = (Ok a, w1) -> w1 = f w.
Proof. unfold modify. intros [= _ <-]. reflexivity. Qed.

Lemma time_sleep_ok_inv secs w a w1 :
  time_sleep secs w = (Ok a, w1) ->
  w1 = set_clock (clock w + secs) (set_trace (trace w ++ [ESleep secs]) w).
Proof. unfold time_sleep, bind, log, modify. intros [= _ <-]. reflexivity. Qed.

Lemma v2_start_ok_inv strftime name w resp w1 :
  V2.start_avatar strftime name w = (Ok resp, w1) ->
  exists n pid,
    lookup_path (path_join AVATARS_DIR name) w1 = Some n /\
    running_processes w1 !! name = Some pid /\
    is_alive pid w1 = true.
Proof.
  intros H. unfold V2.start_avatar, V2.check_avatar_exists in H.
  inv_bind H ex w0 E. unfold os_path_exists in E. inv_pure E ex w0.
  match type of H with
  | context [match lookup_path ?p w with _ => _ end] =>
      destruct (lookup_path p w) as [n|] eqn:Hex
  end; cbv [negb when] in H; inv_bind H u w0 E; [|discriminate].
  inv_pure E u w0.
  inv_bind H rp w0 E. inv_pure E rp w0.
  inv_bind H u0 w0 E.
  assert (w0 = w).
  { destruct (running_processes w !! name) as [q|].
    - inv_bind E rc w2 E0. inv_pure E0 rc w2. unfold when in E.
      destruct (bool_decide _); [discriminate|]. inv_pure E u0 w0. reflexivity.
    - inv_pure E u0 w0. reflexivity. }
  subst w0. clear E.
  unfold try_finally in H.
  destruct (try_except _ _ w) as [r wb] eqn:Et.
  destruct (bind (gets script_dir) _ wb) as [[[]|e] wc] eqn:Ec; [|discriminate].
  injection H as -> ->.
  inv_bind Ec sd w0 E. inv_pure E sd w0. apply os_chdir_ok_inv in Ec as (_ & Hw1).
  unfold try_except in Et.
  destruct (bind (os_chdir (Abs LIVETALKING_PATH)) _ w) as [[r|e] wb'] eqn:Eb.
  2:{ cbv beta iota delta [except_Exception] in Et.
      match type of Et with
      | ?t = _ => assert (Hr : exists e' w', t = (Raise e', w'))
                    by apply (v2_start_handler_raises name e wb')
      end.
      destruct Hr as (e' & w' & Hr). rewrite Hr in Et. discriminate. }
  injection Et as -> ->.
  inv_bind Eb u1 w3 E. apply os_chdir_ok_inv in E as (Hdir & Hw3).
  assert (F3 : fs w3 = fs w /\ cwd w3 = LIVETALKING_PATH)
    by (rewrite Hw3; split; reflexivity).
  clear Hw3. destruct F3 as (F3 & C3).
  inv_bind Eb ss w4 E. inv_pure E ss w4.
  inv_bind Eb ref_file w4 E. apply v2_choose_ref_file_pure in E as ->.
  inv_bind Eb now w4 E. inv_pure E now w4.
  inv_bind Eb u2 w5 E. apply open_w_ok_inv in E as Hw5; try clear E.
  apply (f_equal fs) in Hw5. simpl in Hw5. rewrite C3, F3 in Hw5.
  inv_bind Eb pid w6 E. apply Popen_ok_inv in E as (pr & rest & tbl & _ & _ & Hw6).
  apply (f_equal fs) in Hw6. simpl in Hw6.
  inv_bind Eb u3 w7 E. apply modify_ok_inv in E as Hw7; try clear E.
  assert (F7 : fs w7 = fs w6 /\ running_processes w7 !! name = Some pid)
    by (rewrite Hw7; split; [reflexivity | apply lookup_insert_eq]).
  clear Hw7. destruct F7 as (F7 & R7).
  inv_bind Eb u4 w8 E. apply modify_ok_inv in E as Hw8; try clear E.
  assert (F8 : fs w8 = fs w7 /\ running_processes w8 = running_processes w7)
    by (rewrite Hw8; destruct (sessions w7 !! name); split; reflexivity).
  clear Hw8. destruct F8 as (F8 & R8).
  inv_bind Eb u5 w9 E. apply session_set_ok_inv in E as (d1 & _ & Hw9).
  assert (F9 : fs w9 = fs w8 /\ running_processes w9 = running_processes w8)
    by (rewrite Hw9; split; reflexivity).
  clear Hw9. destruct F9 as (F9 & R9).
  inv_bind Eb u6 w10 E. apply session_set_ok_inv in E as (d2 & _ & Hw10).
  assert (F10 : fs w10 = fs w9 /\ running_processes w10 = running_processes w9)
    by (rewrite Hw10; split; reflexivity).
  clear Hw10. destruct F10 as (F10 & R10).
  inv_bind Eb u7 w11 E. apply time_sleep_ok_inv in E as Hw11; try clear E.
  assert (F11 : fs w11 = fs w10 /\ running_processes w11 = running_processes w10)
    by (rewrite Hw11; split; reflexivity).
  clear Hw11. destruct F11 as (F11 & R11).
  inv_bind Eb rc w12 E. inv_pure E rc w12.
  destruct (poll pid w11) eqn:Hpoll.
  { inv_bind Eb u8 w0 E.
    rewrite bool_decide_false in E by discriminate. cbv [negb when] in E.
    inv_bind E u9 w2 E1. inv_bind E u10 w13 E2. discriminate. }
  rewrite bool_decide_true in Eb by reflexivity. cbv [negb when] in Eb.
  inv_bind Eb u8 w0 E. inv_pure E u8 w0. inv_pure Eb resp wb.
  exists n, pid. rewrite Hw1. split; [|split].
  - unfold lookup_path. simpl fs. rewrite F11, F10, F9, F8, F7, Hw6, Hw5.
    change (resolve (path_join AVATARS_DIR name) _)
      with (LIVETALKING_PATH ++ "data"%string :: ["avatars"%string; name]).
    change (resolve (path_join LOGS_DIR ?f) _) with (LIVETALKING_PATH ++ "logs"%string :: [f]).
    rewrite fs_put_diverge by discriminate. exact Hex.
  - simpl. rewrite R11, R10, R9, R8. exact R7.
  - unfold is_alive, poll. simpl. unfold poll in Hpoll. rewrite Hpoll. reflexivity.
Qed.

(** C3, as amended: while the published directory of a name exists and the
    registry holds a live process for the name, [start_avatar] of
    [backend_simple.py] and of [livetalking_backend_v2.py] raises the HTTP
    error 400 and changes nothing (no process is spawned); so a second
    [start_avatar] right after a successful one is rejected in this way, and
    the registry still holds the one live process of the first. *)
Theorem start_avatar_rejects_running strftime (request : Simple.StartRequest) w :
  let name := Simple.start_avatar_id request in
  (forall n pid,
     lookup_path (path_join AVATARS_DIR name) w = Some n ->
     running_processes w !! name = Some pid ->
     is_alive pid w = true ->
     Simple.start_avatar request w = (Raise already_running, w) /\
     V2.start_avatar strftime name w = (Raise already_running, w)) /\
  (forall resp w1,
     Simple.start_avatar request w = (Ok resp, w1) ->
     Simple.start_avatar request w1 = (Raise already_running, w1) /\
     exists pid, running_processes w1 !! name = Some pid /\ is_alive pid w1 = true) /\
  (forall resp w1,
     V2.start_avatar strftime name w = (Ok resp, w1) ->
     V2.start_avatar strftime name w1 = (Raise already_running, w1) /\
     exists pid, running_processes w1 !! name = Some pid /\ is_alive pid w1 = true).
Proof.
  intros name. split; [|split].
  - intros n pid Hex Hreg Ha. split.
    + apply (simple_start_running request w n pid Hex Hreg Ha).
    + apply (v2_start_running strftime name w n pid Hex Hreg Ha).
  - intros resp w1 H.
    destruct (simple_start_ok_inv request w resp w1 H) as (n & pid & Hex & Hreg & Ha & _).
    split; [apply (simple_start_running request w1 n pid Hex Hreg Ha) | eauto].
  - intros resp w1 H.
    destruct (v2_start_ok_inv strftime name w resp w1 H) as (n & pid & Hex & Hreg & Ha).
    split; [apply (v2_start_running strftime name w1 n pid Hex Hreg Ha) | eauto].
Qed.

Lemma start_avatar_rejects_running_witness :
  lookup_path (path_join AVATARS_DIR "wav2lip256_a") world_serving = Some (Dir ∅) /\
  running_processes world_serving !! "wav2lip256_a" = Some 1%nat /\
  is_alive 1 world_serving = true /\
  Simple.start_avatar start_request_a world_serving = (Raise already_running, world_serving) /\
  V2.start_avatar (fun _ => EmptyString) "wav2lip256_a" world_serving
    = (Raise already_running, world_serving).
Proof.
  assert (H1 : lookup_path (path_join AVATARS_DIR "wav2lip256_a") world_serving
               = Some (Dir ∅)) by (vm_compute; reflexivity).
  assert (H2 : running_processes world_serving !! "wav2lip256_a" = Some 1%nat)
    by (vm_compute; reflexivity).
  assert (H3 : is_alive 1 world_serving = true) by (vm_compute; reflexivity).
  split; [exact H1|]. split; [exact H2|]. split; [exact H3|].
  exact (proj1 (start_avatar_rejects_running (fun _ => EmptyString)
                  start_request_a world_serving) (Dir ∅) 1%nat H1 H2 H3).
Defined.

Example start_serving_demo :
  Simple.start_avatar start_request_a world_serving = (Raise already_running, world_serving) /\
  V2.start_avatar (fun _ => EmptyString) "wav2lip256_a" world_serving
    = (Raise already_running, world_serving).
Proof. split; vm_compute; reflexivity. Qed.

(** C3 as stated does not hold: the rejection carries the status code 400,
    not the conflict code 409, and once the published directory is gone the
    answer for a running job is 404. *)
Lemma start_avatar_conflict_code_fails :
  ~ rejects_with_conflict
      (fun name => Simple.start_avatar
                     {| Simple.start_avatar_id := name;
                        Simple.start_ref_file := "wav\wav2lip256_a.wav";
                        Simple.start_ref_text := "hello" |}) /\
  ~ rejects_with_conflict (V2.start_avatar (fun _ => EmptyString)) /\
  Simple.start_avatar start_request_a world_serving_unpublished
    = (Raise (HTTPException 404 "数字人不存在: wav2lip256_a"), world_serving_unpublished).
Proof.
  split; [|split].
  - intros H.
    destruct (H world_serving "wav2lip256_a"%string 1%nat) as (detail & Hd);
      [vm_compute; reflexivity | vm_compute; reflexivity|].
    destruct start_serving_demo as [Hs _].
    change (Simple.start_avatar _ world_serving)
      with (Simple.start_avatar start_request_a world_serving) in Hd.
    rewrite Hs in Hd. discriminate.
  - intros H.
    destruct (H world_serving "wav2lip256_a"%string 1%nat) as (detail & Hd);
      [vm_compute; reflexivity | vm_compute; reflexivity|].
    destruct start_serving_demo as [_ Hs].
    rewrite Hs in Hd. discriminate.
  - vm_compute. reflexivity.
Qed.

(** ** A serving process that exits during start-up (claim C4) *)

(** In [backend_simple.py] a command that ends within the three seconds of
    grace makes [start_avatar] fail with the status 500 and leaves no entry
    for the name in the registry. *)
Lemma simple_start_exits_early request w n d code graceful workers rest :
  lookup_path (path_join AVATARS_DIR (Simple.start_avatar_id request)) w = Some n ->
  (forall pid, running_processes w !! Simple.start_avatar_id request = Some pid ->
               is_alive pid w = false) ->
  programs w = Some (Program (Some d) code graceful workers) :: rest ->
  (d <= 3)%nat ->
  exists detail w',
    Simple.start_avatar request w = (Raise (HTTPException 500 detail), w') /\
    running_processes w' !! Simple.start_avatar_id request = None.
Proof.
  intros Hex Hreg Hprog Hd.
  rewrite (simple_start_spawn request w n _ rest Hex Hreg Hprog).
  unfold simple_spawned.
  pose proof (spawn_program_root server_pid (clock w) (Some d) code graceful workers (procs w))
    as (Hfst & Hroot & _).
  destruct (spawn_program _ _ _ _) as [pid tbl] eqn:Hsp. simpl in Hfst, Hroot.
  subst pid.
  match goal with |- context [is_alive ?p ?W] => assert (Hdead : is_alive p W = false) end.
  { unfold is_alive, poll. simpl. rewrite Hroot. unfold returncode. simpl.
    destruct (clock w + d <=? clock w + 3)%nat eqn:E; [reflexivity|].
    apply Nat.leb_gt in E. lia. }
  rewrite Hdead. eexists _, _. split; [reflexivity|].
  simpl. rewrite lookup_delete_eq. reflexivity.
Qed.

(** C4 at the failing input: [start_avatar] of [livetalking_backend.py] on a
    ready session whose command exits immediately reports the status 500
    and removes the entry from [running_processes], but the session keeps
    the pid of the exited process. *)
Theorem v1_start_exit_keeps_pid :
  match V1.start_avatar "s1" world_v1_ready with
  | (Raise (HTTPException status_code _), w') =>
      status_code = 500 /\
      running_processes w' !! "s1" = None /\
      is_alive 1 w' = false /\
      session_field "s1" "status" w' = Some (VStr "error") /\
      session_field "s1" "pid" w' = Some (VInt 1)
  | _ => False
  end.
Proof. vm_compute. repeat split; reflexivity. Qed.

(** ** Status queries on a job whose process has exited (claim C8) *)

(** C8 at the failing inputs: [scan_avatars] of [backend_simple.py] reports
    [is_running] for a name whose process has exited, without looking at the
    process and without touching the registry; [get_session] of
    [livetalking_backend.py] does look, answers [is_running = False] and
    drops the registry entry, but still reports the status [running] and the
    pid of the exited process. *)
Theorem status_query_reports_exited_process :
  (is_alive 1 world_stale = false /\
   match Simple.scan_avatars world_stale with
   | (Ok [avatar], w') =>
       w' = world_stale /\
       avatar !! "id" = Some (VStr "wav2lip256_a") /\
       avatar !! "is_running" = Some (VBool true)
   | _ => False
   end) /\
  (is_alive 1 world_v1_stale = false /\
   match V1.get_session "s1" world_v1_stale with
   | (Ok session, w') =>
       running_processes w' !! "s1" = None /\
       session !! "is_running" = Some (VBool false) /\
       session !! "status" = Some (VStr "running") /\
       session !! "pid" = Some (VInt 1)
   | _ => False
   end).
Proof. vm_compute. repeat split; reflexivity. Qed.

(** ** Publishing a training result (claim C2) *)

(** A move that is a plain rename: the source exists, the destination does
    not, and the destination's parent directory does. *)
Lemma shutil_move_rename src dst w n :
  fs_lookup (fs w) (resolve src w) = Some n ->
  fs_lookup (fs w) (resolve dst w) = None ->
  ~ resolve src w `prefix_of` resolve dst w ->
  is_dir (fs_lookup (fs w) (parent_dir (resolve dst w))) = true ->
  shutil_move src dst w =
    let w1 := set_fs_faults (tl (fs_faults w))
                (set_trace (trace w ++ [EMove (resolve src w) (resolve dst w)]) w) in
    if hd false (fs_faults w)
    then (Raise (OSError "move failed"), w1)
    else (Ok tt, set_fs (fs_put (fs_remove (fs w) (resolve src w)) (resolve dst w) n) w1).
Proof.
  intros Hs Hd Hp Hpar. unfold shutil_move, take_fault. simpl.
  rewrite Hs, Hd. simpl. rewrite bool_decide_false by exact Hp.
  rewrite Hpar. simpl. rewrite ?Hd.
  rewrite bool_decide_false by (intros [? ?]; discriminate).
  rewrite andb_false_r.
  destruct (hd false (fs_faults w)); reflexivity.
Qed.

Lemma string_length_app (a b : string) :
  String.length (a +:+ b) = (String.length a + String.length b)%nat.
Proof. induction a as [|c a IH]; simpl; [reflexivity | rewrite IH; reflexivity]. Qed.

Lemma backup_name_fresh strftime avatar_id now :
  V2.backup_name strftime avatar_id now <> avatar_id.
Proof.
  unfold V2.backup_name. intros H. apply (f_equal String.length) in H.
  rewrite !string_length_app in H. simpl in H. lia.
Qed.

Lemma avatars_not_under_results (a b : string) q :
  ~ (results_path ++ [a]) `prefix_of` (avatars_path ++ b :: q).
Proof.
  unfold results_path, avatars_path, LIVETALKING_PATH. simpl. intros H.
  do 6 (apply prefix_cons_inv_2 in H).
  apply prefix_cons_inv_1 in H. discriminate.
Qed.

Lemma siblings_not_prefix (r : path) (a b : string) :
  a <> b -> ~ (r ++ [a]) `prefix_of` (r ++ [b]).
Proof.
  intros Hab H. apply prefix_app_inv in H. apply prefix_cons_inv_1 in H. congruence.
Qed.

(** Reading below [results] is not disturbed by changes below [data]. *)
Lemma lookup_results_put n (p q : path) x :
  fs_lookup (fs_put n (avatars_path ++ p) x) (results_path ++ q)
  = fs_lookup n (results_path ++ q).
Proof.
  unfold avatars_path, results_path. rewrite <- !app_assoc.
  apply fs_put_diverge. discriminate.
Qed.

Lemma lookup_results_remove n (p q : path) :
  fs_lookup (fs_remove n (avatars_path ++ p)) (results_path ++ q)
  = fs_lookup n (results_path ++ q).
Proof.
  unfold avatars_path, results_path. rewrite <- !app_assoc.
  apply fs_remove_diverge. discriminate.
Qed.

Lemma lookup_avatars_remove_results n (p q : path) :
  fs_lookup (fs_remove n (results_path ++ p)) (avatars_path ++ q)
  = fs_lookup n (avatars_path ++ q).
Proof.
  unfold avatars_path, results_path. rewrite <- !app_assoc.
  apply fs_remove_diverge. discriminate.
Qed.

Lemma is_dir_avatars_remove_results n (p : path) :
  is_dir (fs_lookup (fs_remove n (results_path ++ p)) avatars_path)
  = is_dir (fs_lookup n avatars_path).
Proof.
  unfold avatars_path, results_path.
  change (LIVETALKING_PATH ++ ["data"; "avatars"]%string)
    with (LIVETALKING_PATH ++ "data"%string :: ["avatars"%string]).
  rewrite <- app_assoc. simpl app at 2.
  rewrite (fs_remove_diverge LIVETALKING_PATH "wav2lip" "data") by discriminate.
  reflexivity.
Qed.

Lemma v2_move_replaces strftime avatar_id w old new :
  let D := avatars_path ++ [avatar_id] in
  let B := avatars_path ++ [V2.backup_name strftime avatar_id (clock w)] in
  let S := results_path ++ [avatar_id] in
  let f1 := hd false (fs_faults w) in
  let f2 := hd false (tl (fs_faults w)) in
  fs_lookup (fs w) D = Some old ->
  fs_lookup (fs w) S = Some new ->
  fs_lookup (fs w) B = None ->
  exists w',
    V2.move_trained_avatar strftime avatar_id w = (Ok (negb f1 && negb f2), w') /\
    trace w' = trace w ++ EMove D B :: (if f1 then [] else [EMove S D]) /\
    if f1 then fs w' = fs w
    else fs_lookup (fs w') B = Some old /\
         if f2 then fs_lookup (fs w') D = None /\ fs_lookup (fs w') S = Some new
         else fs_lookup (fs w') D = Some new /\ fs_lookup (fs w') S = None.
Proof.
  intros D B S f1 f2 HD HS HB.
  pose proof (backup_name_fresh strftime avatar_id (clock w)) as Hfresh.
  assert (Hav : is_dir (fs_lookup (fs w) avatars_path) = true).
  { apply (fs_lookup_parent_dir _ _ avatar_id [] old). exact HD. }
  (* the first move: destination aside *)
  assert (M1 : shutil_move (path_join AVATARS_DIR avatar_id)
                 (path_join AVATARS_DIR (V2.backup_name strftime avatar_id (clock w))) w
               = let w1 := set_fs_faults (tl (fs_faults w))
                             (set_trace (trace w ++ [EMove D B]) w) in
                 if f1 then (Raise (OSError "move failed"), w1)
                 else (Ok tt, set_fs (fs_put (fs_remove (fs w) D) B old) w1)).
  { refine (shutil_move_rename (path_join AVATARS_DIR avatar_id)
              (path_join AVATARS_DIR (V2.backup_name strftime avatar_id (clock w)))
              w old _ _ _ _).
    - exact HD.
    - exact HB.
    - apply siblings_not_prefix. congruence.
    - change (is_dir (fs_lookup (fs w) (parent_dir B)) = true).
      unfold B. rewrite parent_dir_snoc. exact Hav. }
  unfold V2.move_trained_avatar.
  destruct f1 eqn:Ef1.
  - (* the first move fails *)
    eexists. split.
    + erewrite try_except_raise.
      2:{ erewrite bind_ok by reflexivity.
          change (lookup_path (path_join RESULTS_DIR avatar_id) w) with (fs_lookup (fs w) S).
          rewrite HS.
          erewrite bind_ok by reflexivity.
          change (lookup_path (path_join AVATARS_DIR avatar_id) w) with (fs_lookup (fs w) D).
          rewrite HD. simpl when.
          erewrite bind_raise; [reflexivity|].
          erewrite bind_ok by reflexivity. exact M1. }
      reflexivity.
    + simpl. split; reflexivity.
  - (* the first move succeeds *)
    set (fs1 := fs_put (fs_remove (fs w) D) B old) in *.
    set (w1 := set_fs fs1 (set_fs_faults (tl (fs_faults w))
                             (set_trace (trace w ++ [EMove D B]) w))) in *.
    assert (HS1 : fs_lookup fs1 S = Some new).
    { unfold fs1, B, D, S. rewrite lookup_results_put, lookup_results_remove. exact HS. }
    assert (HD1 : fs_lookup fs1 D = None).
    { unfold fs1, B, D. rewrite fs_put_diverge with (p := []) (q := []) by exact Hfresh.
      apply fs_remove_lookup_eq. }
    assert (HB1 : fs_lookup fs1 B = Some old).
    { unfold fs1, B. apply fs_put_lookup_eq. apply fs_remove_parent_dir. exact Hav. }
    assert (Hav1 : is_dir (fs_lookup fs1 avatars_path) = true).
    { unfold fs1, B. apply fs_put_parent_dir. apply fs_remove_parent_dir. exact Hav. }
    assert (M2 : shutil_move (path_join RESULTS_DIR avatar_id)
                   (path_join AVATARS_DIR avatar_id) w1
                 = let w2 := set_fs_faults (tl (fs_faults w1))
                               (set_trace (trace w1 ++ [EMove S D]) w1) in
                   if f2 then (Raise (OSError "move failed"), w2)
                   else (Ok tt, set_fs (fs_put (fs_remove fs1 S) D new) w2)).
    { refine (shutil_move_rename (path_join RESULTS_DIR avatar_id)
                (path_join AVATARS_DIR avatar_id) w1 new _ _ _ _).
      - exact HS1.
      - exact HD1.
      - apply (avatars_not_under_results avatar_id avatar_id []).
      - change (is_dir (fs_lookup fs1 (parent_dir D)) = true).
        unfold D. rewrite parent_dir_snoc. exact Hav1. }
    assert (Pre : forall (k : M bool),
               (src_exists <- os_path_exists (path_join RESULTS_DIR avatar_id) ;;
                if src_exists then
                  dest_exists <- os_path_exists (path_join AVATARS_DIR avatar_id) ;;
                  when dest_exists
                    (now <- gets clock ;;
                     shutil_move (path_join AVATARS_DIR avatar_id)
                       (path_join AVATARS_DIR (V2.backup_name strftime avatar_id now))) ;;;
                  k
                else ret false) w = k w1).
    { intros k. erewrite bind_ok by reflexivity.
      change (lookup_path (path_join RESULTS_DIR avatar_id) w) with (fs_lookup (fs w) S).
      rewrite HS.
      erewrite bind_ok by reflexivity.
      change (lookup_path (path_join AVATARS_DIR avatar_id) w) with (fs_lookup (fs w) D).
      rewrite HD. simpl when.
      erewrite bind_ok; [reflexivity|].
      erewrite bind_ok by reflexivity. exact M1. }
    destruct f2 eqn:Ef2.
    + eexists. split.
      * erewrite try_except_raise.
        2:{ rewrite Pre. erewrite bind_raise; [reflexivity | exact M2]. }
        reflexivity.
      * simpl. split; [rewrite <- app_assoc; reflexivity|].
        split; [exact HB1|]. split; [exact HD1 | exact HS1].
    + assert (Hav2 : is_dir (fs_lookup (fs_remove fs1 S) avatars_path) = true).
      { unfold S. rewrite is_dir_avatars_remove_results. exact Hav1. }
      assert (HB2 : fs_lookup (fs_put (fs_remove fs1 S) D new) B = Some old).
      { unfold D, B. rewrite fs_put_diverge with (p := []) (q := []) by congruence.
        unfold S. rewrite lookup_avatars_remove_results. exact HB1. }
      assert (HD2 : fs_lookup (fs_put (fs_remove fs1 S) D new) D = Some new).
      { unfold D. apply fs_put_lookup_eq. exact Hav2. }
      assert (HS2 : fs_lookup (fs_put (fs_remove fs1 S) D new) S = None).
      { unfold D, S. rewrite lookup_results_put. apply fs_remove_lookup_eq. }
      eexists. split.
      * erewrite try_except_ok; [reflexivity|].
        rewrite Pre. erewrite bind_ok; [reflexivity | exact M2].
      * split; [simpl; rewrite <- app_assoc; reflexivity|].
        split; [exact HB2|]. split; [exact HD2 | exact HS2].
Qed.

(** ** [run_training] of [backend_simple.py] *)

Lemma try_except_bind_ok {A B} (m : M A) (k : A -> M B) h w a w1 :
  m w = (Ok a, w1) -> try_except (bind m k) h w = try_except (k a) h w1.
Proof. intros H. unfold try_except, bind. rewrite H. reflexivity. Qed.

Lemma try_except_bind_raise {A B} (m : M A) (k : A -> M B) h w e w1 :
  m w = (Raise e, w1) ->
  try_except (bind m k) h w = match h e with Some hk => hk w1 | None => (Raise e, w1) end.
Proof. intros H. unfold try_except, bind. rewrite H. reflexivity. Qed.

Lemma simple_run_training_failed avatar_id video audio text w e w1 :
  subprocess_run (Simple.training_cmd avatar_id video) Simple.WAV2LIP_DIR 1800 w
    = (Raise e, w1) ->
  Simple.run_training avatar_id video audio text w = (Ok tt, with_status avatar_id "error" w1).
Proof.
  intros H. unfold Simple.run_training.
  rewrite (try_except_bind_raise _ _ _ _ _ _ H). reflexivity.
Qed.

Lemma simple_run_training_nonzero avatar_id video audio text w rc w1 :
  subprocess_run (Simple.training_cmd avatar_id video) Simple.WAV2LIP_DIR 1800 w
    = (Ok rc, w1) ->
  rc <> 0 ->
  Simple.run_training avatar_id video audio text w = (Ok tt, with_status avatar_id "error" w1).
Proof.
  intros H Hrc. unfold Simple.run_training.
  rewrite (try_except_bind_ok _ _ _ _ _ _ H).
  destruct (rc =? 0) eqn:E; [apply Z.eqb_eq in E; congruence|]. reflexivity.
Qed.

Lemma simple_run_training_missing avatar_id video audio text w w1 :
  subprocess_run (Simple.training_cmd avatar_id video) Simple.WAV2LIP_DIR 1800 w
    = (Ok 0, w1) ->
  lookup_path (path_join RESULTS_DIR avatar_id) w1 = None ->
  Simple.run_training avatar_id video audio text w = (Ok tt, with_status avatar_id "error" w1).
Proof.
  intros H Hs. unfold Simple.run_training.
  rewrite (try_except_bind_ok _ _ _ _ _ _ H). simpl Z.eqb. cbv iota.
  erewrite try_except_ok; [reflexivity|].
  erewrite bind_ok by reflexivity. rewrite Hs. reflexivity.
Qed.

Lemma simple_run_training_relocate_raises avatar_id video audio text w w1 n e w2 :
  subprocess_run (Simple.training_cmd avatar_id video) Simple.WAV2LIP_DIR 1800 w
    = (Ok 0, w1) ->
  lookup_path (path_join RESULTS_DIR avatar_id) w1 = Some n ->
  simple_relocate avatar_id w1 = (Raise e, w2) ->
  Simple.run_training avatar_id video audio text w = (Ok tt, with_status avatar_id "error" w2).
Proof.
  intros H Hs Hr. unfold Simple.run_training.
  rewrite (try_except_bind_ok _ _ _ _ _ _ H). simpl Z.eqb. cbv iota.
  erewrite try_except_raise.
  2:{ erewrite bind_ok by reflexivity. rewrite Hs.
      unfold simple_relocate in Hr. unfold bind in Hr |- *.
      destruct (os_path_exists (path_join AVATARS_DIR avatar_id) w1) as [[ex|e0] w3];
        [|exact Hr].
      destruct (when ex (shutil_rmtree (path_join AVATARS_DIR avatar_id)) w3)
        as [[[]|e1] w4]; [|exact Hr].
      rewrite Hr. reflexivity. }
  reflexivity.
Qed.

Lemma shutil_rmtree_ok p w entries :
  fs_lookup (fs w) (resolve p w) = Some (Dir entries) ->
  hd false (fs_faults w) = false ->
  shutil_rmtree p w =
    (Ok tt, set_fs (fs_remove (fs w) (resolve p w))
              (set_fs_faults (tl (fs_faults w))
                 (set_trace (trace w ++ [ERmtree (resolve p w)]) w))).
Proof.
  intros Hd Hf. unfold shutil_rmtree, take_fault. simpl. rewrite Hd, Hf. reflexivity.
Qed.

Lemma simple_relocate_interrupted avatar_id w entries new :
  let D := avatars_path ++ [avatar_id] in
  let S := results_path ++ [avatar_id] in
  fs_lookup (fs w) D = Some (Dir entries) ->
  fs_lookup (fs w) S = Some new ->
  hd false (fs_faults w) = false ->
  hd false (tl (fs_faults w)) = true ->
  exists e w2,
    simple_relocate avatar_id w = (Raise e, w2) /\
    fs w2 = fs_remove (fs w) D /\
    trace w2 = trace w ++ [ERmtree D; EMove S D] /\
    training_status w2 = training_status w.
Proof.
  intros D S HD HS Hf1 Hf2.
  assert (Hav : is_dir (fs_lookup (fs w) avatars_path) = true).
  { apply (fs_lookup_parent_dir _ _ avatar_id [] (Dir entries)). exact HD. }
  pose proof (shutil_rmtree_ok (path_join AVATARS_DIR avatar_id) w entries HD Hf1) as R.
  set (w1 := set_fs (fs_remove (fs w) D)
               (set_fs_faults (tl (fs_faults w)) (set_trace (trace w ++ [ERmtree D]) w))).
  assert (M : shutil_move (path_join RESULTS_DIR avatar_id)
                (path_join AVATARS_DIR avatar_id) w1
              = let w2 := set_fs_faults (tl (fs_faults w1))
                            (set_trace (trace w1 ++ [EMove S D]) w1) in
                if hd false (fs_faults w1) then (Raise (OSError "move failed"), w2)
                else (Ok tt, set_fs (fs_put (fs_remove (fs w1) S) D new) w2)).
  { refine (shutil_move_rename (path_join RESULTS_DIR avatar_id)
              (path_join AVATARS_DIR avatar_id) w1 new _ _ _ _).
    - change (fs_lookup (fs_remove (fs w) D) S = Some new).
      unfold D, S. rewrite lookup_results_remove. exact HS.
    - change (fs_lookup (fs_remove (fs w) D) D = None). apply fs_remove_lookup_eq.
    - apply (avatars_not_under_results avatar_id avatar_id []).
    - change (is_dir (fs_lookup (fs_remove (fs w) D) (parent_dir D)) = true).
      unfold D. rewrite parent_dir_snoc. apply fs_remove_parent_dir. exact Hav. }
  change (hd false (fs_faults w1)) with (hd false (tl (fs_faults w))) in M.
  rewrite Hf2 in M.
  eexists _, _. split.
  - unfold simple_relocate. erewrite bind_ok by reflexivity.
    change (lookup_path (path_join AVATARS_DIR avatar_id) w) with (fs_lookup (fs w) D).
    rewrite HD. simpl when. erewrite bind_ok by exact R. exact M.
  - split; [reflexivity|]. split; [simpl; rewrite <- app_assoc; reflexivity | reflexivity].
Qed.

(** C2, as amended.  When a prior artifact [old] is published at the
    destination and a new one is staged: [move_trained_avatar] of
    [livetalking_backend_v2.py] never removes a directory; it renames the
    prior artifact to a sibling [<name>_backup_<time>] (free before) and then
    moves the staged one into place, and where-ever the sequence is
    interrupted the prior artifact is intact, at the destination (first move
    failed) or at the backup path (later; it is not moved back).
    [run_training] of [backend_simple.py] removes the prior artifact with
    [rmtree] before the move, so a move that fails after it leaves the tree
    without the prior artifact and the job in the state [error]. *)
Theorem publish_keeps_or_deletes_prior strftime avatar_id w old new :
  let D := avatars_path ++ [avatar_id] in
  let B := avatars_path ++ [V2.backup_name strftime avatar_id (clock w)] in
  let S := results_path ++ [avatar_id] in
  let f1 := hd false (fs_faults w) in
  let f2 := hd false (tl (fs_faults w)) in
  fs_lookup (fs w) D = Some old ->
  fs_lookup (fs w) S = Some new ->
  (* livetalking_backend_v2.py *)
  displaces_without_deleting (V2.move_trained_avatar strftime avatar_id) /\
  (fs_lookup (fs w) B = None ->
   exists w',
     V2.move_trained_avatar strftime avatar_id w = (Ok (negb f1 && negb f2), w') /\
     trace w' = trace w ++ EMove D B :: (if f1 then [] else [EMove S D]) /\
     (fs_lookup (fs w') D = Some old \/ fs_lookup (fs w') B = Some old) /\
     if f1 then fs w' = fs w
     else fs_lookup (fs w') B = Some old /\
          if f2 then fs_lookup (fs w') D = None /\ fs_lookup (fs w') S = Some new
          else fs_lookup (fs w') D = Some new /\ fs_lookup (fs w') S = None) /\
  (* backend_simple.py *)
  (forall w0 video audio text entries,
     subprocess_run (Simple.training_cmd avatar_id video) Simple.WAV2LIP_DIR 1800 w0
       = (Ok 0, w) ->
     old = Dir entries -> f1 = false -> f2 = true ->
     exists w',
       Simple.run_training avatar_id video audio text w0 = (Ok tt, w') /\
       trace w' = trace w ++ [ERmtree D; EMove S D] /\
       fs w' = fs_remove (fs w) D /\ fs_lookup (fs w') D = None /\
       training_status w' !! avatar_id = Some "error"%string).
Proof.
  intros D B S f1 f2 HD HS. split; [|split].
  - apply v2_move_trained_avatar_emits. intros; exact I.
  - intros HB.
    destruct (v2_move_replaces strftime avatar_id w old new HD HS HB) as (w' & Hm & Htr & Hfs).
    exists w'. split; [exact Hm|]. split; [exact Htr|]. split; [|exact Hfs].
    fold f1 f2 in Hfs. destruct f1.
    + left. rewrite Hfs. exact HD.
    + right. apply Hfs.
  - intros w0 video audio text entries Hrun -> Hf1 Hf2.
    destruct (simple_relocate_interrupted avatar_id w entries new HD HS Hf1 Hf2)
      as (e & w2 & Hr & Hfs & Htr & Hts).
    exists (with_status avatar_id "error" w2). split.
    + apply (simple_run_training_relocate_raises _ _ _ _ _ _ new e w2 Hrun); [exact HS | exact Hr].
    + split; [exact Htr|]. split; [exact Hfs|].
      split; [change (fs_lookup (fs w2) D = None); rewrite Hfs; apply fs_remove_lookup_eq|].
      apply lookup_insert_eq.
Qed.

Lemma publish_keeps_or_deletes_prior_witness :
  fs_lookup (fs world_publish) (avatars_path ++ ["wav2lip256_a"]%string) = Some artifact_v1 /\
  fs_lookup (fs world_publish) (results_path ++ ["wav2lip256_a"]%string) = Some artifact_v2 /\
  displaces_without_deleting
    (V2.move_trained_avatar (fun _ => "20250101_000000"%string) "wav2lip256_a").
Proof.
  assert (H1 : fs_lookup (fs world_publish) (avatars_path ++ ["wav2lip256_a"]%string)
               = Some artifact_v1) by (vm_compute; reflexivity).
  assert (H2 : fs_lookup (fs world_publish) (results_path ++ ["wav2lip256_a"]%string)
               = Some artifact_v2) by (vm_compute; reflexivity).
  split; [exact H1|]. split; [exact H2|].
  exact (proj1 (publish_keeps_or_deletes_prior (fun _ => "20250101_000000"%string)
                  "wav2lip256_a" world_publish artifact_v1 artifact_v2 H1 H2)).
Defined.

Example simple_publish_demo :
  match Simple.run_training "wav2lip256_a" "uploads\a.mp4" (Rel ["uploads"; "a.wav"])
          "hello" world_publish with
  | (Ok _, w') =>
      trace w' =
        [EPopen (genavatar_cmd "wav2lip256_a" "uploads\a.mp4")
           (LIVETALKING_PATH ++ ["wav2lip"]) 1;
         EWait 1 1800;
         ERmtree (avatars_path ++ ["wav2lip256_a"]);
         EMove (results_path ++ ["wav2lip256_a"]) (avatars_path ++ ["wav2lip256_a"])] /\
      fs_lookup (fs w') (avatars_path ++ ["wav2lip256_a"]) = None /\
      fs_lookup (fs w') (results_path ++ ["wav2lip256_a"]) = Some artifact_v2 /\
      training_status w' !! "wav2lip256_a" = Some "error"%string
  | _ => False
  end.
Proof. vm_compute. repeat split; reflexivity. Qed.

(** C2 as stated does not hold: [run_training] of [backend_simple.py] removes
    the published artifact with [rmtree]; when the move that follows fails,
    the destination is empty and the job ends in the state [error]. *)
Lemma publish_simple_deletes_prior :
  ~ displaces_without_deleting
      (Simple.run_training "wav2lip256_a" "uploads\a.mp4" (Rel ["uploads"; "a.wav"]%string)
         "hello") /\
  fs_lookup (fs world_publish) (avatars_path ++ ["wav2lip256_a"]%string) = Some artifact_v1 /\
  fs_lookup
    (fs (snd (Simple.run_training "wav2lip256_a" "uploads\a.mp4"
                (Rel ["uploads"; "a.wav"]%string) "hello" world_publish)))
    (avatars_path ++ ["wav2lip256_a"]%string) = None.
Proof.
  split; [|split; vm_compute; reflexivity].
  intros H. destruct (H world_publish) as (evs & Htr & HF).
  pose proof simple_publish_demo as Hd.
  destruct (Simple.run_training _ _ _ _ world_publish) as [[u|e] w']; [|contradiction].
  destruct Hd as (Hd & _). simpl in Htr. rewrite Hd in Htr.
  change (trace world_publish) with (@nil event) in Htr. simpl in Htr. subst evs.
  apply Forall_cons in HF as [_ HF]. apply Forall_cons in HF as [_ HF].
  apply Forall_cons in HF as [HF _]. exact HF.
Qed.

(** ** A training run that exits with the code 0 (claim C6) *)

Lemma bind_assoc {A B C} (m : M A) (f : A -> M B) (g : B -> M C) w :
  bind (bind m f) g w = bind m (fun a => bind (f a) g) w.
Proof. unfold bind. destruct (m w) as [[a|e] w1]; reflexivity. Qed.

Lemma try_finally_eq {A} (m : M A) c w r w1 :
  m w = (r, w1) ->
  try_finally m c w =
    match c w1 with
    | (Ok _, w2) => (r, w2)
    | (Raise e, w2) => (Raise e, w2)
    end.
Proof. intros H. unfold try_finally. rewrite H. reflexivity. Qed.

(** The [finally] clause of [run_training] leaves the sessions alone. *)
Lemma v2_cleanup_sessions avatar_id w :
  sessions (snd (V2.run_training_cleanup avatar_id w)) = sessions w.
Proof.
  unfold V2.run_training_cleanup, bind, gets, when, del_training_processes, os_chdir.
  destruct (bool_decide _); simpl.
  - destruct (training_processes w !! avatar_id); simpl;
      [destruct (is_dir _); reflexivity | reflexivity].
  - destruct (is_dir _); reflexivity.
Qed.

Lemma session_set_field sid key v w d :
  sessions w !! sid = Some d ->
  session_set sid key v w = (Ok tt, set_sessions (<[sid := <[key := v]> d]> (sessions w)) w).
Proof. intros H. unfold session_set. rewrite H. reflexivity. Qed.

Lemma shutil_move_frame src dst w :
  sessions (snd (shutil_move src dst w)) = sessions w.
Proof.
  unfold shutil_move, take_fault. simpl.
  repeat match goal with
         | |- context [match fs_lookup ?a ?b with _ => _ end] => destruct (fs_lookup a b)
         | |- context [if ?x then _ else _] => destruct x
         end; reflexivity.
Qed.

Lemma v2_move_sessions strftime avatar_id w :
  sessions (snd (V2.move_trained_avatar strftime avatar_id w)) = sessions w.
Proof.
  unfold V2.move_trained_avatar, try_except, bind, os_path_exists, gets, when, ret,
    except_Exception.
  destruct (lookup_path (path_join RESULTS_DIR avatar_id) w); [|reflexivity].
  destruct (lookup_path (path_join AVATARS_DIR avatar_id) w).
  - pose proof (shutil_move_frame (path_join AVATARS_DIR avatar_id)
                  (path_join AVATARS_DIR (V2.backup_name strftime avatar_id (clock w))) w) as H1.
    destruct (shutil_move (path_join AVATARS_DIR avatar_id) _ w) as [[[]|e] w1];
      simpl in H1; [|exact H1].
    pose proof (shutil_move_frame (path_join RESULTS_DIR avatar_id)
                  (path_join AVATARS_DIR avatar_id) w1) as H2.
    destruct (shutil_move (path_join RESULTS_DIR avatar_id) _ w1) as [[[]|e] w2];
      simpl in H2 |- *; congruence.
  - pose proof (shutil_move_frame (path_join RESULTS_DIR avatar_id)
                  (path_join AVATARS_DIR avatar_id) w) as H2.
    destruct (shutil_move (path_join RESULTS_DIR avatar_id) _ w) as [[[]|e] w2];
      simpl in H2 |- *; congruence.
Qed.

Lemma v2_move_total strftime avatar_id w :
  exists b w', V2.move_trained_avatar strftime avatar_id w = (Ok b, w').
Proof.
  unfold V2.move_trained_avatar, try_except, except_Exception.
  match goal with |- context [match ?m w with _ => _ end] => destruct (m w) as [[b|e] w1] end;
    eauto.
Qed.

Lemma v2_move_missing strftime avatar_id w :
  lookup_path (path_join RESULTS_DIR avatar_id) w = None ->
  V2.move_trained_avatar strftime avatar_id w = (Ok false, w).
Proof.
  intros H. unfold V2.move_trained_avatar.
  erewrite try_except_ok; [reflexivity|].
  erewrite bind_ok by reflexivity. rewrite H. reflexivity.
Qed.

Lemma v2_run_training_not_moved strftime avatar_id video audio text w w1 w2 :
  v2_await strftime avatar_id video w = (Ok 0, w1) ->
  is_Some (sessions w1 !! avatar_id) ->
  V2.move_trained_avatar strftime avatar_id w1 = (Ok false, w2) ->
  exists r w',
    V2.run_training strftime avatar_id video audio text w = (r, w') /\
    session_field avatar_id "status" w' = Some (VStr "error") /\
    session_field avatar_id "error" w' = Some (VStr "无法移动训练结果").
Proof.
  intros Hw [d Hd] Hm.
  assert (Hd2 : sessions w2 !! avatar_id = Some d).
  { pose proof (v2_move_sessions strftime avatar_id w1) as H. rewrite Hm in H.
    simpl in H. rewrite H. exact Hd. }
  set (w3 := set_sessions (<[avatar_id := <["status" := VStr "error"]> d]> (sessions w2)) w2).
  set (w4 := set_sessions
               (<[avatar_id := <["error" := VStr "无法移动训练结果"]>
                                 (<["status" := VStr "error"]> d)]> (sessions w3)) w3).
  unfold V2.run_training.
  match goal with
  | |- exists r w', try_finally (try_except ?body ?h) ?c w = _ /\ _ =>
      assert (Hb : try_except body h w = (Ok tt, w4))
  end.
  { apply try_except_ok.
    unfold v2_await in Hw.
    do 6 (apply bind_ok_inv in Hw as (? & ? & ? & Hw)).
    repeat (erewrite bind_ok by eassumption).
    rewrite Z.eqb_refl.
    erewrite bind_ok by exact Hm. cbv iota.
    erewrite bind_ok by (apply session_set_field; exact Hd2).
    apply session_set_field. simpl. apply lookup_insert_eq. }
  rewrite (try_finally_eq _ _ _ _ _ Hb).
  pose proof (v2_cleanup_sessions avatar_id w4) as Hc.
  destruct (V2.run_training_cleanup avatar_id w4) as [[[]|e] w5]; simpl in Hc;
    eexists _, _; (split; [reflexivity|]);
    unfold session_field; rewrite Hc; simpl; rewrite lookup_insert_eq;
    (split; [rewrite lookup_insert_ne by discriminate|]); apply lookup_insert_eq.
Qed.

(** *** Waiting for the trainer *)

Lemma bind_inv {A B} (m : M A) (k : A -> M B) w r w' :
  bind m k w = (r, w') ->
  (exists e, m w = (Raise e, w') /\ r = Raise e) \/
  (exists a w1, m w = (Ok a, w1) /\ k a w1 = (r, w')).
Proof.
  unfold bind. destruct (m w) as [[a|e] w1].
  - right. eauto.
  - intros [= <- <-]. left. eauto.
Qed.

Lemma no_timeout_session_set sid key v : no_timeout (session_set sid key v).
Proof. intros w w'. unfold session_set. destruct (sessions w !! sid); discriminate. Qed.

Lemma no_timeout_os_chdir p : no_timeout (os_chdir p).
Proof. intros w w'. unfold os_chdir. destruct (is_dir _); discriminate. Qed.

Lemma no_timeout_open_w p : no_timeout (open_w p).
Proof.
  intros w w'. unfold open_w, take_fault. simpl.
  destruct (negb _); [discriminate|]. destruct (is_dir _); [discriminate|].
  destruct (hd false (fs_faults w)); discriminate.
Qed.

Lemma no_timeout_Popen cmd dir : no_timeout (Popen cmd dir).
Proof.
  intros w w'. unfold Popen. destruct (negb _); [discriminate|].
  destruct (programs w) as [|[pr|] rest]; try discriminate.
  destruct (spawn_program _ _ _ _). discriminate.
Qed.

Lemma popen_wait_inv pid timeout w r w1 :
  popen_wait pid timeout w = (r, w1) ->
  r = match poll pid w1 with Some rc => Ok rc | None => Raise SubprocessTimeoutExpired end /\
  procs w1 = procs w /\ sessions w1 = sessions w /\
  training_processes w1 = training_processes w /\
  training_status w1 = training_status w /\
  trace w1 = trace w ++ [EWait pid timeout] /\
  (clock w <= clock w1 <= clock w + timeout)%nat.
Proof.
  unfold popen_wait, bind, log, modify. simpl.
  set (w0 := set_trace (trace w ++ [EWait pid timeout]) w).
  set (w2 := set_clock (wait_clock (gone_time pid w0) timeout w0) w0).
  assert (Hb : (clock w <= clock w2 <= clock w + timeout)%nat).
  { apply (wait_clock_bounds _ timeout w0). intros t0. apply gone_time_ge. }
  destruct (poll pid w2) eqn:Hp; intros [= <- <-]; rewrite Hp; repeat split; apply Hb.
Qed.

(** When the wait is over, the trainer is registered under the name of the
    job; it is still alive exactly when the wait ran out. *)
Lemma v1_await_inv session_id avatar_id video w r w1 :
  v1_await session_id avatar_id video w = (r, w1) ->
  (exists rc, r = Ok rc) \/ r = Raise SubprocessTimeoutExpired ->
  exists pid,
    training_processes w1 !! session_id = Some pid /\
    sessions w1 = sessions w /\
    r = match poll pid w1 with Some rc => Ok rc | None => Raise SubprocessTimeoutExpired end.
Proof.
  intros H Hr. unfold v1_await in H.
  assert (Hne : forall e, r = Raise e -> e = SubprocessTimeoutExpired).
  { intros e ->. destruct Hr as [[rc Hrc]|Hrc]; congruence. }
  apply bind_inv in H as [(e & H & ->)|(u1 & w2 & E1 & H)].
  { rewrite (Hne e eq_refl) in H. exfalso. eapply no_timeout_os_chdir; eauto. }
  apply os_chdir_ok_inv in E1 as (_ & Hw2).
  apply bind_inv in H as [(e & H & ->)|(u2 & w3 & E2 & H)].
  { rewrite (Hne e eq_refl) in H. exfalso. eapply no_timeout_open_w; eauto. }
  apply open_w_ok_inv in E2 as Hw3.
  apply bind_inv in H as [(e & H & ->)|(pid & w4 & E3 & H)].
  { rewrite (Hne e eq_refl) in H. exfalso. eapply no_timeout_Popen; eauto. }
  apply Popen_ok_inv in E3 as (pr & rest & tbl & _ & _ & Hw4).
  apply bind_inv in H as [(e & H & ->)|(u3 & w5 & E4 & H)]; [discriminate|].
  apply modify_ok_inv in E4 as Hw5.
  apply popen_wait_inv in H as (Hres & _ & Hs & Htp & _).
  exists pid. split; [|split; [|exact Hres]].
  - rewrite Htp, Hw5. simpl. apply lookup_insert_eq.
  - rewrite Hs, Hw5, Hw4, Hw3, Hw2. reflexivity.
Qed.

Lemma v2_await_inv strftime avatar_id video w r w1 :
  v2_await strftime avatar_id video w = (r, w1) ->
  (exists rc, r = Ok rc) \/ r = Raise SubprocessTimeoutExpired ->
  exists pid d,
    training_processes w1 !! avatar_id = Some pid /\
    sessions w1 !! avatar_id = Some d /\ d !! "status" = Some (VStr "training") /\
    r = match poll pid w1 with Some rc => Ok rc | None => Raise SubprocessTimeoutExpired end.
Proof.
  intros H Hr. unfold v2_await in H.
  assert (Hne : forall e, r = Raise e -> e = SubprocessTimeoutExpired).
  { intros e ->. destruct Hr as [[rc Hrc]|Hrc]; congruence. }
  apply bind_inv in H as [(e & H & ->)|(u0 & w0 & E0 & H)].
  { rewrite (Hne e eq_refl) in H. exfalso. eapply no_timeout_session_set; eauto. }
  apply session_set_ok_inv in E0 as (d0 & Hd0 & Hw0).
  apply bind_inv in H as [(e & H & ->)|(u1 & w2 & E1 & H)].
  { rewrite (Hne e eq_refl) in H. exfalso. eapply no_timeout_os_chdir; eauto. }
  apply os_chdir_ok_inv in E1 as (_ & Hw2).
  apply bind_inv in H as [(e & H & ->)|(now & w2' & E1' & H)]; [discriminate|].
  unfold gets in E1'. injection E1' as <- <-.
  apply bind_inv in H as [(e & H & ->)|(u2 & w3 & E2 & H)].
  { rewrite (Hne e eq_refl) in H. exfalso. eapply no_timeout_open_w; eauto. }
  apply open_w_ok_inv in E2 as Hw3.
  apply bind_inv in H as [(e & H & ->)|(pid & w4 & E3 & H)].
  { rewrite (Hne e eq_refl) in H. exfalso. eapply no_timeout_Popen; eauto. }
  apply Popen_ok_inv in E3 as (pr & rest & tbl & _ & _ & Hw4).
  apply bind_inv in H as [(e & H & ->)|(u3 & w5 & E4 & H)]; [discriminate|].
  apply modify_ok_inv in E4 as Hw5.
  apply popen_wait_inv in H as (Hres & _ & Hs & Htp & _).
  exists pid, (<["status" := VStr "training"]> d0). split; [|split; [|split; [|exact Hres]]].
  - rewrite Htp, Hw5. simpl. apply lookup_insert_eq.
  - rewrite Hs, Hw5, Hw4, Hw3, Hw2, Hw0. simpl. apply lookup_insert_eq.
  - apply lookup_insert_eq.
Qed.

(** A move that raises makes [move_trained_avatar] answer [False]. *)
Lemma v2_move_raises_first strftime avatar_id w n e w2 :
  lookup_path (path_join RESULTS_DIR avatar_id) w = Some n ->
  lookup_path (path_join AVATARS_DIR avatar_id) w = None ->
  shutil_move (path_join RESULTS_DIR avatar_id) (path_join AVATARS_DIR avatar_id) w
    = (Raise e, w2) ->
  V2.move_trained_avatar strftime avatar_id w = (Ok false, w2).
Proof.
  intros Hs Hd Hm. unfold V2.move_trained_avatar.
  erewrite try_except_raise; [reflexivity|].
  erewrite bind_ok by reflexivity. rewrite Hs.
  erewrite bind_ok by reflexivity. rewrite Hd.
  erewrite bind_ok by reflexivity.
  erewrite bind_raise by exact Hm. reflexivity.
Qed.

Lemma v2_move_raises_backup strftime avatar_id w n o e w2 :
  lookup_path (path_join RESULTS_DIR avatar_id) w = Some n ->
  lookup_path (path_join AVATARS_DIR avatar_id) w = Some o ->
  shutil_move (path_join AVATARS_DIR avatar_id)
    (path_join AVATARS_DIR (V2.backup_name strftime avatar_id (clock w))) w = (Raise e, w2) ->
  V2.move_trained_avatar strftime avatar_id w = (Ok false, w2).
Proof.
  intros Hs Hd Hm. unfold V2.move_trained_avatar.
  erewrite try_except_raise; [reflexivity|].
  erewrite bind_ok by reflexivity. rewrite Hs.
  erewrite bind_ok by reflexivity. rewrite Hd.
  erewrite bind_raise; [reflexivity|].
  unfold when. erewrite bind_ok by reflexivity. exact Hm.
Qed.

Lemma v2_move_raises_second strftime avatar_id w n o e w2 w3 :
  lookup_path (path_join RESULTS_DIR avatar_id) w = Some n ->
  lookup_path (path_join AVATARS_DIR avatar_id) w = Some o ->
  shutil_move (path_join AVATARS_DIR avatar_id)
    (path_join AVATARS_DIR (V2.backup_name strftime avatar_id (clock w))) w = (Ok tt, w2) ->
  shutil_move (path_join RESULTS_DIR avatar_id) (path_join AVATARS_DIR avatar_id) w2
    = (Raise e, w3) ->
  V2.move_trained_avatar strftime avatar_id w = (Ok false, w3).
Proof.
  intros Hs Hd Hb Hm. unfold V2.move_trained_avatar.
  erewrite try_except_raise; [reflexivity|].
  erewrite bind_ok by reflexivity. rewrite Hs.
  erewrite bind_ok by reflexivity. rewrite Hd.
  erewrite bind_ok.
  2:{ unfold when. erewrite bind_ok by reflexivity. exact Hb. }
  erewrite bind_raise by exact Hm. reflexivity.
Qed.

(** C6: when the trainer has exited with the code 0 and either nothing is
    staged or the relocation fails, the job ends in the state [error]:
    [training_status] says so in [backend_simple.py], and the session gets
    the status [error] with an error text in [livetalking_backend_v2.py].
    There [move_trained_avatar] answers [False] when nothing is staged, when
    the move of the staged directory raises, and when a published directory
    is in the way and either the move that puts it aside or the move that
    follows raises; and whenever it answers [False] the job ends in
    [error]. *)
Theorem training_exit0_unpublished_is_error strftime avatar_id video audio text w w1 :
  (subprocess_run (Simple.training_cmd avatar_id video) Simple.WAV2LIP_DIR 1800 w
     = (Ok 0, w1) ->
   (lookup_path (path_join RESULTS_DIR avatar_id) w1 = None ->
    exists w', Simple.run_training avatar_id video audio text w = (Ok tt, w') /\
               training_status w' !! avatar_id = Some "error"%string) /\
   (forall n e w2,
      lookup_path (path_join RESULTS_DIR avatar_id) w1 = Some n ->
      simple_relocate avatar_id w1 = (Raise e, w2) ->
      exists w', Simple.run_training avatar_id video audio text w = (Ok tt, w') /\
                 training_status w' !! avatar_id = Some "error"%string)) /\
  (v2_await strftime avatar_id video w = (Ok 0, w1) ->
   let source := path_join RESULTS_DIR avatar_id in
   let dest := path_join AVATARS_DIR avatar_id in
   let backup := path_join AVATARS_DIR (V2.backup_name strftime avatar_id (clock w1)) in
   let ends_in_error :=
     exists r w',
       V2.run_training strftime avatar_id video audio text w = (r, w') /\
       session_field avatar_id "status" w' = Some (VStr "error") /\
       session_field avatar_id "error" w' = Some (VStr "无法移动训练结果") in
   (* nothing is staged *)
   (lookup_path source w1 = None ->
    V2.move_trained_avatar strftime avatar_id w1 = (Ok false, w1) /\ ends_in_error) /\
   (* nothing is published yet and the move raises *)
   (forall n e w2,
      lookup_path source w1 = Some n ->
      lookup_path dest w1 = None ->
      shutil_move source dest w1 = (Raise e, w2) ->
      V2.move_trained_avatar strftime avatar_id w1 = (Ok false, w2) /\ ends_in_error) /\
   (* the move that puts the published directory aside raises *)
   (forall n o e w2,
      lookup_path source w1 = Some n ->
      lookup_path dest w1 = Some o ->
      shutil_move dest backup w1 = (Raise e, w2) ->
      V2.move_trained_avatar strftime avatar_id w1 = (Ok false, w2) /\ ends_in_error) /\
   (* the published directory is put aside and the move raises *)
   (forall n o e w2 w3,
      lookup_path source w1 = Some n ->
      lookup_path dest w1 = Some o ->
      shutil_move dest backup w1 = (Ok tt, w2) ->
      shutil_move source dest w2 = (Raise e, w3) ->
      V2.move_trained_avatar strftime avatar_id w1 = (Ok false, w3) /\ ends_in_error) /\
   (* whenever the answer is False *)
   (forall w2,
      V2.move_trained_avatar strftime avatar_id w1 = (Ok false, w2) ->
      ends_in_error)).
Proof.
  split.
  - intros Hrun. split.
    + intros Hs. eexists. split;
        [apply (simple_run_training_missing _ _ _ _ _ _ Hrun Hs) | apply lookup_insert_eq].
    + intros n e w2 Hs Hr. eexists. split;
        [apply (simple_run_training_relocate_raises _ _ _ _ _ _ n e w2 Hrun Hs Hr)
        | apply lookup_insert_eq].
  - intros Hrun source dest backup ends_in_error.
    assert (Hfalse : forall w2,
               V2.move_trained_avatar strftime avatar_id w1 = (Ok false, w2) ->
               ends_in_error).
    { intros w2 Hm.
      destruct (v2_await_inv strftime avatar_id video w (Ok 0) w1 Hrun)
        as (pid & d & _ & Hd & _); [left; eauto|].
      apply (v2_run_training_not_moved strftime avatar_id video audio text w w1 w2 Hrun);
        [eauto | exact Hm]. }
    split; [|split; [|split; [|split; [|exact Hfalse]]]].
    + intros Hs. pose proof (v2_move_missing strftime avatar_id w1 Hs) as Hm.
      split; [exact Hm | exact (Hfalse _ Hm)].
    + intros n e w2 Hs Hd Hmv.
      pose proof (v2_move_raises_first strftime avatar_id w1 n e w2 Hs Hd Hmv) as Hm.
      split; [exact Hm | exact (Hfalse _ Hm)].
    + intros n o e w2 Hs Hd Hmv.
      pose proof (v2_move_raises_backup strftime avatar_id w1 n o e w2 Hs Hd Hmv) as Hm.
      split; [exact Hm | exact (Hfalse _ Hm)].
    + intros n o e w2 w3 Hs Hd Hb Hmv.
      pose proof (v2_move_raises_second strftime avatar_id w1 n o e w2 w3 Hs Hd Hb Hmv) as Hm.
      split; [exact Hm | exact (Hfalse _ Hm)].
Qed.

Lemma training_exit0_unpublished_is_error_witness :
  let run := subprocess_run (Simple.training_cmd "wav2lip256_a" "uploads\a.mp4")
               Simple.WAV2LIP_DIR 1800 world_publish in
  let wv := set_fs_faults [false; true] world_v2_training in
  let await := v2_await (fun _ => EmptyString) "wav2lip256_a" "uploads\a.mp4" wv in
  (run = (Ok 0, snd run) /\
   exists w', Simple.run_training "wav2lip256_a" "uploads\a.mp4"
                (Rel ["uploads"; "a.wav"]%string) "hello" world_publish = (Ok tt, w') /\
              training_status w' !! "wav2lip256_a" = Some "error"%string) /\
  (await = (Ok 0, snd await) /\
   exists w2,
     V2.move_trained_avatar (fun _ => EmptyString) "wav2lip256_a" (snd await) = (Ok false, w2) /\
     exists r w',
       V2.run_training (fun _ => EmptyString) "wav2lip256_a" "uploads\a.mp4"
         (Rel ["uploads"; "a.wav"]%string) "hello" wv = (r, w') /\
       session_field "wav2lip256_a" "status" w' = Some (VStr "error") /\
       session_field "wav2lip256_a" "error" w' = Some (VStr "无法移动训练结果")).
Proof.
  intros run wv await.
  assert (H1 : run = (Ok 0, snd run)) by (vm_compute; reflexivity).
  assert (H2 : lookup_path (path_join RESULTS_DIR "wav2lip256_a") (snd run) = Some artifact_v2)
    by (vm_compute; reflexivity).
  assert (H3 : simple_relocate "wav2lip256_a" (snd run)
               = (Raise (OSError "move failed"), snd (simple_relocate "wav2lip256_a" (snd run))))
    by (vm_compute; reflexivity).
  assert (A1 : await = (Ok 0, snd await)) by (vm_compute; reflexivity).
  assert (A2 : lookup_path (path_join RESULTS_DIR "wav2lip256_a") (snd await) = Some artifact_v2)
    by (vm_compute; reflexivity).
  assert (A3 : lookup_path (path_join AVATARS_DIR "wav2lip256_a") (snd await) = None)
    by (vm_compute; reflexivity).
  assert (A4 : shutil_move (path_join RESULTS_DIR "wav2lip256_a")
                 (path_join AVATARS_DIR "wav2lip256_a") (snd await)
               = (Raise (OSError "move failed"),
                  snd (shutil_move (path_join RESULTS_DIR "wav2lip256_a")
                         (path_join AVATARS_DIR "wav2lip256_a") (snd await))))
    by (vm_compute; reflexivity).
  split.
  - split; [exact H1|].
    exact (proj2 (proj1 (training_exit0_unpublished_is_error (fun _ => EmptyString)
                           "wav2lip256_a" "uploads\a.mp4" (Rel ["uploads"; "a.wav"]%string)
                           "hello" world_publish (snd run)) H1)
                 artifact_v2 _ _ H2 H3).
  - split; [exact A1|].
    eexists.
    exact (proj1 (proj2 (proj2 (training_exit0_unpublished_is_error (fun _ => EmptyString)
                                  "wav2lip256_a" "uploads\a.mp4"
                                  (Rel ["uploads"; "a.wav"]%string)
                                  "hello" wv (snd await)) A1))
                 artifact_v2 _ _ A2 A3 A4).
Defined.

(** ** A training run that outlives its timeout (claim C5) *)

Lemma children_recursive_same pid w w' :
  procs w' = procs w -> clock w' = clock w ->
  children_recursive pid w' = children_recursive pid w.
Proof. intros Hp Hc. unfold children_recursive. rewrite Hp, Hc. reflexivity. Qed.

Lemma os_chdir_frame p w :
  let w' := snd (os_chdir p w) in
  procs w' = procs w /\ clock w' = clock w /\ sessions w' = sessions w /\
  training_processes w' = training_processes w.
Proof. unfold os_chdir. destruct (is_dir _); repeat split. Qed.

(** The clause [except subprocess.TimeoutExpired] of [run_training] in
    [livetalking_backend.py], run in the world [w1] in which the wait ran
    out. *)
Lemma v1_timeout_handler session_id pid d w1 :
  sessions w1 !! session_id = Some d ->
  training_processes w1 !! session_id = Some pid ->
  is_alive pid w1 = true ->
  exists w',
    (session_set session_id "status" (VStr "error") ;;;
     session_set session_id "error" (VStr "训练超时") ;;;
     tp <- gets training_processes ;;
     match tp !! session_id with
     | Some process => kill_process_tree process ;;; del_training_processes session_id
     | None => ret tt
     end) w1 = (Ok tt, w') /\
    session_field session_id "status" w' = Some (VStr "error") /\
    session_field session_id "error" w' = Some (VStr "训练超时") /\
    is_alive pid w' = false /\
    (forall c, In c (children_recursive pid w1) -> is_alive c w' = false) /\
    training_processes w' !! session_id = None.
Proof.
  intros Hd Htp Ha.
  set (w2 := set_sessions (<[session_id := <["status" := VStr "error"]> d]> (sessions w1)) w1).
  set (d3 := <["error" := VStr "训练超时"]> (<["status" := VStr "error"]> d)).
  set (w3 := set_sessions (<[session_id := d3]> (sessions w2)) w2).
  assert (Ha3 : is_alive pid w3 = true) by exact Ha.
  destruct (kill_process_tree_alive pid w3 Ha3)
    as (wm & w4 & tail & Hk & _ & _ & _ & _ & _ & Hd1 & Hd2 & Hds & Hdead).
  assert (Hfr : frame w3 w4).
  { destruct Hd1 as (F1 & _). destruct Hd2 as (F2 & _). eapply frame_trans; eauto. }
  destruct Hfr as (_ & _ & _ & _ & _ & Hs4 & _ & Htp4 & _).
  exists (set_training_processes (delete session_id (training_processes w4)) w4).
  split.
  - erewrite bind_ok by (apply session_set_field; exact Hd).
    erewrite bind_ok by (apply session_set_field; simpl; apply lookup_insert_eq).
    erewrite bind_ok by reflexivity.
    change (training_processes _ !! session_id) with (training_processes w1 !! session_id).
    rewrite Htp. erewrite bind_ok by exact Hk.
    unfold del_training_processes. rewrite Htp4. simpl.
    change (training_processes w1 !! session_id) with (training_processes w1 !! session_id).
    rewrite Htp. reflexivity.
  - unfold session_field. simpl. rewrite Hs4. simpl. rewrite lookup_insert_eq.
    split; [unfold d3; rewrite lookup_insert_ne by discriminate; apply lookup_insert_eq|].
    split; [apply lookup_insert_eq|].
    split; [exact Hdead|]. split; [|apply lookup_delete_eq].
    intros c Hc. apply Hds. exact Hc.
Qed.

Lemma v1_run_training_timeout session_id avatar_id video audio text w w1 :
  v1_await session_id avatar_id video w = (Raise SubprocessTimeoutExpired, w1) ->
  is_Some (sessions w !! session_id) ->
  exists pid r w',
    training_processes w1 !! session_id = Some pid /\
    is_alive pid w1 = true /\
    V1.run_training session_id avatar_id video audio text w = (r, w') /\
    session_field session_id "status" w' = Some (VStr "error") /\
    session_field session_id "error" w' = Some (VStr "训练超时") /\
    is_alive pid w' = false /\
    (forall c, In c (children_recursive pid w1) -> is_alive c w' = false) /\
    training_processes w' !! session_id = None.
Proof.
  intros Hw [d Hd].
  destruct (v1_await_inv session_id avatar_id video w _ w1 Hw) as (pid & Htp & Hs & Hres);
    [right; reflexivity|].
  assert (Ha : is_alive pid w1 = true).
  { unfold is_alive. destruct (poll pid w1); [discriminate | reflexivity]. }
  rewrite <- Hs in Hd.
  destruct (v1_timeout_handler session_id pid d w1 Hd Htp Ha)
    as (w5 & Hh & Hst & Her & Hdead & Hds & Htp5).
  exists pid. unfold V1.run_training.
  match goal with
  | |- exists r w', _ /\ _ /\ try_finally (try_except ?body ?h) ?c w = _ /\ _ =>
      assert (Hb : try_except body h w = (Ok tt, w5))
  end.
  { erewrite try_except_raise.
    2:{ unfold v1_await in Hw.
        apply bind_inv in Hw as [(e & Hw & He)|(u1 & w2 & E1 & Hw)];
          [exfalso; eapply no_timeout_os_chdir; injection He as <-; eauto|].
        apply bind_inv in Hw as [(e & Hw & He)|(u2 & w3 & E2 & Hw)];
          [exfalso; eapply no_timeout_open_w; injection He as <-; eauto|].
        apply bind_inv in Hw as [(e & Hw & He)|(p & w4 & E3 & Hw)];
          [exfalso; eapply no_timeout_Popen; injection He as <-; eauto|].
        apply bind_inv in Hw as [(e & Hw & He)|(u3 & w6 & E4 & Hw)]; [discriminate|].
        erewrite bind_ok by exact E1. erewrite bind_ok by exact E2.
        erewrite bind_ok by exact E3. erewrite bind_ok by exact E4.
        erewrite bind_raise by exact Hw. reflexivity. }
    exact Hh. }
  rewrite (try_finally_eq _ _ _ _ _ Hb).
  assert (Hc : exists r w6, V1.run_training_cleanup session_id w5 = (r, w6) /\
                 procs w6 = procs w5 /\ clock w6 = clock w5 /\ sessions w6 = sessions w5 /\
                 training_processes w6 = training_processes w5).
  { unfold V1.run_training_cleanup. erewrite bind_ok by reflexivity.
    rewrite Htp5. rewrite bool_decide_false by (intros [? ?]; discriminate).
    simpl when. erewrite bind_ok by reflexivity. erewrite bind_ok by reflexivity.
    pose proof (os_chdir_frame (Abs (script_dir w5)) w5) as Hf.
    destruct (os_chdir (Abs (script_dir w5)) w5) as [r6 w6]. eauto. }
  destruct Hc as (r6 & w6 & Hc & Hp6 & Hc6 & Hs6 & Htp6).
  rewrite Hc.
  assert (Hfin : session_field session_id "status" w6 = Some (VStr "error") /\
                 session_field session_id "error" w6 = Some (VStr "训练超时") /\
                 is_alive pid w6 = false /\
                 (forall c, In c (children_recursive pid w1) -> is_alive c w6 = false) /\
                 training_processes w6 !! session_id = None).
  { unfold session_field in *. rewrite Hs6, Htp6.
    rewrite !(is_alive_same w5 w6 _ Hp6 Hc6).
    repeat split; auto.
    intros c Hin. rewrite (is_alive_same w5 w6 _ Hp6 Hc6). auto. }
  destruct r6 as [[]|e]; eexists _, _; (split; [exact Htp|]); (split; [exact Ha|]);
    (split; [reflexivity | exact Hfin]).
Qed.

(** [subprocess.run] that ends with [TimeoutExpired]: the child was started,
    the wait ran out, and the child alone was killed. *)
Lemma subprocess_run_timeout_inv cmd dir timeout w w1 :
  subprocess_run cmd dir timeout w = (Raise SubprocessTimeoutExpired, w1) ->
  exists pid w0,
    Popen cmd dir w = (Ok pid, w0) /\
    trace w1 = trace w0 ++ [EWait pid timeout; EKill pid] /\
    is_alive pid w1 = false /\
    (forall c, c <> pid -> procs w1 !! c = procs w0 !! c) /\
    training_status w1 = training_status w0 /\
    (clock w0 <= clock w1 <= clock w0 + timeout)%nat.
Proof.
  intros H. unfold subprocess_run in H.
  apply bind_inv in H as [(e & H & He)|(pid & w0 & E0 & H)].
  { injection He as <-. exfalso. eapply no_timeout_Popen; eauto. }
  exists pid, w0. split; [exact E0|].
  unfold try_except in H.
  destruct (popen_wait pid timeout w0) as [[rc|e] w2] eqn:Ew; [discriminate|].
  apply popen_wait_inv in Ew as (Hres & Hp & _ & _ & Hts & Htr & Hc).
  destruct (poll pid w2) eqn:Hpoll; [discriminate|]. injection Hres as ->.
  unfold popen_kill, bind, log, modify, raise in H. simpl in H.
  unfold poll in Hpoll.
  destruct (procs w2 !! pid) as [p|] eqn:Hpp.
  - assert (Hal : proc_alive (clock w2) p = true).
    { unfold proc_alive. destruct (returncode (clock w2) p); [discriminate | reflexivity]. }
    rewrite Hal in H. injection H as <-. simpl.
    split; [rewrite Htr, <- app_assoc; reflexivity|].
    split.
    { unfold is_alive, poll. simpl. rewrite lookup_insert_eq.
      unfold returncode, mark_killed. simpl. reflexivity. }
    split; [intros c Hne; rewrite lookup_insert_ne by congruence; rewrite Hp; reflexivity|].
    split; [exact Hts | exact Hc].
  - discriminate.
Qed.

(** C5: when the wait for the trainer runs out, [run_training] of
    [livetalking_backend.py] marks the session [error] with the reason
    [训练超时], runs [kill_process_tree] on the registered trainer, after which
    neither the trainer nor one of its descendants is alive, and removes the
    trainer from [training_processes]; [run_training] of [backend_simple.py]
    ends with the status [error] after [subprocess.run] has killed the
    trainer itself and no other process. *)
Theorem training_timeout_outcome session_id avatar_id video audio text w w1 :
  (v1_await session_id avatar_id video w = (Raise SubprocessTimeoutExpired, w1) ->
   is_Some (sessions w !! session_id) ->
   exists pid r w',
     training_processes w1 !! session_id = Some pid /\
     is_alive pid w1 = true /\
     V1.run_training session_id avatar_id video audio text w = (r, w') /\
     session_field session_id "status" w' = Some (VStr "error") /\
     session_field session_id "error" w' = Some (VStr "训练超时") /\
     is_alive pid w' = false /\
     (forall c, In c (children_recursive pid w1) -> is_alive c w' = false) /\
     training_processes w' !! session_id = None) /\
  (subprocess_run (Simple.training_cmd avatar_id video) Simple.WAV2LIP_DIR 1800 w
     = (Raise SubprocessTimeoutExpired, w1) ->
   exists pid w0,
     Popen (Simple.training_cmd avatar_id video) Simple.WAV2LIP_DIR w = (Ok pid, w0) /\
     Simple.run_training avatar_id video audio text w
       = (Ok tt, with_status avatar_id "error" w1) /\
     training_status (with_status avatar_id "error" w1) !! avatar_id = Some "error"%string /\
     trace (with_status avatar_id "error" w1) = trace w0 ++ [EWait pid 1800; EKill pid] /\
     is_alive pid (with_status avatar_id "error" w1) = false /\
     (forall c, c <> pid -> procs (with_status avatar_id "error" w1) !! c = procs w0 !! c)).
Proof.
  split.
  - apply v1_run_training_timeout.
  - intros H.
    destruct (subprocess_run_timeout_inv _ _ _ _ _ H) as (pid & w0 & E0 & Htr & Hd & Hp & _).
    exists pid, w0. split; [exact E0|].
    split; [exact (simple_run_training_failed _ _ _ _ _ _ _ H)|].
    split; [apply lookup_insert_eq|].
    split; [exact Htr|]. split; [exact Hd | exact Hp].
Qed.

Lemma training_timeout_outcome_witness :
  let await := v1_await "s1" "a" "uploads\a.mp4" world_hung in
  await = (Raise SubprocessTimeoutExpired, snd await) /\
  exists pid r w',
    training_processes (snd await) !! "s1" = Some pid /\
    is_alive pid (snd await) = true /\
    V1.run_training "s1" "a" "uploads\a.mp4" (Rel ["uploads"; "a.wav"]%string) "hello"
      world_hung = (r, w') /\
    session_field "s1" "status" w' = Some (VStr "error") /\
    session_field "s1" "error" w' = Some (VStr "训练超时") /\
    is_alive pid w' = false /\
    (forall c, In c (children_recursive pid (snd await)) -> is_alive c w' = false) /\
    training_processes w' !! "s1" = None.
Proof.
  intros await.
  assert (H1 : await = (Raise SubprocessTimeoutExpired, snd await)) by (vm_compute; reflexivity).
  split; [exact H1|].
  refine (proj1 (training_timeout_outcome "s1" "a" "uploads\a.mp4"
                   (Rel ["uploads"; "a.wav"]%string) "hello" world_hung (snd await)) H1 _).
  exists ({[ "status" := VStr "training" ]} : pydict). vm_compute. reflexivity.
Defined.

(** The hung trainer 1 and its worker 2 under [backend_simple.py]: the
    trainer is killed, the worker is not. *)
Example simple_timeout_demo :
  match Simple.run_training "wav2lip256_a" "uploads\a.mp4" (Rel ["uploads"; "a.wav"])
          "hello" world_hung with
  | (Ok _, w') =>
      trace w' =
        [EPopen (genavatar_cmd "wav2lip256_a" "uploads\a.mp4")
           (LIVETALKING_PATH ++ ["wav2lip"]) 1;
         EWait 1 1800; EKill 1] /\
      children_recursive 1 w' = [2%nat] /\
      is_alive 1 w' = false /\ is_alive 2 w' = true /\
      training_status w' !! "wav2lip256_a" = Some "error"%string
  | _ => False
  end.
Proof. vm_compute. repeat split; reflexivity. Qed.

(** C5 as stated does not hold for [backend_simple.py]: the timeout of
    [subprocess.run] kills the trainer and leaves its worker running. *)
Lemma training_timeout_simple_spares_worker :
  ~ simple_timeout_kills_tree.
Proof.
  intros H.
  pose proof simple_timeout_demo as Hd.
  destruct (Simple.run_training "wav2lip256_a" "uploads\a.mp4" (Rel ["uploads"; "a.wav"])
              "hello" world_hung) as [[u|e] w'] eqn:Er; [|contradiction].
  destruct Hd as (_ & _ & _ & Ha & _).
  set (run := subprocess_run (Simple.training_cmd "wav2lip256_a" "uploads\a.mp4")
                Simple.WAV2LIP_DIR 1800 world_hung).
  set (start := Popen (Simple.training_cmd "wav2lip256_a" "uploads\a.mp4")
                  Simple.WAV2LIP_DIR world_hung).
  assert (H0 : start = (Ok 1%nat, snd start)) by (vm_compute; reflexivity).
  assert (H1 : run = (Raise SubprocessTimeoutExpired, snd run)) by (vm_compute; reflexivity).
  assert (Hin : In 2%nat (children_recursive 1 (snd run))) by (vm_compute; auto).
  rewrite (H _ _ _ _ _ _ _ _ _ _ H0 H1 Er 2%nat Hin) in Ha. discriminate.
Qed.

(** * Further properties of the back ends *)

(** ** Which processes a piece of code signals *)

Lemma spares_bind {A B} S (m : M A) (k : A -> M B) w :
  spares S m w ->
  (forall a w1, m w = (Ok a, w1) -> spares S (k a) w1) ->
  spares S (bind m k) w.
Proof.
  intros Hm Hk c Hc. unfold bind. specialize (Hm c Hc).
  destruct (m w) as [[a|e] w1] eqn:E; simpl in Hm |- *; [|exact Hm].
  rewrite (Hk a w1 eq_refl c Hc). exact Hm.
Qed.

Lemma spares_try_except {A} S (m : M A) h w :
  spares S m w ->
  (forall e hk w1, m w = (Raise e, w1) -> h e = Some hk -> spares S hk w1) ->
  spares S (try_except m h) w.
Proof.
  intros Hm Hh c Hc. unfold try_except. specialize (Hm c Hc).
  destruct (m w) as [[a|e] w1] eqn:E; simpl in Hm |- *; [exact Hm|].
  destruct (h e) as [hk|] eqn:Eh; simpl; [|exact Hm].
  rewrite (Hh e hk w1 eq_refl Eh c Hc). exact Hm.
Qed.

Lemma spares_same {A} S (m : M A) w :
  procs (snd (m w)) = procs w -> spares S m w.
Proof. intros H c _. rewrite H. reflexivity. Qed.

Lemma spares_terminate (S : nat -> Prop) pid w : S pid -> spares S (terminate pid) w.
Proof. intros Hs c Hc. apply terminate_others. intros ->. contradiction. Qed.

Lemma spares_kill (S : nat -> Prop) pid w : S pid -> spares S (kill pid) w.
Proof. intros Hs c Hc. apply kill_others. intros ->. contradiction. Qed.

Lemma spares_for_each {A} S (l : list A) (body : A -> M unit) w :
  (forall x w1, In x l -> spares S (body x) w1) ->
  spares S (for_each l body) w.
Proof.
  revert w. induction l as [|x l IH]; intros w Hb; simpl.
  - apply spares_same. reflexivity.
  - apply spares_bind; [apply Hb; left; reflexivity|].
    intros _ w1 _. apply IH. intros y w2 Hy. apply Hb. right. exact Hy.
Qed.

Lemma spares_caught_terminate (S : nat -> Prop) pid w :
  S pid -> spares S (try_except (terminate pid) except_NoSuchProcess_pass) w.
Proof.
  intros Hs. apply spares_try_except; [apply spares_terminate; exact Hs|].
  intros e hk w1 _ He. destruct e; try discriminate. injection He as <-.
  apply spares_same. reflexivity.
Qed.

Lemma spares_caught_kill (S : nat -> Prop) pid w :
  S pid -> spares S (try_except (kill pid) except_NoSuchProcess_pass) w.
Proof.
  intros Hs. apply spares_try_except; [apply spares_kill; exact Hs|].
  intros e hk w1 _ He. destruct e; try discriminate. injection He as <-.
  apply spares_same. reflexivity.
Qed.

Lemma spares_kill_process_tree pid w :
  spares (fun c => c = pid \/ In c (children_recursive pid w)) (kill_process_tree pid) w.
Proof.
  unfold kill_process_tree.
  apply spares_try_except.
  2:{ intros e hk w1 _ He. injection He as <-. apply spares_same. reflexivity. }
  apply spares_bind.
  { apply spares_same. unfold psutil_Process. destruct (is_alive pid w); reflexivity. }
  intros parent w1 E1. unfold psutil_Process in E1.
  destruct (is_alive pid w); [|discriminate]. injection E1 as <- <-.
  apply spares_bind; [apply spares_same; reflexivity|].
  intros children w1 E1. injection E1 as <- <-.
  apply spares_bind.
  { apply spares_for_each. intros x w1 Hx. apply spares_caught_terminate. right. exact Hx. }
  intros _ w1 _.
  apply spares_bind.
  { apply spares_same. unfold wait_procs, bind, log, modify. reflexivity. }
  intros [gone alive] w2 E2.
  assert (Hsub : forall x, In x alive -> In x (children_recursive pid w)).
  { unfold wait_procs, bind, log, modify in E2. simpl in E2. injection E2 as _ <- _.
    intros x Hx. apply filter_In in Hx. tauto. }
  apply spares_bind.
  { apply spares_for_each. intros x w3 Hx. apply spares_caught_kill. right. auto. }
  intros _ w3 _.
  apply spares_try_except.
  - apply spares_bind; [apply spares_terminate; left; reflexivity|].
    intros _ w4 _. apply spares_same. apply psutil_wait_procs.
  - intros e hk w4 _ He. unfold parent_handler in He.
    destruct e; try discriminate; injection He as <-;
      apply spares_caught_kill; left; reflexivity.
Qed.

(** X1: [kill_process_tree] never raises; afterwards the process is not
    alive; at most ten seconds pass; the module-level dictionaries and the
    file system are as before; no process other than [pid] and the
    descendants enumerated at the call is signalled; and when [pid] is
    already gone nothing at all happens. *)
Theorem kill_process_tree_contained pid w :
  exists w',
    kill_process_tree pid w = (Ok tt, w') /\
    is_alive pid w' = false /\
    frame w w' /\
    (clock w <= clock w' <= clock w + 10)%nat /\
    (forall c, c <> pid -> ~ In c (children_recursive pid w) ->
               procs w' !! c = procs w !! c) /\
    (is_alive pid w = false -> w' = w).
Proof.
  pose proof (spares_kill_process_tree pid w) as Hsp.
  destruct (is_alive pid w) eqn:Ha.
  - destruct (kill_process_tree_alive pid w Ha)
      as (w2 & w' & tail & Hk & _ & _ & _ & Hc1 & Hc2 & Hd1 & Hd2 & _ & Hdead).
    exists w'. split; [exact Hk|]. split; [exact Hdead|].
    split; [eapply frame_trans; [apply Hd1 | apply Hd2]|].
    split; [lia|]. split; [|discriminate].
    intros c Hne Hnin. specialize (Hsp c). rewrite Hk in Hsp. apply Hsp. tauto.
  - exists w. split; [apply kill_process_tree_gone; exact Ha|].
    split; [exact Ha|]. split; [apply frame_refl|]. split; [lia|]. split; reflexivity.
Qed.

(** X2: [kill_process] of [backend_simple.py] never raises; afterwards the
    process is not alive, whether or not it honours the graceful signal; at
    most five seconds pass; no other process is signalled, the dictionaries
    and the file system are as before; on a process that is already gone it
    does nothing. *)
Theorem kill_process_contained pid w :
  exists w',
    Simple.kill_process pid w = (Ok tt, w') /\
    is_alive pid w' = false /\
    frame w w' /\
    (clock w <= clock w' <= clock w + 5)%nat /\
    (forall c, c <> pid -> procs w' !! c = procs w !! c) /\
    (is_alive pid w = false -> w' = w).
Proof.
  destruct (is_alive pid w) eqn:Ha.
  - destruct (kill_process_alive pid w Ha) as (w' & tail & Hk & _ & _ & Hc & Hd & Hdead & Ho).
    exists w'. split; [exact Hk|]. split; [exact Hdead|]. split; [apply Hd|].
    split; [exact Hc|]. split; [exact Ho | discriminate].
  - exists w. split; [apply kill_process_gone; exact Ha|].
    split; [exact Ha|]. split; [apply frame_refl|]. split; [lia|]. split; reflexivity.
Qed.

(** ** The shutdown hooks *)

Lemma for_each_kills {A} (pidof : A -> nat) (body : A -> M unit) (l : list A) w :
  (forall x w1, exists w2,
      body x w1 = (Ok tt, w2) /\ decays w1 w2 /\ is_alive (pidof x) w2 = false) ->
  exists w',
    for_each l body w = (Ok tt, w') /\ decays w w' /\
    forall x, In x l -> is_alive (pidof x) w' = false.
Proof.
  intros Hb. revert w. induction l as [|x l IH]; intros w; simpl.
  - exists w. split; [reflexivity|]. split; [apply decays_refl|]. intros x [].
  - destruct (Hb x w) as (w1 & E1 & Hd1 & Hx).
    destruct (IH w1) as (w' & E' & Hd' & Hl).
    exists w'. split; [erewrite bind_ok by exact E1; exact E'|].
    split; [eapply decays_trans; eauto|].
    intros y [<-|Hy]; [eapply decays_dead; eauto | auto].
Qed.

Lemma for_each_spares {A} (pidof : A -> nat) (body : A -> M unit) (l : list A) w c :
  (forall x w1, pidof x <> c -> procs (snd (body x w1)) !! c = procs w1 !! c) ->
  (forall x, In x l -> pidof x <> c) ->
  procs (snd (for_each l body w)) !! c = procs w !! c.
Proof.
  intros Hb. revert w. induction l as [|x l IH]; intros w Hl; simpl; [reflexivity|].
  unfold bind. pose proof (Hb x w (Hl x (or_introl eq_refl))) as Hx.
  destruct (body x w) as [[u|e] w1]; simpl in Hx |- *; [|exact Hx].
  rewrite IH by (intros y Hy; apply Hl; right; exact Hy). exact Hx.
Qed.

Lemma simple_shutdown_body pid w :
  exists w',
    (rc <- gets (poll pid) ;; when (bool_decide (rc = None)) (Simple.kill_process pid)) w
      = (Ok tt, w') /\
    decays w w' /\ is_alive pid w' = false /\
    forall c, c <> pid -> procs w' !! c = procs w !! c.
Proof.
  erewrite bind_ok by reflexivity.
  destruct (is_alive pid w) eqn:Ha.
  - assert (Hp : poll pid w = None).
    { unfold is_alive in Ha. destruct (poll pid w); [discriminate | reflexivity]. }
    rewrite Hp, bool_decide_true by reflexivity. simpl when.
    destruct (kill_process_alive pid w Ha) as (w' & tail & Hk & _ & _ & _ & Hd & Hdead & Ho).
    exists w'. auto.
  - assert (Hp : poll pid w <> None).
    { unfold is_alive in Ha. destruct (poll pid w); [discriminate | discriminate]. }
    rewrite bool_decide_false by exact Hp.
    exists w. split; [reflexivity|]. split; [apply decays_refl|]. split; [exact Ha|]. reflexivity.
Qed.

(** X3: the [shutdown] hook of [backend_simple.py] never raises; afterwards
    no process of [running_processes] is alive; the dictionaries themselves
    (the stale entries included) and the file system are as before; and a
    process that is not registered is not signalled. *)
Theorem simple_shutdown_kills_registered w :
  exists w',
    Simple.shutdown w = (Ok tt, w') /\
    (forall name pid, running_processes w !! name = Some pid -> is_alive pid w' = false) /\
    frame w w' /\
    (forall c, (forall name, running_processes w !! name <> Some c) ->
               procs w' !! c = procs w !! c).
Proof.
  unfold Simple.shutdown. erewrite bind_ok by reflexivity.
  set (body := fun item : string * nat =>
                 rc <- gets (poll (snd item)) ;;
                 when (bool_decide (rc = None)) (Simple.kill_process (snd item))).
  destruct (for_each_kills snd body (map_to_list (running_processes w)) w)
    as (w' & E & Hd & Hdead).
  { intros x w1. destruct (simple_shutdown_body (snd x) w1) as (w2 & ? & ? & ? & _). eauto. }
  exists w'. split; [exact E|]. split.
  { intros name pid Hn. apply (Hdead (name, pid)).
    apply list_elem_of_In, elem_of_map_to_list. exact Hn. }
  split; [apply Hd|].
  intros c Hc.
  pose proof (for_each_spares snd body (map_to_list (running_processes w)) w c) as Hs.
  rewrite E in Hs. apply Hs.
  - intros x w1 Hne. destruct (simple_shutdown_body (snd x) w1) as (w2 & E2 & _ & _ & Ho).
    unfold body. rewrite E2. apply Ho. congruence.
  - intros [name pid] Hin. simpl. intros ->.
    apply list_elem_of_In, elem_of_map_to_list in Hin. exact (Hc name Hin).
Qed.

Lemma caught_kill_process_tree pid w :
  exists w',
    try_except (kill_process_tree pid) (except_Exception (fun _ => ret tt)) w = (Ok tt, w') /\
    decays w w' /\ is_alive pid w' = false.
Proof.
  destruct (kill_process_tree_total pid w) as (w' & E & Hd & Hdead).
  exists w'. split; [apply try_except_ok; exact E | auto].
Qed.

Lemma shutdown_event_spec w :
  exists w',
    V1.shutdown_event w = (Ok tt, w') /\
    (forall name pid, running_processes w !! name = Some pid -> is_alive pid w' = false) /\
    (forall name pid, training_processes w !! name = Some pid -> is_alive pid w' = false) /\
    frame w w'.
Proof.
  unfold V1.shutdown_event. erewrite bind_ok by reflexivity.
  set (body := fun item : string * nat =>
                 try_except (kill_process_tree (snd item)) (except_Exception (fun _ => ret tt))).
  destruct (for_each_kills snd body (map_to_list (running_processes w)) w)
    as (w1 & E1 & Hd1 & Hdead1).
  { intros x w0. apply caught_kill_process_tree. }
  destruct (for_each_kills snd body (map_to_list (training_processes w1)) w1)
    as (w2 & E2 & Hd2 & Hdead2).
  { intros x w0. apply caught_kill_process_tree. }
  exists w2. split.
  { erewrite bind_ok by exact E1. erewrite bind_ok by reflexivity. exact E2. }
  assert (Htp : training_processes w1 = training_processes w) by apply Hd1.
  split.
  { intros name pid Hn. eapply decays_dead; [exact Hd2|].
    apply (Hdead1 (name, pid)). apply list_elem_of_In, elem_of_map_to_list. exact Hn. }
  split.
  { intros name pid Hn. apply (Hdead2 (name, pid)).
    apply list_elem_of_In, elem_of_map_to_list. rewrite Htp. exact Hn. }
  eapply frame_trans; [apply Hd1 | apply Hd2].
Qed.

(** X4: the [shutdown] hook of [livetalking_backend.py] and of
    [livetalking_backend_v2.py] never raises; afterwards no process of
    [running_processes] or of [training_processes] is alive, while the two
    dictionaries, the sessions and the file system are as before. *)
Theorem shutdown_event_kills_registered w :
  (exists w',
     V1.shutdown_event w = (Ok tt, w') /\
     (forall name pid, running_processes w !! name = Some pid -> is_alive pid w' = false) /\
     (forall name pid, training_processes w !! name = Some pid -> is_alive pid w' = false) /\
     frame w w') /\
  (exists w',
     V2.shutdown_event w = (Ok tt, w') /\
     (forall name pid, running_processes w !! name = Some pid -> is_alive pid w' = false) /\
     (forall name pid, training_processes w !! name = Some pid -> is_alive pid w' = false) /\
     frame w w').
Proof. split; apply shutdown_event_spec. Qed.

(** ** Listing the published avatars *)

Lemma NoDup_List_filter {A} (f : A -> bool) (l : list A) :
  NoDup l -> NoDup (List.filter f l).
Proof.
  induction 1 as [|x l Hx Hl IH]; simpl; [constructor|].
  destruct (f x); [|exact IH]. constructor; [|exact IH].
  intros Hin. apply Hx. apply list_elem_of_In in Hin. apply filter_In in Hin.
  apply list_elem_of_In. tauto.
Qed.

Lemma lookup_avatars_entry w m item :
  lookup_path AVATARS_DIR w = Some (Dir m) ->
  lookup_path (path_join AVATARS_DIR item) w = m !! item.
Proof.
  intros H.
  change (fs_lookup (fs w) ((LIVETALKING_PATH ++ ["data"; "avatars"]) ++ [item]) = m !! item).
  change (fs_lookup (fs w) (LIVETALKING_PATH ++ ["data"; "avatars"]) = Some (Dir m)) in H.
  rewrite fs_lookup_app, H. simpl.
  destruct (m !! item); reflexivity.
Qed.

Lemma simple_scan_item item acc w :
  exists out,
    Simple.scan_item item acc w = (Ok (acc ++ out), w) /\
    map (fun a : pydict => a !! "id") out
      = if published w item then [Some (VStr item)] else [].
Proof.
  unfold Simple.scan_item, published, bind, os_path_isdir, os_path_exists, gets, ret.
  destruct (startswith item "wav2lip256_"); cbv beta iota;
    [destruct (is_dir (lookup_path (path_join AVATARS_DIR item) w))|]; simpl.
  - eexists [_]. split; reflexivity.
  - exists []. rewrite app_nil_r. split; reflexivity.
  - exists []. rewrite app_nil_r. split; reflexivity.
Qed.

Lemma simple_scan_items items acc w :
  exists out,
    Simple.scan_items items acc w = (Ok (acc ++ out), w) /\
    map (fun a : pydict => a !! "id") out
      = map (fun item => Some (VStr item)) (List.filter (published w) items).
Proof.
  revert acc. induction items as [|item items IH]; intros acc; simpl.
  - exists []. rewrite app_nil_r. split; reflexivity.
  - destruct (simple_scan_item item acc w) as (o1 & E1 & H1).
    destruct (IH (acc ++ o1)) as (o2 & E2 & H2).
    exists (o1 ++ o2). erewrite bind_ok by exact E1. rewrite E2, app_assoc.
    split; [reflexivity|]. rewrite map_app, H1, H2.
    destruct (published w item); reflexivity.
Qed.

(** X5: [scan_avatars] of [backend_simple.py] never changes anything.  When
    the directory of the avatars is missing the list is empty; when the path
    is a regular file the call raises (the [listdir] fails); otherwise every
    directory entry that is itself a directory and whose name starts with
    [wav2lip256_] is listed exactly once, and nothing else is. *)
Theorem scan_avatars_lists_directories w :
  match lookup_path AVATARS_DIR w with
  | None => Simple.scan_avatars w = (Ok [], w)
  | Some (File _) => exists msg, Simple.scan_avatars w = (Raise (OSError msg), w)
  | Some (Dir m) =>
      exists avatars,
        Simple.scan_avatars w = (Ok avatars, w) /\
        NoDup (map (fun a : pydict => a !! "id") avatars) /\
        forall item,
          In (Some (VStr item)) (map (fun a : pydict => a !! "id") avatars) <->
          startswith item "wav2lip256_" = true /\ is_dir (m !! item) = true
  end.
Proof.
  unfold Simple.scan_avatars, bind, os_path_exists, gets, os_listdir.
  destruct (lookup_path AVATARS_DIR w) as [n|] eqn:Hl; [|reflexivity].
  destruct n as [data|m]; rewrite Hl; [eexists; reflexivity|].
  destruct (simple_scan_items (map fst (map_to_list m)) [] w) as (out & E & Hids).
  exists out. split; [exact E|]. rewrite Hids. split.
  - apply NoDup_fmap_2; [intros a b [= ->]; reflexivity|].
    apply NoDup_List_filter, NoDup_fst_map_to_list.
  - intros item. rewrite in_map_iff. split.
    + intros (x & [= ->] & Hin). apply filter_In in Hin as (_ & Hp).
      unfold published in Hp. apply andb_true_iff in Hp as (Hp & Hd).
      rewrite (lookup_avatars_entry w m item Hl) in Hd. auto.
    + intros (Hp & Hd). exists item. split; [reflexivity|]. apply filter_In. split.
      * destruct (m !! item) as [n|] eqn:Hm; [|discriminate].
        apply list_elem_of_In. apply list_elem_of_fmap. exists (item, n).
        split; [reflexivity|]. apply elem_of_map_to_list. exact Hm.
      * unfold published. rewrite Hp, (lookup_avatars_entry w m item Hl), Hd. reflexivity.
Qed.

Lemma v2_scan_existing_items items acc w :
  V2.scan_existing_items items acc w = (Ok (acc ++ List.filter (published w) items), w).
Proof.
  revert acc. induction items as [|item items IH]; intros acc; simpl.
  - rewrite app_nil_r. reflexivity.
  - unfold V2.scan_existing_item, published at 1, bind at 1, bind at 1, os_path_isdir, gets.
    rewrite (andb_comm (startswith item "wav2lip256_")).
    destruct (is_dir (lookup_path (path_join AVATARS_DIR item) w) &&
              startswith item "wav2lip256_"); unfold ret at 1.
    + rewrite IH, <- app_assoc. reflexivity.
    + apply IH.
Qed.

Lemma poll_alive pid w : bool_decide (poll pid w = None) = is_alive pid w.
Proof.
  unfold is_alive. destruct (poll pid w).
  - apply bool_decide_false. discriminate.
  - apply bool_decide_true. reflexivity.
Qed.

Lemma v2_avatar_info_spec avatar_id w :
  exists info,
    V2.avatar_info avatar_id w = (Ok info, w) /\
    info !! "avatar_id" = Some (VStr avatar_id) /\
    info !! "is_running"
      = Some (VBool (bool_decide (is_Some (live_entry (running_processes w) avatar_id w)))) /\
    info !! "pid"
      = (fun pid => VInt (Z.of_nat pid)) <$> live_entry (running_processes w) avatar_id w /\
    info !! "status" = Some (VStr (listed_status w avatar_id)).
Proof.
  unfold V2.avatar_info, listed_status, live_entry, bind, gets, ret.
  destruct (running_processes w !! avatar_id) as [p|] eqn:Er;
    destruct (training_processes w !! avatar_id) as [q|] eqn:Et;
    try destruct (is_alive p w) eqn:Hp; try destruct (is_alive q w) eqn:Hq;
    repeat (progress (cbv beta iota; rewrite ?Er, ?Et, ?poll_alive, ?Hp, ?Hq));
    eexists; (split; [reflexivity|]); repeat split; vm_compute; reflexivity.
Qed.

Lemma v2_avatar_infos_spec avatars acc w :
  exists infos,
    V2.avatar_infos avatars acc w = (Ok (acc ++ infos), w) /\
    Forall2 (fun avatar_id (info : pydict) =>
               info !! "avatar_id" = Some (VStr avatar_id) /\
               info !! "is_running"
                 = Some (VBool (bool_decide
                                  (is_Some (live_entry (running_processes w) avatar_id w)))) /\
               info !! "pid"
                 = (fun pid => VInt (Z.of_nat pid))
                     <$> live_entry (running_processes w) avatar_id w /\
               info !! "status" = Some (VStr (listed_status w avatar_id)))
            avatars infos.
Proof.
  revert acc. induction avatars as [|a avatars IH]; intros acc; simpl.
  - exists []. rewrite app_nil_r. split; [reflexivity | constructor].
  - destruct (v2_avatar_info_spec a w) as (info & E & H).
    destruct (IH (acc ++ [info])) as (infos & E' & H').
    exists (info :: infos). erewrite bind_ok by exact E. rewrite E', <- app_assoc.
    split; [reflexivity|]. constructor; assumption.
Qed.

(** X6: [list_avatars] of [livetalking_backend_v2.py] changes nothing and
    lists exactly the directories under [data/avatars] whose name starts
    with [wav2lip256_], each once, with their number as [total].  An entry
    has [is_running = True], and a [pid], exactly when the process
    registered for the name is still alive; its status is [training] when a
    registered trainer is alive, else [running] when the serving process is
    alive, else [ready]. *)
Theorem list_avatars_reports_liveness w m :
  lookup_path AVATARS_DIR w = Some (Dir m) ->
  exists infos,
    V2.list_avatars w = (Ok (infos, length infos), w) /\
    NoDup (map (fun info : pydict => info !! "avatar_id") infos) /\
    (forall item,
       In (Some (VStr item)) (map (fun info : pydict => info !! "avatar_id") infos) <->
       startswith item "wav2lip256_" = true /\ is_dir (m !! item) = true) /\
    (forall info : pydict, In info infos ->
       exists avatar_id,
         info !! "avatar_id" = Some (VStr avatar_id) /\
         info !! "is_running"
           = Some (VBool (bool_decide
                            (is_Some (live_entry (running_processes w) avatar_id w)))) /\
         info !! "pid"
           = (fun pid => VInt (Z.of_nat pid))
               <$> live_entry (running_processes w) avatar_id w /\
         info !! "status" = Some (VStr (listed_status w avatar_id))).
Proof.
  intros Hl.
  set (avatars := List.filter (published w) (map fst (map_to_list m))).
  assert (Hscan : V2.scan_existing_avatars w = (Ok avatars, w)).
  { unfold V2.scan_existing_avatars, bind, os_path_exists, gets, os_listdir.
    rewrite !Hl. exact (v2_scan_existing_items _ [] w). }
  destruct (v2_avatar_infos_spec avatars [] w) as (infos & E & HF).
  assert (Hids : map (fun info : pydict => info !! "avatar_id") infos
                 = map (fun item => Some (VStr item)) avatars).
  { clear E Hscan. clearbody avatars.
    induction HF as [|a info l l' (Ha & _) _ IH]; simpl; [reflexivity|].
    rewrite Ha, IH. reflexivity. }
  exists infos. split.
  { unfold V2.list_avatars. erewrite bind_ok by exact Hscan.
    erewrite bind_ok by exact E. reflexivity. }
  rewrite Hids. split.
  { apply NoDup_fmap_2; [intros a b [= ->]; reflexivity|].
    apply NoDup_List_filter, NoDup_fst_map_to_list. }
  split.
  - intros item. rewrite in_map_iff. split.
    + intros (x & [= ->] & Hin). apply filter_In in Hin as (_ & Hp).
      unfold published in Hp. apply andb_true_iff in Hp as (Hp & Hd).
      rewrite (lookup_avatars_entry w m item Hl) in Hd. auto.
    + intros (Hp & Hd). exists item. split; [reflexivity|]. apply filter_In. split.
      * destruct (m !! item) as [n|] eqn:Hm; [|discriminate].
        apply list_elem_of_In. apply list_elem_of_fmap. exists (item, n).
        split; [reflexivity|]. apply elem_of_map_to_list. exact Hm.
      * unfold published. rewrite Hp, (lookup_avatars_entry w m item Hl), Hd. reflexivity.
  - intros info Hin. clear E Hids Hscan. clearbody avatars.
    induction HF as [|a i l l' Ha _ IH]; [destruct Hin|].
    destruct Hin as [<-|Hin]; [exists a; exact Ha | auto].
Qed.

Lemma list_avatars_reports_liveness_witness :
  exists infos,
    V2.list_avatars world_serving = (Ok (infos, length infos), world_serving) /\
    forall info : pydict, In info infos ->
      exists avatar_id,
        info !! "avatar_id" = Some (VStr avatar_id) /\
        info !! "is_running"
          = Some (VBool (bool_decide
                (is_Some (live_entry (running_processes world_serving) avatar_id
                            world_serving)))).
Proof.
  assert (Hl : lookup_path AVATARS_DIR world_serving
               = Some (Dir {[ "wav2lip256_a" := Dir ∅ ]})) by (vm_compute; reflexivity).
  destruct (list_avatars_reports_liveness world_serving _ Hl) as (infos & E & _ & _ & H).
  exists infos. split; [exact E|].
  intros info Hin. destruct (H info Hin) as (a & H1 & H2 & _). exists a. auto.
Defined.

(** ** Repeated training requests *)

Lemma v1_train_model_accepts isoformat (request : V1.TrainRequest) w :
  session_field (V1.train_session_id request) "status" w <> Some (VStr "training") ->
  (forall d, sessions w !! V1.train_session_id request = Some d -> is_Some (d !! "status")) ->
  exists resp w' d t,
    V1.train_model isoformat request w = (Ok resp, w') /\
    sessions w' = <[V1.train_session_id request := d]> (sessions w) /\
    d !! "status" = Some (VStr "training") /\
    d !! "progress" = Some (VInt 0) /\
    d !! "avatar_id" = Some (VStr (V1.train_avatar_id request)) /\
    d !! "pid" = None /\ d !! "ref_file" = None /\ d !! "error" = None /\
    background w' = background w ++ [t] /\
    task_session t = V1.train_session_id request /\
    task_avatar t = V1.train_avatar_id request /\
    task_video t = V1.train_video_path request /\
    running_processes w' = running_processes w /\
    training_processes w' = training_processes w /\
    same_os w w'.
Proof.
  intros Hst Hkey. unfold V1.train_model, session_field in *.
  erewrite bind_ok by reflexivity.
  assert (Hg : forall (k : M pydict),
             bind (match sessions w !! V1.train_session_id request with
                   | Some _ =>
                       status <- session_get (V1.train_session_id request) "status" ;;
                       when (bool_decide (status = VStr "training"))
                         (raise (HTTPException 400 "该会话正在训练中"))
                   | None => ret tt
                   end) (fun _ => k) w = k w).
  { intros k. unfold bind, session_get.
    destruct (sessions w !! V1.train_session_id request) as [d|] eqn:Hd; [|reflexivity].
    destruct (Hkey d eq_refl) as [st Hs]. rewrite Hs in Hst. rewrite Hd, Hs.
    rewrite bool_decide_false by congruence. reflexivity. }
  rewrite Hg. eexists _, _, _, _. split; [reflexivity|]. simpl.
  split; [reflexivity|].
  repeat split; vm_compute; reflexivity.
Qed.

(** X7: in [livetalking_backend.py] an accepted [train_model] request
    replaces the whole record of the session (status [training], progress 0,
    no [pid], [ref_file] or [error] left over), queues one [run_training]
    task and touches neither registry; the same request sent again, before
    the task has changed the status, is rejected with the code 400 and
    changes nothing. *)
Theorem v1_train_model_rejects_repeat isoformat (request : V1.TrainRequest) w resp w1 :
  V1.train_model isoformat request w = (Ok resp, w1) ->
  (exists d t,
     sessions w1 = <[V1.train_session_id request := d]> (sessions w) /\
     d !! "status" = Some (VStr "training") /\
     d !! "progress" = Some (VInt 0) /\
     d !! "pid" = None /\ d !! "ref_file" = None /\ d !! "error" = None /\
     background w1 = background w ++ [t] /\
     task_session t = V1.train_session_id request /\
     task_avatar t = V1.train_avatar_id request /\
     running_processes w1 = running_processes w /\
     training_processes w1 = training_processes w) /\
  V1.train_model isoformat request w1
    = (Raise (HTTPException 400 "该会话正在训练中"), w1).
Proof.
  intros H.
  assert (Hacc : session_field (V1.train_session_id request) "status" w
                   <> Some (VStr "training") /\
                 forall d, sessions w !! V1.train_session_id request = Some d ->
                           is_Some (d !! "status")).
  { unfold V1.train_model in H. apply bind_ok_inv in H as (ss & w0 & E0 & H).
    injection E0 as <- <-. apply bind_ok_inv in H as ([] & w0 & E0 & _).
    unfold session_field.
    destruct (sessions w !! V1.train_session_id request) as [d|] eqn:Hd;
      [|split; [discriminate | intros ? [=]]].
    apply bind_ok_inv in E0 as (st & w0' & E1 & E2).
    unfold session_get in E1. rewrite Hd in E1.
    destruct (d !! "status") as [v|] eqn:Hv; [|discriminate]. injection E1 as <- <-.
    split.
    - intros [= ->]. rewrite bool_decide_true in E2 by reflexivity. discriminate.
    - intros d' [= <-]. eauto. }
  destruct Hacc as (Hst & Hkey).
  destruct (v1_train_model_accepts isoformat request w Hst Hkey)
    as (resp' & w' & d & t & E & Hs & Hd1 & Hd2 & _ & Hd3 & Hd4 & Hd5 & Hb & Ht1 & Ht2 & _
        & Hrp & Htp & _).
  rewrite H in E. injection E as <- <-.
  split; [exists d, t; repeat split; assumption|].
  unfold V1.train_model. erewrite bind_ok by reflexivity.
  rewrite Hs, lookup_insert_eq.
  unfold bind at 1. unfold bind at 1. unfold session_get.
  rewrite Hs, lookup_insert_eq, Hd1. rewrite bool_decide_true by reflexivity. reflexivity.
Qed.

Lemma v1_train_model_rejects_repeat_witness :
  let request := {| V1.train_session_id := "s1"; V1.train_avatar_id := "a";
                    V1.train_video_path := "uploads\a.mp4";
                    V1.train_audio_path := Rel ["uploads"; "a.wav"];
                    V1.train_ref_text := "hello"; V1.train_prompt := "be kind" |} in
  let first := V1.train_model (fun _ => "2025-01-01T00:00:00") request empty_world in
  V1.train_model (fun _ => "2025-01-01T00:00:00") request (snd first)
    = (Raise (HTTPException 400 "该会话正在训练中"), snd first).
Proof.
  intros request first.
  assert (H : first = (Ok (list_to_map [("status", VStr "training_started");
                                       ("session_id", VStr "s1");
                                       ("avatar_id", VStr "a")] : pydict), snd first))
    by (vm_compute; reflexivity).
  exact (proj2 (v1_train_model_rejects_repeat (fun _ => "2025-01-01T00:00:00") request
                  empty_world _ (snd first) H)).
Defined.

(** X8: in [livetalking_backend_v2.py] the guard of [train_model] looks at
    [training_processes], which only [run_training] fills: a request that
    was accepted is accepted again as long as the queued task has not
    started, and the queue then holds the same task twice. *)
Theorem v2_train_model_accepts_repeat isoformat (request : V2.TrainRequest) w resp w1 :
  V2.train_model isoformat request w = (Ok resp, w1) ->
  exists resp2 w2 t,
    V2.train_model isoformat request w1 = (Ok resp2, w2) /\
    background w2 = background w ++ [t; t] /\
    task_avatar t = V2.full_avatar_id (V2.train_avatar_id request) /\
    training_processes w2 = training_processes w.
Proof.
  intros H.
  set (id := V2.full_avatar_id (V2.train_avatar_id request)).
  assert (Hg : forall pid, training_processes w !! id = Some pid -> is_alive pid w = false).
  { unfold V2.train_model in H. apply bind_ok_inv in H as (tp & w0 & E0 & H).
    injection E0 as <- <-. apply bind_ok_inv in H as ([] & w0 & E0 & _).
    fold id in E0. intros pid Hp. rewrite Hp in E0.
    apply bind_ok_inv in E0 as (rc & w0' & E1 & E2). injection E1 as <- <-.
    rewrite poll_alive in E2. destruct (is_alive pid w); [discriminate | reflexivity]. }
  assert (Hfx : forall w', V2.train_model isoformat request w = (Ok resp, w') ->
                  training_processes w' = training_processes w /\ procs w' = procs w /\
                  clock w' = clock w /\
                  background w' = background w ++
                    [{| task_session := id; task_avatar := id;
                        task_video := V2.train_video_path request;
                        task_audio := V2.train_audio_path request;
                        task_ref_text := V2.train_ref_text request |}]).
  { intros w' Hw'. unfold V2.train_model in Hw'. fold id in Hw'.
    apply bind_ok_inv in Hw' as (tp & w0 & E0 & Hw'). injection E0 as <- <-.
    apply bind_ok_inv in Hw' as ([] & w0 & E0 & Hw').
    assert (w0 = w) as ->.
    { destruct (training_processes w !! id) as [pid|]; [|injection E0 as <-; reflexivity].
      apply bind_ok_inv in E0 as (rc & w0' & E1 & E2). injection E1 as <- <-.
      destruct (bool_decide (poll pid w = None)); [discriminate|]. injection E2 as <-.
      reflexivity. }
    apply bind_ok_inv in Hw' as (now & w0 & E1 & Hw'). injection E1 as <- <-.
    apply bind_ok_inv in Hw' as ([] & w2 & E2 & Hw'). injection E2 as <-.
    apply bind_ok_inv in Hw' as ([] & w3 & E3 & Hw'). injection E3 as <-.
    injection Hw' as _ <-. repeat split. }
  destruct (Hfx w1 H) as (Htp & Hp & Hc & Hb).
  assert (Hg1 : forall pid, training_processes w1 !! id = Some pid -> is_alive pid w1 = false).
  { intros pid Hpid. rewrite (is_alive_same w w1 pid Hp Hc). apply Hg. rewrite <- Htp. exact Hpid. }
  destruct (v2_train_model_ok isoformat request w1 Hg1)
    as (resp2 & w2 & d & t & E2 & _).
  assert (Hfx2 : training_processes w2 = training_processes w1 /\
                 background w2 = background w1 ++
                    [{| task_session := id; task_avatar := id;
                        task_video := V2.train_video_path request;
                        task_audio := V2.train_audio_path request;
                        task_ref_text := V2.train_ref_text request |}]).
  { clear Hfx. unfold V2.train_model in E2. fold id in E2.
    apply bind_ok_inv in E2 as (tp & w0 & E0 & E2). injection E0 as <- <-.
    apply bind_ok_inv in E2 as ([] & w0 & E0 & E2).
    assert (w0 = w1) as ->.
    { destruct (training_processes w1 !! id) as [pid|]; [|injection E0 as <-; reflexivity].
      apply bind_ok_inv in E0 as (rc & w0' & E1 & E3). injection E1 as <- <-.
      destruct (bool_decide (poll pid w1 = None)); [discriminate|]. injection E3 as <-.
      reflexivity. }
    apply bind_ok_inv in E2 as (now & w0 & E1 & E2). injection E1 as <- <-.
    apply bind_ok_inv in E2 as ([] & w3 & E3 & E2). injection E3 as <-.
    apply bind_ok_inv in E2 as ([] & w4 & E4 & E2). injection E4 as <-.
    injection E2 as _ <-. split; reflexivity. }
  destruct Hfx2 as (Htp2 & Hb2).
  eexists resp2, w2, _. split; [exact E2|].
  split; [rewrite Hb2, Hb, <- app_assoc; reflexivity|].
  split; [reflexivity | congruence].
Qed.

Lemma v2_train_model_accepts_repeat_witness :
  let first := V2.train_model (fun _ => "2025-01-01T00:00:00") v2_train_request empty_world in
  exists resp2 w2 t,
    V2.train_model (fun _ => "2025-01-01T00:00:00") v2_train_request (snd first)
      = (Ok resp2, w2) /\
    background w2 = background empty_world ++ [t; t].
Proof.
  intros first.
  assert (H : first = (match fst first with Ok resp => Ok resp | Raise _ => Ok ∅ end,
                       snd first))
    by (vm_compute; reflexivity).
  destruct (v2_train_model_accepts_repeat (fun _ => "2025-01-01T00:00:00") v2_train_request
              empty_world _ (snd first) H) as (resp2 & w2 & t & E & Hb & _).
  exists resp2, w2, t. split; assumption.
Defined.

(** ** What [run_training] does once the trainer has exited *)

Lemma ignores_sessions_bind {A B} (m : M A) (k : A -> M B) :
  ignores_sessions m -> (forall a, ignores_sessions (k a)) -> ignores_sessions (bind m k).
Proof.
  intros Hm Hk s w. unfold bind. rewrite Hm.
  destruct (m w) as [[a|e] w1]; simpl; [apply Hk | reflexivity].
Qed.

Lemma ignores_sessions_copy2 src dst : ignores_sessions (shutil_copy2 src dst).
Proof.
  intros s w. unfold shutil_copy2, take_fault. destruct src, dst; simpl.
  all: repeat match goal with
         | |- context [match fs_lookup ?a ?b with _ => _ end] => destruct (fs_lookup a b)
         | |- context [match ?n with File _ => _ | Dir _ => _ end] => destruct n
         | |- context [if ?x then _ else _] => destruct x
         end; reflexivity.
Qed.

Lemma ignores_sessions_makedirs p : ignores_sessions (os_makedirs p).
Proof.
  intros s w. unfold os_makedirs, take_fault. destruct p; simpl.
  all: destruct (hd false (fs_faults w)); [reflexivity|].
  all: match goal with |- context [fs_makedirs ?a ?b] => destruct (fs_makedirs a b) end;
    reflexivity.
Qed.

Lemma ignores_sessions_v1_copy_audio avatar_id audio :
  ignores_sessions (v1_copy_audio avatar_id audio).
Proof.
  apply ignores_sessions_bind; [apply ignores_sessions_makedirs|].
  intros _. apply ignores_sessions_copy2.
Qed.

Lemma ignores_sessions_apply {A} (m : M A) s w r w1 :
  ignores_sessions m -> m w = (r, w1) -> m (set_sessions s w) = (r, set_sessions s w1).
Proof. intros H E. rewrite H, E. reflexivity. Qed.

(** A copy that raises leaves the tree as it was. *)
Lemma shutil_copy2_raise_fs src dst w e w1 :
  shutil_copy2 src dst w = (Raise e, w1) -> fs w1 = fs w.
Proof.
  unfold shutil_copy2, take_fault. simpl.
  repeat match goal with
         | |- context [match fs_lookup ?a ?b with _ => _ end] => destruct (fs_lookup a b)
         | |- context [match ?n with File _ => _ | Dir _ => _ end] => destruct n
         | |- context [if ?x then _ else _] => destruct x
         end; intros [= <- <-]; reflexivity.
Qed.

(** The [finally] clauses leave the sessions and the tree alone and empty
    the slot of the job in [training_processes]. *)
Lemma v1_cleanup_spec session_id w :
  exists r w',
    V1.run_training_cleanup session_id w = (r, w') /\
    sessions w' = sessions w /\ fs w' = fs w /\ procs w' = procs w /\ clock w' = clock w /\
    training_processes w' !! session_id = None.
Proof.
  unfold V1.run_training_cleanup, bind, gets, when, del_training_processes, os_chdir.
  destruct (training_processes w !! session_id) as [pid|] eqn:Htp.
  - rewrite bool_decide_true by eauto. rewrite Htp. simpl.
    destruct (is_dir _); eexists _, _; (split; [reflexivity|]); simpl;
      repeat split; apply lookup_delete_eq.
  - rewrite bool_decide_false by (intros [? ?]; discriminate). simpl.
    destruct (is_dir _); eexists _, _; (split; [reflexivity|]); simpl;
      repeat split; exact Htp.
Qed.

Lemma v2_cleanup_spec avatar_id w :
  exists r w',
    V2.run_training_cleanup avatar_id w = (r, w') /\
    sessions w' = sessions w /\ fs w' = fs w /\ procs w' = procs w /\ clock w' = clock w /\
    training_processes w' !! avatar_id = None.
Proof. exact (v1_cleanup_spec avatar_id w). Qed.

(** The outcome of a [try ... finally] whose body has ended normally. *)
Lemma try_finally_outcome {A} (body : M A) cleanup w a w1 (P : World -> Prop) :
  body w = (Ok a, w1) ->
  (forall r w', cleanup w1 = (r, w') -> P w') ->
  exists r w', try_finally body cleanup w = (r, w') /\ P w'.
Proof.
  intros Hb Hc. unfold try_finally. rewrite Hb.
  destruct (cleanup w1) as [[u|e] w'] eqn:E; eexists _, _; (split; [reflexivity|]);
    eapply Hc; reflexivity.
Qed.

Lemma no_timeout_copy2 src dst : no_timeout (shutil_copy2 src dst).
Proof.
  intros w w'. unfold shutil_copy2, take_fault. simpl.
  repeat match goal with
         | |- context [match fs_lookup ?a ?b with _ => _ end] => destruct (fs_lookup a b)
         | |- context [match ?n with File _ => _ | Dir _ => _ end] => destruct n
         | |- context [if ?x then _ else _] => destruct x
         end; discriminate.
Qed.

Lemma no_timeout_makedirs p : no_timeout (os_makedirs p).
Proof.
  intros w w'. unfold os_makedirs, take_fault. simpl.
  destruct (hd false (fs_faults w)); [discriminate|].
  destruct (fs_makedirs _ _); discriminate.
Qed.

Lemma no_timeout_v1_copy_audio avatar_id audio : no_timeout (v1_copy_audio avatar_id audio).
Proof.
  intros w w' H. unfold v1_copy_audio in H.
  apply bind_inv in H as [(e & H & He)|(u & w1 & _ & H)].
  - injection He as <-. exact (no_timeout_makedirs _ _ _ H).
  - exact (no_timeout_copy2 _ _ _ _ H).
Qed.

(** [run_training] up to the end of the wait, followed by [post]. *)
Lemma v1_body_after_await session_id avatar_id video (post : Z -> M unit) h w rc w1 :
  v1_await session_id avatar_id video w = (Ok rc, w1) ->
  try_except
    (os_chdir WAV2LIP_PATH ;;;
     open_w (path_join LOGS_DIR ("train_" +:+ session_id +:+ ".log")) ;;;
     process <- Popen (V1.training_cmd avatar_id video) WAV2LIP_PATH ;;
     modify (fun w => set_training_processes
                        (<[session_id := process]> (training_processes w)) w) ;;;
     return_code <- popen_wait process 600 ;;
     post return_code) h w
  = try_except (post rc) h w1.
Proof.
  intros Hw. unfold v1_await in Hw.
  do 4 (apply bind_ok_inv in Hw as (? & ? & ? & Hw)).
  unfold try_except.
  repeat (erewrite bind_ok by eassumption). reflexivity.
Qed.

Lemma v2_body_after_await strftime avatar_id video (post : Z -> M unit) h w rc w1 :
  v2_await strftime avatar_id video w = (Ok rc, w1) ->
  try_except
    (session_set avatar_id "status" (VStr "training") ;;;
     os_chdir WAV2LIP_PATH ;;;
     now <- gets clock ;;
     open_w (path_join LOGS_DIR
               ("train_" +:+ avatar_id +:+ "_" +:+ strftime now +:+ ".log")) ;;;
     process <- Popen (V2.training_cmd avatar_id video) WAV2LIP_PATH ;;
     modify (fun w => set_training_processes
                        (<[avatar_id := process]> (training_processes w)) w) ;;;
     return_code <- popen_wait process 1200 ;;
     post return_code) h w
  = try_except (post rc) h w1.
Proof.
  intros Hw. unfold v2_await in Hw.
  do 6 (apply bind_ok_inv in Hw as (? & ? & ? & Hw)).
  unfold try_except.
  repeat (erewrite bind_ok by eassumption). reflexivity.
Qed.

Lemma popen_wait_cwd pid timeout w r w1 :
  popen_wait pid timeout w = (r, w1) -> cwd w1 = cwd w /\ fs w1 = fs w /\ fs_faults w1 = fs_faults w.
Proof.
  unfold popen_wait, bind, log, modify. simpl.
  destruct (poll pid _); intros [= <- <-]; repeat split.
Qed.

(** When the wait is over, the working directory is [wav2lip]. *)
Lemma v1_await_cwd session_id avatar_id video w rc w1 :
  v1_await session_id avatar_id video w = (Ok rc, w1) ->
  cwd w1 = LIVETALKING_PATH ++ ["wav2lip"].
Proof.
  intros H. unfold v1_await in H.
  apply bind_ok_inv in H as (u1 & w2 & E1 & H). apply os_chdir_ok_inv in E1 as (_ & ->).
  apply bind_ok_inv in H as (u2 & w3 & E2 & H). apply open_w_ok_inv in E2 as ->.
  apply bind_ok_inv in H as (pid & w4 & E3 & H).
  apply Popen_ok_inv in E3 as (pr & rest & tbl & _ & _ & ->).
  apply bind_ok_inv in H as (u3 & w5 & E4 & H). apply modify_ok_inv in E4 as ->.
  apply popen_wait_cwd in H as (-> & _). reflexivity.
Qed.

Lemma v2_await_cwd strftime avatar_id video w rc w1 :
  v2_await strftime avatar_id video w = (Ok rc, w1) ->
  cwd w1 = LIVETALKING_PATH ++ ["wav2lip"].
Proof.
  intros H. unfold v2_await in H.
  apply bind_ok_inv in H as (u0 & w0 & E0 & H).
  apply session_set_ok_inv in E0 as (d0 & _ & ->).
  apply bind_ok_inv in H as (u1 & w2 & E1 & H). apply os_chdir_ok_inv in E1 as (_ & ->).
  apply bind_ok_inv in H as (now & w2' & E1' & H). injection E1' as <- <-.
  apply bind_ok_inv in H as (u2 & w3 & E2 & H). apply open_w_ok_inv in E2 as ->.
  apply bind_ok_inv in H as (pid & w4 & E3 & H).
  apply Popen_ok_inv in E3 as (pr & rest & tbl & _ & _ & ->).
  apply bind_ok_inv in H as (u3 & w5 & E4 & H). apply modify_ok_inv in E4 as ->.
  apply popen_wait_cwd in H as (-> & _). reflexivity.
Qed.

Lemma shutil_copy2_missing src dst w :
  fs_lookup (fs w) (resolve src w) = None ->
  exists w', shutil_copy2 src dst w = (Raise (OSError "copy2: no such file"), w').
Proof.
  intros H. unfold shutil_copy2. simpl.
  change (fs (set_trace (trace w ++ [ECopy (resolve src w) (resolve dst w)]) w)) with (fs w).
  rewrite H. eauto.
Qed.

Lemma fs_lookup_empty_dir c (p : path) : fs_lookup (Dir ∅) (c :: p) = None.
Proof. simpl. rewrite lookup_empty. reflexivity. Qed.

(** [makedirs] creates nothing outside the path it is given. *)
Lemma fs_makedirs_diverge r a b (q q' : path) n n' :
  a <> b ->
  fs_makedirs n (r ++ a :: q) = Some n' ->
  fs_lookup n' (r ++ b :: q') = fs_lookup n (r ++ b :: q').
Proof.
  intros Hab. revert n n'. induction r as [|c r IH]; intros n n' H; simpl in H |- *.
  - destruct n as [|m]; [discriminate|].
    destruct (fs_makedirs (default (Dir ∅) (m !! a)) q) as [x|]; [|discriminate].
    injection H as <-. simpl. rewrite lookup_insert_ne by exact Hab. reflexivity.
  - destruct n as [|m]; [discriminate|].
    destruct (fs_makedirs (default (Dir ∅) (m !! c)) (r ++ a :: q)) as [x|] eqn:E;
      [|discriminate].
    injection H as <-. simpl. rewrite lookup_insert_eq.
    rewrite (IH _ _ E).
    destruct (m !! c) as [n0|]; simpl; [reflexivity|].
    destruct r; apply fs_lookup_empty_dir.
Qed.

Lemma os_makedirs_ok_inv p w a w1 :
  os_makedirs p w = (Ok a, w1) ->
  cwd w1 = cwd w /\ fs_makedirs (fs w) (resolve p w) = Some (fs w1).
Proof.
  unfold os_makedirs, take_fault. simpl.
  destruct (hd false (fs_faults w)); [discriminate|].
  destruct (fs_makedirs (fs w) (resolve p w)) eqn:Ef; [|discriminate].
  intros [= _ <-]. split; reflexivity.
Qed.

(** With [wav2lip] as working directory, the copy of a relative audio path
    that does not exist below [wav2lip] raises. *)
Lemma v1_copy_audio_relative avatar_id p w :
  cwd w = LIVETALKING_PATH ++ ["wav2lip"] ->
  fs_lookup (fs w) (LIVETALKING_PATH ++ ["wav2lip"] ++ p) = None ->
  exists e w2, v1_copy_audio avatar_id (Rel p) w = (Raise e, w2).
Proof.
  intros Hcwd Hp. unfold v1_copy_audio.
  destruct (os_makedirs (Abs (LIVETALKING_PATH ++ ["wav"])) w) as [[[]|e] wm] eqn:Em.
  - erewrite bind_ok by exact Em.
    pose proof (os_makedirs_ok_inv _ _ _ _ Em) as Hm.
    destruct Hm as (Hc & Hf).
    destruct (shutil_copy2_missing (Rel p)
                (path_join (Abs (LIVETALKING_PATH ++ ["wav"])) (avatar_id +:+ ".wav")) wm)
      as (w2 & Hc2); [|eauto].
    change (fs_lookup (fs wm) (cwd wm ++ p) = None). rewrite Hc, Hcwd, <- app_assoc.
    change (fs_makedirs (fs w) (LIVETALKING_PATH ++ "wav" :: []) = Some (fs wm)) in Hf.
    change (fs_lookup (fs wm) (LIVETALKING_PATH ++ "wav2lip" :: p) = None).
    rewrite (fs_makedirs_diverge LIVETALKING_PATH "wav" "wav2lip" [] p _ _
               ltac:(discriminate) Hf).
    exact Hp.
  - erewrite bind_raise by exact Em. eauto.
Qed.

(** X9: in [livetalking_backend.py] a trainer that exits with the code 0
    makes the session [ready] as soon as the reference audio has been
    copied; the results directory is never looked at.  When the copy fails
    the session ends in [error] with the text of the exception.  In both
    cases the slot in [training_processes] is emptied.  The copy runs with
    [wav2lip] as working directory, so a relative audio path that does not
    exist below [wav2lip] always ends in [error]. *)
Theorem v1_training_exit0_outcome session_id avatar_id video audio text w w1 :
  v1_await session_id avatar_id video w = (Ok 0, w1) ->
  is_Some (sessions w !! session_id) ->
  (forall w2,
     v1_copy_audio avatar_id audio w1 = (Ok tt, w2) ->
     exists r w',
       V1.run_training session_id avatar_id video audio text w = (r, w') /\
       session_field session_id "status" w' = Some (VStr "ready") /\
       session_field session_id "ref_file" w'
         = Some (VStr ("wav/" +:+ avatar_id +:+ ".wav")) /\
       fs w' = fs w2 /\
       training_processes w' !! session_id = None) /\
  (forall e w2,
     v1_copy_audio avatar_id audio w1 = (Raise e, w2) ->
     exists r w',
       V1.run_training session_id avatar_id video audio text w = (r, w') /\
       session_field session_id "status" w' = Some (VStr "error") /\
       session_field session_id "error" w' = Some (VStr (str_exn e)) /\
       fs w' = fs w2 /\
       training_processes w' !! session_id = None) /\
  (forall p,
     audio = Rel p ->
     fs_lookup (fs w1) (LIVETALKING_PATH ++ ["wav2lip"] ++ p) = None ->
     exists r w',
       V1.run_training session_id avatar_id video audio text w = (r, w') /\
       session_field session_id "status" w' = Some (VStr "error")).
Proof.
  intros Hw Hsess.
  enough (Hmain :
    (forall w2,
       v1_copy_audio avatar_id audio w1 = (Ok tt, w2) ->
       exists r w',
         V1.run_training session_id avatar_id video audio text w = (r, w') /\
         session_field session_id "status" w' = Some (VStr "ready") /\
         session_field session_id "ref_file" w'
           = Some (VStr ("wav/" +:+ avatar_id +:+ ".wav")) /\
         fs w' = fs w2 /\
         training_processes w' !! session_id = None) /\
    (forall e w2,
       v1_copy_audio avatar_id audio w1 = (Raise e, w2) ->
       exists r w',
         V1.run_training session_id avatar_id video audio text w = (r, w') /\
         session_field session_id "status" w' = Some (VStr "error") /\
         session_field session_id "error" w' = Some (VStr (str_exn e)) /\
         fs w' = fs w2 /\
         training_processes w' !! session_id = None)).
  { destruct Hmain as (Hok & Hraise). split; [exact Hok|]. split; [exact Hraise|].
    intros p -> Hp.
    destruct (v1_copy_audio_relative avatar_id p w1 (v1_await_cwd _ _ _ _ _ _ Hw) Hp)
      as (e & w2 & Hc).
    destruct (Hraise e w2 Hc) as (r & w' & E & Hst & _). eauto. }
  destruct Hsess as [d Hd].
  destruct (v1_await_inv session_id avatar_id video w _ w1 Hw) as (pid & Htp & Hs & _);
    [left; eauto|].
  rewrite <- Hs in Hd.
  set (S1 := <[session_id := <["status" := VStr "ready"]> d]> (sessions w1)).
  split.
  - intros w2 Hc.
    pose proof (ignores_sessions_apply _ S1 w1 _ _
                  (ignores_sessions_v1_copy_audio avatar_id audio) Hc) as Hc'.
    set (w3 := set_sessions S1 w2) in *.
    set (w4 := set_sessions
                 (<[session_id := <["ref_file" := VStr ("wav/" +:+ avatar_id +:+ ".wav")]>
                                    (<["status" := VStr "ready"]> d)]> (sessions w3)) w3).
    unfold V1.run_training.
    eapply (try_finally_outcome _ _ w tt w4).
    + rewrite (v1_body_after_await _ _ _ _ _ _ _ _ Hw).
      apply try_except_ok. rewrite Z.eqb_refl.
      erewrite bind_ok by (apply session_set_field; exact Hd).
      fold S1. unfold v1_copy_audio in Hc'.
      apply bind_ok_inv in Hc' as ([] & wm & Em & Ec).
      erewrite bind_ok by exact Em. erewrite bind_ok by exact Ec.
      apply session_set_field. apply lookup_insert_eq.
    + intros r w' Hcl.
      destruct (v1_cleanup_spec session_id w4) as (r' & w'' & E & Hss & Hfs & _ & _ & Ht).
      rewrite Hcl in E. injection E as <- <-.
      unfold session_field. rewrite Hss, Hfs. simpl. rewrite lookup_insert_eq.
      split; [rewrite lookup_insert_ne by discriminate; apply lookup_insert_eq|].
      split; [apply lookup_insert_eq|]. split; [reflexivity | exact Ht].
  - intros e w2 Hc.
    pose proof (ignores_sessions_apply _ S1 w1 _ _
                  (ignores_sessions_v1_copy_audio avatar_id audio) Hc) as Hc'.
    set (w3 := set_sessions S1 w2) in *.
    set (d1 := <["status" := VStr "error"]> (<["status" := VStr "ready"]> d)).
    set (w4 := set_sessions (<[session_id := d1]> (sessions w3)) w3).
    set (w5 := set_sessions
                 (<[session_id := <["error" := VStr (str_exn e)]> d1]> (sessions w4)) w4).
    assert (Hbody : (session_set session_id "status" (VStr "ready") ;;;
                     os_makedirs (Abs (LIVETALKING_PATH ++ ["wav"])) ;;;
                     shutil_copy2 audio
                       (path_join (Abs (LIVETALKING_PATH ++ ["wav"])) (avatar_id +:+ ".wav")) ;;;
                     session_set session_id "ref_file"
                       (VStr ("wav/" +:+ avatar_id +:+ ".wav"))) w1 = (Raise e, w3)).
    { erewrite bind_ok by (apply session_set_field; exact Hd). fold S1.
      unfold v1_copy_audio in Hc'.
      apply bind_inv in Hc' as [(e' & Em & He)|([] & wm & Em & Ec)].
      - injection He as <-. erewrite bind_raise by exact Em. reflexivity.
      - erewrite bind_ok by exact Em. erewrite bind_raise by exact Ec. reflexivity. }
    assert (Hh : (session_set session_id "status" (VStr "error") ;;;
                  session_set session_id "error" (VStr (str_exn e))) w3 = (Ok tt, w5)).
    { erewrite bind_ok by (apply session_set_field; apply lookup_insert_eq).
      apply session_set_field. apply lookup_insert_eq. }
    unfold V1.run_training.
    eapply (try_finally_outcome _ _ w tt w5).
    + rewrite (v1_body_after_await _ _ _ _ _ _ _ _ Hw).
      rewrite Z.eqb_refl. erewrite try_except_raise by exact Hbody.
      destruct e; try exact Hh.
      exfalso. exact (no_timeout_v1_copy_audio _ _ _ _ Hc).
    + intros r w' Hcl.
      destruct (v1_cleanup_spec session_id w5) as (r' & w'' & E & Hss & Hfs & _ & _ & Ht).
      rewrite Hcl in E. injection E as <- <-.
      unfold session_field. rewrite Hss, Hfs. simpl. rewrite lookup_insert_eq.
      split; [rewrite lookup_insert_ne by discriminate; apply lookup_insert_eq|].
      split; [apply lookup_insert_eq|]. split; [reflexivity | exact Ht].
Qed.

Lemma v1_training_exit0_outcome_witness :
  lookup_path RESULTS_DIR (world_v1_training 0) = None /\
  exists r w',
    V1.run_training "s1" "a" "uploads\a.mp4" (Abs ["uploads"; "a.wav"]) "hello"
      (world_v1_training 0) = (r, w') /\
    session_field "s1" "status" w' = Some (VStr "ready").
Proof.
  split; [vm_compute; reflexivity|].
  set (await := v1_await "s1" "a" "uploads\a.mp4" (world_v1_training 0)).
  assert (H1 : await = (Ok 0, snd await)) by (vm_compute; reflexivity).
  set (copy := v1_copy_audio "a" (Abs ["uploads"; "a.wav"]) (snd await)).
  assert (H2 : copy = (Ok tt, snd copy)) by (vm_compute; reflexivity).
  assert (H0 : is_Some (sessions (world_v1_training 0) !! "s1")) by (eexists; apply lookup_singleton_eq).
  destruct (proj1 (v1_training_exit0_outcome "s1" "a" "uploads\a.mp4"
                     (Abs ["uploads"; "a.wav"]) "hello" _ _ H1 H0) _ H2)
    as (r & w' & E & Hst & _).
  exists r, w'. split; assumption.
Defined.

(** X10: a trainer that exits with a code other than 0 leaves the job in
    the state [error]: [backend_simple.py] records the status only, the two
    other back ends also record the text with the code; nothing is moved or
    copied (the tree is as the trainer left it). *)
Theorem training_nonzero_exit_is_error strftime name avatar_id video audio text w rc w1 :
  rc <> 0 ->
  (subprocess_run (Simple.training_cmd avatar_id video) Simple.WAV2LIP_DIR 1800 w
     = (Ok rc, w1) ->
   Simple.run_training avatar_id video audio text w
     = (Ok tt, with_status avatar_id "error" w1)) /\
  (v1_await name avatar_id video w = (Ok rc, w1) ->
   is_Some (sessions w !! name) ->
   exists r w',
     V1.run_training name avatar_id video audio text w = (r, w') /\
     session_field name "status" w' = Some (VStr "error") /\
     session_field name "error" w' = Some (VStr ("训练失败，返回码: " +:+ pretty rc)) /\
     fs w' = fs w1 /\ training_processes w' !! name = None) /\
  (v2_await strftime avatar_id video w = (Ok rc, w1) ->
   exists r w',
     V2.run_training strftime avatar_id video audio text w = (r, w') /\
     session_field avatar_id "status" w' = Some (VStr "error") /\
     session_field avatar_id "error" w'
       = Some (VStr ("训练失败，返回码: " +:+ pretty rc)) /\
     fs w' = fs w1 /\ training_processes w' !! avatar_id = None).
Proof.
  intros Hrc.
  assert (Hz : (rc =? 0) = false) by (apply Z.eqb_neq; exact Hrc).
  split; [intros H; exact (simple_run_training_nonzero _ _ _ _ _ _ _ H Hrc)|].
  split.
  - intros Hw [d Hd].
    destruct (v1_await_inv name avatar_id video w _ w1 Hw) as (pid & _ & Hs & _);
      [left; eauto|].
    rewrite <- Hs in Hd.
    set (d1 := <["status" := VStr "error"]> d).
    set (w2 := set_sessions (<[name := d1]> (sessions w1)) w1).
    set (w3 := set_sessions
                 (<[name := <["error" := VStr ("训练失败，返回码: " +:+ pretty rc)]> d1]>
                    (sessions w2)) w2).
    unfold V1.run_training.
    eapply (try_finally_outcome _ _ w tt w3).
    + rewrite (v1_body_after_await _ _ _ _ _ _ _ _ Hw), Hz.
      apply try_except_ok.
      erewrite bind_ok by (apply session_set_field; exact Hd).
      apply session_set_field. apply lookup_insert_eq.
    + intros r w' Hcl.
      destruct (v1_cleanup_spec name w3) as (r' & w'' & E & Hss & Hfs & _ & _ & Ht).
      rewrite Hcl in E. injection E as <- <-.
      unfold session_field. rewrite Hss, Hfs. simpl. rewrite lookup_insert_eq.
      split; [rewrite lookup_insert_ne by discriminate; apply lookup_insert_eq|].
      split; [apply lookup_insert_eq|]. split; [reflexivity | exact Ht].
  - intros Hw.
    destruct (v2_await_inv strftime avatar_id video w _ w1 Hw) as (pid & d & _ & Hd & _);
      [left; eauto|].
    set (d1 := <["status" := VStr "error"]> d).
    set (w2 := set_sessions (<[avatar_id := d1]> (sessions w1)) w1).
    set (w3 := set_sessions
                 (<[avatar_id := <["error" := VStr ("训练失败，返回码: " +:+ pretty rc)]> d1]>
                    (sessions w2)) w2).
    unfold V2.run_training.
    eapply (try_finally_outcome _ _ w tt w3).
    + rewrite (v2_body_after_await _ _ _ _ _ _ _ _ Hw), Hz.
      apply try_except_ok.
      erewrite bind_ok by (apply session_set_field; exact Hd).
      apply session_set_field. apply lookup_insert_eq.
    + intros r w' Hcl.
      destruct (v2_cleanup_spec avatar_id w3) as (r' & w'' & E & Hss & Hfs & _ & _ & Ht).
      rewrite Hcl in E. injection E as <- <-.
      unfold session_field. rewrite Hss, Hfs. simpl. rewrite lookup_insert_eq.
      split; [rewrite lookup_insert_ne by discriminate; apply lookup_insert_eq|].
      split; [apply lookup_insert_eq|]. split; [reflexivity | exact Ht].
Qed.

Lemma training_nonzero_exit_is_error_witness :
  exists r w',
    V1.run_training "s1" "a" "uploads\a.mp4" (Abs ["uploads"; "a.wav"]) "hello"
      (world_v1_training 2) = (r, w') /\
    session_field "s1" "status" w' = Some (VStr "error") /\
    session_field "s1" "error" w' = Some (VStr ("训练失败，返回码: " +:+ pretty 2)).
Proof.
  set (await := v1_await "s1" "a" "uploads\a.mp4" (world_v1_training 2)).
  assert (H1 : await = (Ok 2, snd await)) by (vm_compute; reflexivity).
  assert (H0 : is_Some (sessions (world_v1_training 2) !! "s1")) by (eexists; apply lookup_singleton_eq).
  assert (Hrc : 2 <> 0) by discriminate.
  destruct (proj1 (proj2 (training_nonzero_exit_is_error (fun _ => EmptyString) "s1" "a"
                            "uploads\a.mp4" (Abs ["uploads"; "a.wav"]) "hello"
                            _ 2 _ Hrc)) H1 H0)
    as (r & w' & E & Hst & Her & _).
  exists r, w'. repeat split; assumption.
Defined.

(** ** Publishing after a successful training *)

(** The first publication of an avatar by [move_trained_avatar]: nothing is
    at the destination yet. *)
Lemma v2_move_first strftime avatar_id w new :
  let D := avatars_path ++ [avatar_id] in
  let S := results_path ++ [avatar_id] in
  fs_lookup (fs w) S = Some new ->
  fs_lookup (fs w) D = None ->
  is_dir (fs_lookup (fs w) avatars_path) = true ->
  hd false (fs_faults w) = false ->
  exists w',
    V2.move_trained_avatar strftime avatar_id w = (Ok true, w') /\
    fs_lookup (fs w') D = Some new /\ fs_lookup (fs w') S = None /\
    cwd w' = cwd w /\ sessions w' = sessions w /\
    trace w' = trace w ++ [EMove S D].
Proof.
  intros D S HS HD Hav Hf.
  assert (M : shutil_move (path_join RESULTS_DIR avatar_id)
                (path_join AVATARS_DIR avatar_id) w
              = let w2 := set_fs_faults (tl (fs_faults w))
                            (set_trace (trace w ++ [EMove S D]) w) in
                if hd false (fs_faults w) then (Raise (OSError "move failed"), w2)
                else (Ok tt, set_fs (fs_put (fs_remove (fs w) S) D new) w2)).
  { refine (shutil_move_rename (path_join RESULTS_DIR avatar_id)
              (path_join AVATARS_DIR avatar_id) w new _ _ _ _).
    - exact HS.
    - exact HD.
    - apply (avatars_not_under_results avatar_id avatar_id []).
    - change (is_dir (fs_lookup (fs w) (parent_dir D)) = true).
      unfold D. rewrite parent_dir_snoc. exact Hav. }
  rewrite Hf in M.
  eexists. split.
  - unfold V2.move_trained_avatar. erewrite try_except_ok; [reflexivity|].
    erewrite bind_ok by reflexivity.
    change (lookup_path (path_join RESULTS_DIR avatar_id) w) with (fs_lookup (fs w) S).
    rewrite HS.
    erewrite bind_ok by reflexivity.
    change (lookup_path (path_join AVATARS_DIR avatar_id) w) with (fs_lookup (fs w) D).
    rewrite HD. simpl when.
    erewrite bind_ok by reflexivity.
    erewrite bind_ok by exact M. reflexivity.
  - split.
    { change (fs_lookup (fs_put (fs_remove (fs w) S) D new) D = Some new).
      unfold D. apply fs_put_lookup_eq. unfold S. rewrite is_dir_avatars_remove_results.
      exact Hav. }
    split.
    { change (fs_lookup (fs_put (fs_remove (fs w) S) D new) S = None).
      unfold D, S. rewrite lookup_results_put. apply fs_remove_lookup_eq. }
    repeat split.
Qed.

(** [run_training] of [livetalking_backend_v2.py] once the trainer has
    exited with the code 0 and the result has been moved. *)
Lemma v2_after_move strftime avatar_id video audio text w w1 w2 :
  v2_await strftime avatar_id video w = (Ok 0, w1) ->
  V2.move_trained_avatar strftime avatar_id w1 = (Ok true, w2) ->
  (forall w3,
     shutil_copy2 audio (path_join WAV_DIR (avatar_id +:+ ".wav")) w2 = (Ok tt, w3) ->
     exists r w',
       V2.run_training strftime avatar_id video audio text w = (r, w') /\
       session_field avatar_id "status" w' = Some (VStr "ready") /\
       session_field avatar_id "ref_file" w'
         = Some (VStr ("wav/" +:+ avatar_id +:+ ".wav")) /\
       fs w' = fs w3 /\ training_processes w' !! avatar_id = None) /\
  (forall e w3,
     shutil_copy2 audio (path_join WAV_DIR (avatar_id +:+ ".wav")) w2 = (Raise e, w3) ->
     exists r w',
       V2.run_training strftime avatar_id video audio text w = (r, w') /\
       session_field avatar_id "status" w' = Some (VStr "error") /\
       session_field avatar_id "error" w' = Some (VStr (str_exn e)) /\
       fs w' = fs w2 /\ training_processes w' !! avatar_id = None).
Proof.
  intros Hw Hm.
  destruct (v2_await_inv strftime avatar_id video w _ w1 Hw) as (pid & d & _ & Hd & _);
    [left; eauto|].
  assert (Hd2 : sessions w2 !! avatar_id = Some d).
  { pose proof (v2_move_sessions strftime avatar_id w1) as H. rewrite Hm in H.
    simpl in H. rewrite H. exact Hd. }
  set (S2 := <[avatar_id := <["status" := VStr "ready"]> d]> (sessions w2)).
  split.
  - intros w3 Hc.
    pose proof (ignores_sessions_apply _ S2 w2 _ _ (ignores_sessions_copy2 _ _) Hc) as Hc'.
    set (w4 := set_sessions S2 w3) in *.
    set (w5 := set_sessions
                 (<[avatar_id := <["ref_file" := VStr ("wav/" +:+ avatar_id +:+ ".wav")]>
                                   (<["status" := VStr "ready"]> d)]> (sessions w4)) w4).
    unfold V2.run_training.
    eapply (try_finally_outcome _ _ w tt w5).
    + rewrite (v2_body_after_await _ _ _ _ _ _ _ _ Hw), Z.eqb_refl.
      apply try_except_ok. erewrite bind_ok by exact Hm. cbv iota.
      erewrite bind_ok by (apply session_set_field; exact Hd2). fold S2.
      erewrite bind_ok by exact Hc'.
      apply session_set_field. apply lookup_insert_eq.
    + intros r w' Hcl.
      destruct (v2_cleanup_spec avatar_id w5) as (r' & w'' & E & Hss & Hfs & _ & _ & Ht).
      rewrite Hcl in E. injection E as <- <-.
      unfold session_field. rewrite Hss, Hfs. simpl. rewrite lookup_insert_eq.
      split; [rewrite lookup_insert_ne by discriminate; apply lookup_insert_eq|].
      split; [apply lookup_insert_eq|]. split; [reflexivity | exact Ht].
  - intros e w3 Hc.
    pose proof (ignores_sessions_apply _ S2 w2 _ _ (ignores_sessions_copy2 _ _) Hc) as Hc'.
    set (w4 := set_sessions S2 w3) in *.
    set (d1 := <["status" := VStr "error"]> (<["status" := VStr "ready"]> d)).
    set (w5 := set_sessions (<[avatar_id := d1]> (sessions w4)) w4).
    set (w6 := set_sessions
                 (<[avatar_id := <["error" := VStr (str_exn e)]> d1]> (sessions w5)) w5).
    assert (Hh : (session_set avatar_id "status" (VStr "error") ;;;
                  session_set avatar_id "error" (VStr (str_exn e))) w4 = (Ok tt, w6)).
    { erewrite bind_ok by (apply session_set_field; apply lookup_insert_eq).
      apply session_set_field. apply lookup_insert_eq. }
    unfold V2.run_training.
    eapply (try_finally_outcome _ _ w tt w6).
    + rewrite (v2_body_after_await _ _ _ _ _ _ _ _ Hw), Z.eqb_refl.
      erewrite try_except_raise.
      2:{ erewrite bind_ok by exact Hm. cbv iota.
          erewrite bind_ok by (apply session_set_field; exact Hd2). fold S2.
          erewrite bind_raise by exact Hc'. reflexivity. }
      destruct e; try exact Hh.
      exfalso. exact (no_timeout_copy2 _ _ _ _ Hc).
    + intros r w' Hcl.
      destruct (v2_cleanup_spec avatar_id w6) as (r' & w'' & E & Hss & Hfs & _ & _ & Ht).
      rewrite Hcl in E. injection E as <- <-.
      unfold session_field. rewrite Hss, Hfs. simpl. rewrite lookup_insert_eq.
      split; [rewrite lookup_insert_ne by discriminate; apply lookup_insert_eq|].
      split; [apply lookup_insert_eq|].
      split; [exact (shutil_copy2_raise_fs _ _ _ _ _ Hc) | exact Ht].
Qed.

(** X11: the first successful training of an avatar in
    [livetalking_backend_v2.py].  With the trainer's exit code 0, a staged
    result, nothing published yet and a move that works, the staged
    directory becomes the published one.  The session is [ready] only when
    the copy of the reference audio works as well; when the copy raises, the
    session ends in [error] although the avatar stays published.  The copy
    runs with [wav2lip] as working directory, so a relative audio path that
    does not exist below [wav2lip] always ends in [error]. *)
Theorem v2_training_publishes strftime avatar_id video audio text w w1 new :
  v2_await strftime avatar_id video w = (Ok 0, w1) ->
  fs_lookup (fs w1) (results_path ++ [avatar_id]) = Some new ->
  fs_lookup (fs w1) (avatars_path ++ [avatar_id]) = None ->
  is_dir (fs_lookup (fs w1) avatars_path) = true ->
  hd false (fs_faults w1) = false ->
  exists w2,
    V2.move_trained_avatar strftime avatar_id w1 = (Ok true, w2) /\
    fs_lookup (fs w2) (avatars_path ++ [avatar_id]) = Some new /\
    fs_lookup (fs w2) (results_path ++ [avatar_id]) = None /\
    (forall w3,
       shutil_copy2 audio (path_join WAV_DIR (avatar_id +:+ ".wav")) w2 = (Ok tt, w3) ->
       exists r w',
         V2.run_training strftime avatar_id video audio text w = (r, w') /\
         session_field avatar_id "status" w' = Some (VStr "ready") /\
         session_field avatar_id "ref_file" w'
           = Some (VStr ("wav/" +:+ avatar_id +:+ ".wav")) /\
         fs w' = fs w3 /\ training_processes w' !! avatar_id = None) /\
    (forall e w3,
       shutil_copy2 audio (path_join WAV_DIR (avatar_id +:+ ".wav")) w2 = (Raise e, w3) ->
       exists r w',
         V2.run_training strftime avatar_id video audio text w = (r, w') /\
         session_field avatar_id "status" w' = Some (VStr "error") /\
         session_field avatar_id "error" w' = Some (VStr (str_exn e)) /\
         fs w' = fs w2 /\ training_processes w' !! avatar_id = None) /\
    (forall p,
       audio = Rel p ->
       fs_lookup (fs w2) (LIVETALKING_PATH ++ ["wav2lip"] ++ p) = None ->
       exists r w',
         V2.run_training strftime avatar_id video audio text w = (r, w') /\
         session_field avatar_id "status" w' = Some (VStr "error") /\
         fs w' = fs w2).
Proof.
  intros Hw HS HD Hav Hf.
  destruct (v2_move_first strftime avatar_id w1 new HS HD Hav Hf)
    as (w2 & Hm & HD2 & HS2 & Hcwd & _).
  destruct (v2_after_move strftime avatar_id video audio text w w1 w2 Hw Hm) as (Hok & Hraise).
  exists w2. split; [exact Hm|]. split; [exact HD2|]. split; [exact HS2|].
  split; [exact Hok|]. split; [exact Hraise|].
  intros p -> Hp.
  destruct (shutil_copy2_missing (Rel p) (path_join WAV_DIR (avatar_id +:+ ".wav")) w2)
    as (w3 & Hc).
  { simpl. rewrite Hcwd, (v2_await_cwd _ _ _ _ _ _ Hw). rewrite <- app_assoc. exact Hp. }
  destruct (Hraise _ _ Hc) as (r & w' & E & Hst & _ & Hfs & _).
  exists r, w'. auto.
Qed.

Lemma v2_training_publishes_witness :
  fs_lookup (fs world_v2_training) ["uploads"; "a.wav"] = Some (File "RIFF") /\
  exists r w',
    V2.run_training (fun _ => "20250101_000000") "wav2lip256_a" "uploads\a.mp4"
      (Rel ["uploads"; "a.wav"]) "hello" world_v2_training = (r, w') /\
    session_field "wav2lip256_a" "status" w' = Some (VStr "error") /\
    fs_lookup (fs w') (avatars_path ++ ["wav2lip256_a"]) = Some artifact_v2.
Proof.
  split; [vm_compute; reflexivity|].
  set (await := v2_await (fun _ => "20250101_000000") "wav2lip256_a" "uploads\a.mp4"
                  world_v2_training).
  assert (H1 : await = (Ok 0, snd await)) by (vm_compute; reflexivity).
  assert (H2 : fs_lookup (fs (snd await)) (results_path ++ ["wav2lip256_a"])
               = Some artifact_v2) by (vm_compute; reflexivity).
  assert (H3 : fs_lookup (fs (snd await)) (avatars_path ++ ["wav2lip256_a"]) = None)
    by (vm_compute; reflexivity).
  assert (H4 : is_dir (fs_lookup (fs (snd await)) avatars_path) = true)
    by (vm_compute; reflexivity).
  assert (H5 : hd false (fs_faults (snd await)) = false) by (vm_compute; reflexivity).
  destruct (v2_training_publishes (fun _ => "20250101_000000") "wav2lip256_a"
              "uploads\a.mp4" (Rel ["uploads"; "a.wav"]) "hello" _ _ _ H1 H2 H3 H4 H5)
    as (w2 & Hm & HD & _ & _ & _ & Hrel).
  assert (Hw2 : w2 = snd (V2.move_trained_avatar (fun _ => "20250101_000000")
                            "wav2lip256_a" (snd await))) by (rewrite Hm; reflexivity).
  assert (Hp : fs_lookup (fs w2) (LIVETALKING_PATH ++ ["wav2lip"] ++ ["uploads"; "a.wav"])
               = None) by (rewrite Hw2; vm_compute; reflexivity).
  destruct (Hrel _ eq_refl Hp) as (r & w' & E & Hst & Hfs).
  exists r, w'. split; [exact E|]. split; [exact Hst|]. rewrite Hfs. exact HD.
Defined.

(** ** The same in [backend_simple.py] *)

Lemma simple_relocate_ok avatar_id w new :
  let D := avatars_path ++ [avatar_id] in
  let S := results_path ++ [avatar_id] in
  fs_lookup (fs w) S = Some new ->
  (fs_lookup (fs w) D = None /\ is_dir (fs_lookup (fs w) avatars_path) = true \/
   exists entries, fs_lookup (fs w) D = Some (Dir entries)) ->
  fs_faults w = [] ->
  exists w2,
    simple_relocate avatar_id w = (Ok tt, w2) /\
    fs_lookup (fs w2) D = Some new /\ fs_lookup (fs w2) S = None /\
    cwd w2 = cwd w /\ training_status w2 = training_status w.
Proof.
  intros D S HS HDcase Hf.
  assert (Hav : is_dir (fs_lookup (fs w) avatars_path) = true).
  { destruct HDcase as [(_ & H)|(entries & H)]; [exact H|].
    apply (fs_lookup_parent_dir _ _ avatar_id [] (Dir entries)). exact H. }
  destruct HDcase as [(HD & _)|(entries & HD)].
  - assert (M : shutil_move (path_join RESULTS_DIR avatar_id)
                  (path_join AVATARS_DIR avatar_id) w
                = let w2 := set_fs_faults (tl (fs_faults w))
                              (set_trace (trace w ++ [EMove S D]) w) in
                  if hd false (fs_faults w) then (Raise (OSError "move failed"), w2)
                  else (Ok tt, set_fs (fs_put (fs_remove (fs w) S) D new) w2)).
    { refine (shutil_move_rename (path_join RESULTS_DIR avatar_id)
                (path_join AVATARS_DIR avatar_id) w new _ _ _ _).
      - exact HS.
      - exact HD.
      - apply (avatars_not_under_results avatar_id avatar_id []).
      - change (is_dir (fs_lookup (fs w) (parent_dir D)) = true).
        unfold D. rewrite parent_dir_snoc. exact Hav. }
    rewrite Hf in M. simpl hd in M. cbv iota in M.
    eexists. split.
    + unfold simple_relocate. erewrite bind_ok by reflexivity.
      change (lookup_path (path_join AVATARS_DIR avatar_id) w) with (fs_lookup (fs w) D).
      rewrite HD. simpl when. erewrite bind_ok by reflexivity. exact M.
    + split.
      { change (fs_lookup (fs_put (fs_remove (fs w) S) D new) D = Some new).
        unfold D. apply fs_put_lookup_eq. unfold S. rewrite is_dir_avatars_remove_results.
        exact Hav. }
      split.
      { change (fs_lookup (fs_put (fs_remove (fs w) S) D new) S = None).
        unfold D, S. rewrite lookup_results_put. apply fs_remove_lookup_eq. }
      split; reflexivity.
  - assert (Hf1 : hd false (fs_faults w) = false) by (rewrite Hf; reflexivity).
    pose proof (shutil_rmtree_ok (path_join AVATARS_DIR avatar_id) w entries HD Hf1) as R.
    set (w1 := set_fs (fs_remove (fs w) D)
                 (set_fs_faults (tl (fs_faults w)) (set_trace (trace w ++ [ERmtree D]) w))).
    assert (M : shutil_move (path_join RESULTS_DIR avatar_id)
                  (path_join AVATARS_DIR avatar_id) w1
                = let w2 := set_fs_faults (tl (fs_faults w1))
                              (set_trace (trace w1 ++ [EMove S D]) w1) in
                  if hd false (fs_faults w1) then (Raise (OSError "move failed"), w2)
                  else (Ok tt, set_fs (fs_put (fs_remove (fs w1) S) D new) w2)).
    { refine (shutil_move_rename (path_join RESULTS_DIR avatar_id)
                (path_join AVATARS_DIR avatar_id) w1 new _ _ _ _).
      - change (fs_lookup (fs_remove (fs w) D) S = Some new).
        unfold D, S. rewrite lookup_results_remove. exact HS.
      - change (fs_lookup (fs_remove (fs w) D) D = None). apply fs_remove_lookup_eq.
      - apply (avatars_not_under_results avatar_id avatar_id []).
      - change (is_dir (fs_lookup (fs_remove (fs w) D) (parent_dir D)) = true).
        unfold D. rewrite parent_dir_snoc. apply fs_remove_parent_dir. exact Hav. }
    change (hd false (fs_faults w1)) with (hd false (tl (fs_faults w))) in M.
    rewrite Hf in M. simpl hd in M. cbv iota in M.
    eexists. split.
    + unfold simple_relocate. erewrite bind_ok by reflexivity.
      change (lookup_path (path_join AVATARS_DIR avatar_id) w) with (fs_lookup (fs w) D).
      rewrite HD. simpl when. erewrite bind_ok by exact R. exact M.
    + split.
      { change (fs_lookup (fs_put (fs_remove (fs_remove (fs w) D) S) D new) D = Some new).
        unfold D. apply fs_put_lookup_eq. unfold S. rewrite is_dir_avatars_remove_results.
        apply fs_remove_parent_dir. exact Hav. }
      split.
      { change (fs_lookup (fs_put (fs_remove (fs_remove (fs w) D) S) D new) S = None).
        unfold D, S. rewrite lookup_results_put. apply fs_remove_lookup_eq. }
      split; reflexivity.
Qed.

(** X12: a successful training in [backend_simple.py].  With the exit code
    0, a staged result and file operations that work, the staged directory
    becomes the published one, whether or not an older directory was in its
    place.  The status is [completed] only when the copy of the reference
    audio works as well; when that copy raises, the status is [error]
    although the new avatar stays published. *)
Theorem simple_training_publishes avatar_id video audio text w w1 new :
  subprocess_run (Simple.training_cmd avatar_id video) Simple.WAV2LIP_DIR 1800 w
    = (Ok 0, w1) ->
  fs_lookup (fs w1) (results_path ++ [avatar_id]) = Some new ->
  (fs_lookup (fs w1) (avatars_path ++ [avatar_id]) = None /\
   is_dir (fs_lookup (fs w1) avatars_path) = true \/
   exists entries, fs_lookup (fs w1) (avatars_path ++ [avatar_id]) = Some (Dir entries)) ->
  fs_faults w1 = [] ->
  exists w2,
    simple_relocate avatar_id w1 = (Ok tt, w2) /\
    fs_lookup (fs w2) (avatars_path ++ [avatar_id]) = Some new /\
    fs_lookup (fs w2) (results_path ++ [avatar_id]) = None /\
    (forall w3,
       shutil_copy2 audio (path_join WAV_DIR (avatar_id +:+ ".wav")) w2 = (Ok tt, w3) ->
       Simple.run_training avatar_id video audio text w
         = (Ok tt, with_status avatar_id "completed" w3)) /\
    (forall e w3,
       shutil_copy2 audio (path_join WAV_DIR (avatar_id +:+ ".wav")) w2 = (Raise e, w3) ->
       Simple.run_training avatar_id video audio text w
         = (Ok tt, with_status avatar_id "error" w3) /\
       fs w3 = fs w2).
Proof.
  intros Hrun HS HD Hf.
  destruct (simple_relocate_ok avatar_id w1 new HS HD Hf) as (w2 & Hr & HD2 & HS2 & _).
  exists w2. split; [exact Hr|]. split; [exact HD2|]. split; [exact HS2|].
  assert (Hpre : forall (k : M unit) h,
             try_except
               (returncode <- subprocess_run (Simple.training_cmd avatar_id video)
                                Simple.WAV2LIP_DIR 1800 ;;
                if (returncode =? 0)%Z then
                  src_exists <- os_path_exists (path_join RESULTS_DIR avatar_id) ;;
                  if src_exists then
                    dest_exists <- os_path_exists (path_join AVATARS_DIR avatar_id) ;;
                    when dest_exists (shutil_rmtree (path_join AVATARS_DIR avatar_id)) ;;;
                    shutil_move (path_join RESULTS_DIR avatar_id)
                      (path_join AVATARS_DIR avatar_id) ;;;
                    k
                  else Simple.set_status avatar_id "error"
                else Simple.set_status avatar_id "error") h w
             = try_except k h w2).
  { intros k h. rewrite (try_except_bind_ok _ _ _ _ _ _ Hrun). simpl Z.eqb. cbv iota.
    unfold try_except. erewrite bind_ok by reflexivity.
    change (lookup_path (path_join RESULTS_DIR avatar_id) w1)
      with (fs_lookup (fs w1) (results_path ++ [avatar_id])).
    rewrite HS. unfold simple_relocate in Hr.
    apply bind_ok_inv in Hr as (ex & wa & Ea & Hr).
    apply bind_ok_inv in Hr as ([] & wb & Eb & Hr).
    erewrite bind_ok by exact Ea. erewrite bind_ok by exact Eb.
    erewrite bind_ok by exact Hr. reflexivity. }
  split.
  - intros w3 Hc. unfold Simple.run_training. rewrite Hpre.
    apply try_except_ok. erewrite bind_ok by exact Hc. reflexivity.
  - intros e w3 Hc. split; [|exact (shutil_copy2_raise_fs _ _ _ _ _ Hc)].
    unfold Simple.run_training. rewrite Hpre.
    erewrite try_except_raise; [|erewrite bind_raise by exact Hc; reflexivity].
    reflexivity.
Qed.

Lemma simple_training_publishes_witness :
  exists w',
    Simple.run_training "wav2lip256_a" "uploads\a.mp4" (Rel ["uploads"; "a.wav"]) "hello"
      world_v2_training = (Ok tt, w') /\
    training_status w' !! "wav2lip256_a" = Some "completed" /\
    fs_lookup (fs w') (avatars_path ++ ["wav2lip256_a"]) = Some artifact_v2 /\
    fs_lookup (fs w') (LIVETALKING_PATH ++ ["wav"; "wav2lip256_a.wav"]) = Some (File "RIFF").
Proof.
  set (run := subprocess_run (Simple.training_cmd "wav2lip256_a" "uploads\a.mp4")
                Simple.WAV2LIP_DIR 1800 world_v2_training).
  assert (H1 : run = (Ok 0, snd run)) by (vm_compute; reflexivity).
  assert (H2 : fs_lookup (fs (snd run)) (results_path ++ ["wav2lip256_a"])
               = Some artifact_v2) by (vm_compute; reflexivity).
  assert (H3 : fs_lookup (fs (snd run)) (avatars_path ++ ["wav2lip256_a"]) = None /\
               is_dir (fs_lookup (fs (snd run)) avatars_path) = true \/
               exists entries, fs_lookup (fs (snd run)) (avatars_path ++ ["wav2lip256_a"])
                               = Some (Dir entries))
    by (left; split; vm_compute; reflexivity).
  assert (H4 : fs_faults (snd run) = []) by (vm_compute; reflexivity).
  destruct (simple_training_publishes "wav2lip256_a" "uploads\a.mp4"
              (Rel ["uploads"; "a.wav"]) "hello" _ _ _ H1 H2 H3 H4)
    as (w2 & Hr & _ & _ & Hok & _).
  assert (Hw2 : w2 = snd (simple_relocate "wav2lip256_a" (snd run)))
    by (rewrite Hr; reflexivity).
  set (copy := shutil_copy2 (Rel ["uploads"; "a.wav"])
                 (path_join WAV_DIR ("wav2lip256_a" +:+ ".wav")) w2).
  assert (Hc : copy = (Ok tt, snd copy)) by (unfold copy; rewrite Hw2; vm_compute; reflexivity).
  exists (with_status "wav2lip256_a" "completed" (snd copy)).
  split; [exact (Hok _ Hc)|].
  unfold copy. rewrite Hw2. repeat split; vm_compute; reflexivity.
Defined.

(** ** Starting and then stopping *)

(** X13: in [backend_simple.py] and [livetalking_backend_v2.py] a stop that
    follows a successful start kills the process the start has spawned and
    empties its slot in [running_processes], so that a further stop answers
    [not_running]; in v2 the session is reset as by any stop. *)
Theorem start_then_stop strftime (request : Simple.StartRequest) name w resp w1 :
  (Simple.start_avatar request w = (Ok resp, w1) ->
   exists pid w2,
     resp = running_simple (Simple.start_avatar_id request) pid /\
     Simple.stop_avatar (Simple.start_avatar_id request) w1 = (Ok stopped_simple, w2) /\
     is_alive pid w2 = false /\
     running_processes w2 = delete (Simple.start_avatar_id request) (running_processes w1) /\
     Simple.stop_avatar (Simple.start_avatar_id request) w2 = (Ok not_running_simple, w2)) /\
  (V2.start_avatar strftime name w = (Ok resp, w1) ->
   exists pid w2,
     running_processes w1 !! name = Some pid /\
     V2.stop_avatar name w1 = (Ok (stopped_v2 name pid), w2) /\
     is_alive pid w2 = false /\
     running_processes w2 = delete name (running_processes w1) /\
     sessions w2 = sessions_after_stop name (sessions w1) /\
     V2.stop_avatar name w2 = (Ok not_running_v, w2)).
Proof.
  split.
  - intros H.
    destruct (simple_start_ok_inv request w resp w1 H) as (n & pid & _ & Hr & Ha & Hresp & _).
    destruct (simple_stop_alive _ pid w1 Hr Ha) as (w2 & tail & Hs & _ & _ & _ & Hd & _ & Hrp).
    exists pid, w2. split; [exact Hresp|]. split; [exact Hs|]. split; [exact Hd|].
    split; [exact Hrp|]. apply simple_stop_absent. rewrite Hrp. apply lookup_delete_eq.
  - intros H.
    destruct (v2_start_ok_inv strftime name w resp w1 H) as (n & pid & _ & Hr & Ha).
    destruct (v2_stop_registered name pid w1 Hr)
      as (wk & w2 & Hk & Hs & Hos & Hrp & Hss & _).
    destruct (kill_process_tree_total pid w1) as (wk' & Hk' & _ & Hdead).
    rewrite Hk in Hk'. injection Hk' as <-.
    exists pid, w2. split; [exact Hr|]. split; [exact Hs|].
    split; [rewrite (is_alive_same wk w2 pid); [exact Hdead | apply Hos | apply Hos]|].
    split; [exact Hrp|]. split; [exact Hss|].
    apply v2_stop_absent. rewrite Hrp. apply lookup_delete_eq.
Qed.

Lemma start_then_stop_witness :
  let request := start_request_a in
  let w := set_programs [Some (Program None 0 true [])]
             (set_running_processes ∅ (set_procs ∅ world_serving)) in
  exists pid w2,
    Simple.stop_avatar "wav2lip256_a" (snd (Simple.start_avatar request w))
      = (Ok stopped_simple, w2) /\
    is_alive pid w2 = false.
Proof.
  intros request w.
  assert (H : Simple.start_avatar request w
              = (Ok (running_simple "wav2lip256_a" 1), snd (Simple.start_avatar request w)))
    by (vm_compute; reflexivity).
  destruct (proj1 (start_then_stop (fun _ => EmptyString) request "wav2lip256_a" w _ _) H)
    as (pid & w2 & _ & Hs & Hd & _).
  exists pid, w2. split; assumption.
Defined.

(** ** Sessions of [livetalking_backend.py] *)

Lemma v1_start_handler_raises sid e w :
  exists e' w',
    ((session_set sid "status" (VStr "error") ;;;
      raise (HTTPException 500 ("启动失败: " +:+ str_exn e))) : M pydict) w
    = (Raise e', w').
Proof. unfold bind, session_set, raise. destruct (sessions w !! sid); eauto. Qed.

Lemma session_get_ok_inv sid key w v w1 :
  session_get sid key w = (Ok v, w1) -> w1 = w /\ session_field sid key w = Some v.
Proof.
  unfold session_get, session_field. destruct (sessions w !! sid) as [d|]; [|discriminate].
  destruct (d !! key); [|discriminate]. intros [= <- <-]. split; reflexivity.
Qed.

(** What a successful [start_avatar] has found and done. *)
Lemma v1_start_ok_inv sid w resp w1 :
  V1.start_avatar sid w = (Ok resp, w1) ->
  exists d pid,
    sessions w !! sid = Some d /\ d !! "status" = Some (VStr "ready") /\
    running_processes w !! sid = None /\
    sessions w1
      = <[sid := <["pid" := VInt (Z.of_nat pid)]> (<["status" := VStr "running"]> d)]>
          (sessions w) /\
    running_processes w1 = <[sid := pid]> (running_processes w) /\
    training_processes w1 = training_processes w /\
    is_alive pid w1 = true /\
    resp !! "pid" = Some (VInt (Z.of_nat pid)).
Proof.
  intros H. unfold V1.start_avatar in H.
  inv_bind H ss w0 E. inv_pure E ss w0.
  destruct (sessions w !! sid) as [d|] eqn:Hd.
  2:{ rewrite bool_decide_false in H by (intros [? ?]; discriminate).
      cbv [negb when] in H. inv_bind H u w0 E. discriminate. }
  rewrite bool_decide_true in H by eauto. cbv [negb when] in H.
  inv_bind H u w0 E. inv_pure E u w0.
  inv_bind H status w0 E. apply session_get_ok_inv in E as (-> & Hst).
  unfold session_field in Hst. rewrite Hd in Hst.
  inv_bind H u0 w0 E.
  destruct (bool_decide (status = VStr "ready")) eqn:Hb; cbv [negb when] in E; [|discriminate].
  apply bool_decide_eq_true in Hb. subst status. inv_pure E u0 w0.
  inv_bind H rp w0 E. inv_pure E rp w0.
  inv_bind H u1 w0 E.
  destruct (running_processes w !! sid) as [q|] eqn:Hrp.
  { rewrite bool_decide_true in E by eauto. discriminate. }
  rewrite bool_decide_false in E by (intros [? ?]; discriminate). inv_pure E u1 w0.
  unfold try_finally in H.
  destruct (try_except _ _ w) as [r wb] eqn:Et.
  destruct (bind (gets script_dir) _ wb) as [[[]|e] wc] eqn:Ec; [|discriminate].
  injection H as -> ->.
  inv_bind Ec sd w0 E. inv_pure E sd w0. apply os_chdir_ok_inv in Ec as (_ & Hw1).
  unfold try_except in Et.
  destruct (bind (os_chdir (Abs LIVETALKING_PATH)) _ w) as [[r|e] wb'] eqn:Eb.
  2:{ cbv beta iota delta [except_Exception] in Et.
      match type of Et with
      | ?t = _ => assert (Hr : exists e' w', t = (Raise e', w'))
                    by apply (v1_start_handler_raises sid e wb')
      end.
      destruct Hr as (e' & w' & Hr). rewrite Hr in Et. discriminate. }
  injection Et as -> ->.
  inv_bind Eb u2 w3 E. apply os_chdir_ok_inv in E as (_ & Hw3).
  assert (D3 : sessions w3 = sessions w /\ running_processes w3 = running_processes w /\
               training_processes w3 = training_processes w)
    by (rewrite Hw3; repeat split).
  clear Hw3.
  inv_bind Eb avatar_id w4 E. apply session_get_ok_inv in E as (-> & _).
  inv_bind Eb ref_file w4 E. apply session_get_ok_inv in E as (-> & _).
  inv_bind Eb ref_text w4 E. apply session_get_ok_inv in E as (-> & _).
  inv_bind Eb u3 w5 E. apply open_w_ok_inv in E as Hw5; try clear E.
  assert (D5 : sessions w5 = sessions w /\ running_processes w5 = running_processes w /\
               training_processes w5 = training_processes w)
    by (rewrite Hw5; exact D3).
  clear Hw5 D3.
  inv_bind Eb pid w6 E. apply Popen_ok_inv in E as (pr & rest & tbl & _ & _ & Hw6).
  assert (D6 : sessions w6 = sessions w /\ running_processes w6 = running_processes w /\
               training_processes w6 = training_processes w)
    by (rewrite Hw6; exact D5).
  clear Hw6 D5.
  inv_bind Eb u4 w7 E. apply modify_ok_inv in E as Hw7; try clear E.
  assert (D7 : sessions w7 = sessions w /\
               running_processes w7 = <[sid := pid]> (running_processes w) /\
               training_processes w7 = training_processes w).
  { rewrite Hw7. destruct D6 as (D6a & D6b & D6c). simpl. rewrite D6b. auto. }
  clear Hw7 D6.
  inv_bind Eb u5 w8 E. apply session_set_ok_inv in E as (d1 & Hd1 & Hw8).
  destruct D7 as (D7a & D7b & D7c). rewrite D7a, Hd in Hd1. injection Hd1 as <-.
  assert (D8 : sessions w8 = <[sid := <["status" := VStr "running"]> d]> (sessions w) /\
               running_processes w8 = <[sid := pid]> (running_processes w) /\
               training_processes w8 = training_processes w).
  { rewrite Hw8. simpl. rewrite D7a. auto. }
  clear Hw8 D7a D7b D7c.
  inv_bind Eb u6 w9 E. apply session_set_ok_inv in E as (d2 & Hd2 & Hw9).
  destruct D8 as (D8a & D8b & D8c). rewrite D8a, lookup_insert_eq in Hd2. injection Hd2 as <-.
  assert (D9 : sessions w9
                 = <[sid := <["pid" := VInt (Z.of_nat pid)]>
                              (<["status" := VStr "running"]> d)]> (sessions w) /\
               running_processes w9 = <[sid := pid]> (running_processes w) /\
               training_processes w9 = training_processes w).
  { rewrite Hw9. simpl. rewrite D8a, insert_insert_eq. auto. }
  clear Hw9 D8a D8b D8c.
  inv_bind Eb u7 w10 E. apply time_sleep_ok_inv in E as Hw10; try clear E.
  assert (D10 : sessions w10 = sessions w9 /\ running_processes w10 = running_processes w9 /\
                training_processes w10 = training_processes w9)
    by (rewrite Hw10; repeat split).
  clear Hw10.
  inv_bind Eb rc w11 E. inv_pure E rc w11.
  destruct (poll pid w10) eqn:Hpoll.
  { inv_bind Eb u8 w0 E.
    rewrite bool_decide_false in E by discriminate. cbv [negb when] in E.
    inv_bind E u9 w2 E1. inv_bind E u10 w13 E2. discriminate. }
  rewrite bool_decide_true in Eb by reflexivity. cbv [negb when] in Eb.
  inv_bind Eb u8 w0 E. inv_pure E u8 w0. inv_pure Eb resp wb.
  exists d, pid. destruct D9 as (D9a & D9b & D9c). destruct D10 as (D10a & D10b & D10c).
  split; [reflexivity|]. split; [exact Hst|]. split; [reflexivity|].
  rewrite Hw1. simpl.
  split; [congruence|]. split; [congruence|]. split; [congruence|].
  split; [|reflexivity].
  unfold is_alive, poll. simpl. unfold poll in Hpoll. rewrite Hpoll. reflexivity.
Qed.

(** A stop undoes what the start has written into the record of a session
    that was ready and had no [pid]. *)
Lemma session_reset (d : pydict) (v : pyval) :
  d !! "status" = Some (VStr "ready") -> d !! "pid" = None ->
  delete "pid" (<["status" := VStr "ready"]> (<["pid" := v]> (<["status" := VStr "running"]> d)))
  = d.
Proof.
  intros Hs Hp. apply map_eq. intros k.
  destruct (decide (k = "pid")) as [->|Hk1].
  - rewrite lookup_delete_eq. symmetry. exact Hp.
  - rewrite lookup_delete_ne by congruence.
    destruct (decide (k = "status")) as [->|Hk2].
    + rewrite lookup_insert_eq. symmetry. exact Hs.
    + rewrite !lookup_insert_ne by congruence. reflexivity.
Qed.

(** X14: in [livetalking_backend.py] a stop that follows a successful start
    kills the process the start has spawned and brings the dictionaries back
    to what they were before the start: the session is [ready] again and
    has no [pid], and the slot in [running_processes] is empty. *)
Theorem v1_start_stop_round_trip sid w resp w1 :
  V1.start_avatar sid w = (Ok resp, w1) ->
  session_field sid "pid" w = None ->
  exists pid w2,
    resp !! "pid" = Some (VInt (Z.of_nat pid)) /\
    session_field sid "status" w1 = Some (VStr "running") /\
    V1.stop_avatar sid w1 = (Ok (stopped_v1 sid pid), w2) /\
    is_alive pid w2 = false /\
    sessions w2 = sessions w /\
    running_processes w2 = running_processes w /\
    training_processes w2 = training_processes w.
Proof.
  intros H Hnopid.
  destruct (v1_start_ok_inv sid w resp w1 H)
    as (d & pid & Hd & Hst & Hrp & Hs1 & Hr1 & Ht1 & Ha & Hresp).
  unfold session_field in Hnopid. rewrite Hd in Hnopid.
  assert (Hreg : running_processes w1 !! sid = Some pid)
    by (rewrite Hr1; apply lookup_insert_eq).
  destruct (v1_stop_registered sid pid w1 Hreg)
    as (wk & w2 & Hk & Hs & Hos & Hrp2 & Hss2 & Htp2 & _).
  destruct (kill_process_tree_total pid w1) as (wk' & Hk' & _ & Hdead).
  rewrite Hk in Hk'. injection Hk' as <-.
  exists pid, w2. split; [exact Hresp|].
  split.
  { unfold session_field. rewrite Hs1, lookup_insert_eq.
    rewrite lookup_insert_ne by discriminate. apply lookup_insert_eq. }
  split; [exact Hs|].
  split; [rewrite (is_alive_same wk w2 pid); [exact Hdead | apply Hos | apply Hos]|].
  split.
  { rewrite Hss2. unfold sessions_after_stop. rewrite Hs1, lookup_insert_eq.
    rewrite insert_insert_eq, (session_reset d _ Hst Hnopid).
    apply insert_id. exact Hd. }
  split; [rewrite Hrp2, Hr1; apply delete_insert_id; exact Hrp | congruence].
Qed.

Lemma v1_start_stop_round_trip_witness :
  exists pid w2,
    V1.stop_avatar "s1" (snd (V1.start_avatar "s1" world_v1_idle))
      = (Ok (stopped_v1 "s1" pid), w2) /\
    sessions w2 = sessions world_v1_idle.
Proof.
  set (start := V1.start_avatar "s1" world_v1_idle).
  assert (H : start = (Ok (list_to_map [("status", VStr "started");
                                       ("session_id", VStr "s1");
                                       ("pid", VInt 1);
                                       ("webrtc_url", VStr "http://localhost:8010")]
                           : pydict), snd start))
    by (vm_compute; reflexivity).
  assert (Hp : session_field "s1" "pid" world_v1_idle = None) by (vm_compute; reflexivity).
  destruct (v1_start_stop_round_trip "s1" world_v1_idle _ (snd start) H Hp)
    as (pid & w2 & _ & _ & Hs & _ & Hss & _).
  exists pid, w2. split; assumption.
Defined.

(** X15: in [livetalking_backend.py], once [chat_with_avatar] has found
    that the serving process has exited, it drops the slot in
    [running_processes], marks the session [error] and answers 400; from
    then on [stop_avatar] answers [not_running] and [start_avatar] refuses
    with 400 because the session is not [ready].  A [stop_avatar] issued
    instead of the chat makes the session [ready] again. *)
Theorem v1_exited_session_after_chat sid message w pid :
  is_Some (sessions w !! sid) ->
  running_processes w !! sid = Some pid ->
  is_alive pid w = false ->
  (exists w1,
     V1.chat_with_avatar sid message w
       = (Raise (HTTPException 400 "数字人进程已退出"), w1) /\
     running_processes w1 = delete sid (running_processes w) /\
     session_field sid "status" w1 = Some (VStr "error") /\
     V1.stop_avatar sid w1 = (Ok not_running_v, w1) /\
     V1.start_avatar sid w1 = (Raise (HTTPException 400 "会话未就绪: error"), w1)) /\
  (exists w2,
     V1.stop_avatar sid w = (Ok (stopped_v1 sid pid), w2) /\
     running_processes w2 = delete sid (running_processes w) /\
     session_field sid "status" w2 = Some (VStr "ready")).
Proof.
  intros [d Hd] Hrp Ha.
  assert (Hp : bool_decide (poll pid w = None) = false)
    by (rewrite poll_alive; exact Ha).
  split.
  - set (w0 := set_running_processes (delete sid (running_processes w)) w).
    set (w1 := set_sessions (<[sid := <["status" := VStr "error"]> d]> (sessions w0)) w0).
    exists w1.
    assert (Hst : session_field sid "status" w1 = Some (VStr "error")).
    { unfold session_field. simpl. rewrite lookup_insert_eq. apply lookup_insert_eq. }
    split.
    { unfold V1.chat_with_avatar. erewrite bind_ok by reflexivity.
      rewrite Hd, bool_decide_true by eauto. cbv [negb when].
      erewrite bind_ok by reflexivity. erewrite bind_ok by reflexivity.
      rewrite Hrp. erewrite bind_ok by reflexivity. rewrite Hp. cbv [negb when].
      erewrite bind_raise; [reflexivity|].
      erewrite bind_ok by (apply (del_running_processes_ok sid pid); exact Hrp).
      erewrite bind_ok by (apply session_set_field; exact Hd). reflexivity. }
    split; [reflexivity|]. split; [exact Hst|].
    split; [apply v1_stop_absent; apply lookup_delete_eq|].
    unfold V1.start_avatar. erewrite bind_ok by reflexivity.
    change (sessions w1 !! sid) with
      ((<[sid := <["status" := VStr "error"]> d]> (sessions w)) !! sid).
    rewrite lookup_insert_eq, bool_decide_true by eauto. cbv [negb when].
    erewrite bind_ok by reflexivity.
    erewrite bind_ok.
    2:{ unfold session_get.
        change (sessions w1 !! sid) with
          ((<[sid := <["status" := VStr "error"]> d]> (sessions w)) !! sid).
        rewrite lookup_insert_eq, lookup_insert_eq. reflexivity. }
    rewrite bool_decide_false by discriminate. reflexivity.
  - destruct (v1_stop_registered sid pid w Hrp)
      as (wk & w2 & _ & Hs & _ & Hrp2 & Hss2 & _).
    exists w2. split; [exact Hs|]. split; [exact Hrp2|].
    unfold session_field. rewrite Hss2. unfold sessions_after_stop. rewrite Hd.
    rewrite lookup_insert_eq, lookup_delete_ne by discriminate. apply lookup_insert_eq.
Qed.

Lemma v1_exited_session_after_chat_witness :
  exists w1,
    V1.chat_with_avatar "s1" "hello" world_v1_stale
      = (Raise (HTTPException 400 "数字人进程已退出"), w1) /\
    V1.start_avatar "s1" w1 = (Raise (HTTPException 400 "会话未就绪: error"), w1).
Proof.
  assert (H1 : is_Some (sessions world_v1_stale !! "s1")) by (eexists; apply lookup_singleton_eq).
  assert (H2 : running_processes world_v1_stale !! "s1" = Some 1%nat)
    by (vm_compute; reflexivity).
  assert (H3 : is_alive 1 world_v1_stale = false) by (vm_compute; reflexivity).
  destruct (proj1 (v1_exited_session_after_chat "s1" "hello" world_v1_stale 1 H1 H2 H3))
    as (w1 & Hc & _ & _ & _ & Hs).
  exists w1. split; assumption.
Defined.

(** ** Deleting a session *)

Lemma del_sessions_ok key d w :
  sessions w !! key = Some d ->
  del_sessions key w = (Ok tt, set_sessions (delete key (sessions w)) w).
Proof. intros H. unfold del_sessions. rewrite H. reflexivity. Qed.

Lemma del_training_processes_ok key pid w :
  training_processes w !! key = Some pid ->
  del_training_processes key w =
    (Ok tt, set_training_processes (delete key (training_processes w)) w).
Proof. intros H. unfold del_training_processes. rewrite H. reflexivity. Qed.

(** The first step of [delete_session]: the serving process, if one is
    registered, is stopped. *)
Lemma v1_delete_stops sid d w :
  sessions w !! sid = Some d ->
  exists w1,
    (when (bool_decide (is_Some (running_processes w !! sid)))
       (V1.stop_avatar sid ;;; ret tt)) w = (Ok tt, w1) /\
    fs w1 = fs w /\ background w1 = background w /\
    training_processes w1 = training_processes w /\
    running_processes w1 = delete sid (running_processes w) /\
    is_Some (sessions w1 !! sid) /\
    delete sid (sessions w1) = delete sid (sessions w) /\
    (forall pid, running_processes w !! sid = Some pid -> is_alive pid w1 = false) /\
    (forall p, is_alive p w = false -> is_alive p w1 = false).
Proof.
  intros Hd. destruct (running_processes w !! sid) as [pid|] eqn:Hrp.
  - rewrite bool_decide_true by eauto. cbv [when].
    destruct (v1_stop_registered sid pid w Hrp)
      as (wk & w1 & Hk & Hs & Hos & Hrp1 & Hss1 & Htp1 & _ & Hbg1).
    destruct (kill_process_tree_total pid w) as (wk' & Hk' & Hdec & Hdead).
    rewrite Hk in Hk'. injection Hk' as <-.
    destruct Hos as (Hp & Hc & _ & Hfs & _).
    exists w1. split; [erewrite bind_ok by exact Hs; reflexivity|].
    split; [rewrite Hfs; apply Hdec|]. split; [exact Hbg1|]. split; [exact Htp1|].
    split; [exact Hrp1|].
    rewrite Hss1. unfold sessions_after_stop. rewrite Hd.
    split; [rewrite lookup_insert_eq; eauto|].
    split; [apply delete_insert_eq|].
    split.
    + intros q [= <-]. rewrite (is_alive_same wk w1 pid Hp Hc). exact Hdead.
    + intros p Hpd. rewrite (is_alive_same wk w1 p Hp Hc). eapply decays_dead; eauto.
  - rewrite bool_decide_false by (intros [? ?]; discriminate). cbv [when].
    exists w. split; [reflexivity|]. repeat split; eauto.
    + symmetry. apply delete_id. exact Hrp.
    + intros pid [=].
Qed.

(** The second step: the trainer, if one is registered, is killed. *)
Lemma v1_delete_kills_trainer sid w :
  exists w2,
    (match training_processes w !! sid with
     | Some process => kill_process_tree process ;;; del_training_processes sid
     | None => ret tt
     end) w = (Ok tt, w2) /\
    fs w2 = fs w /\ background w2 = background w /\ sessions w2 = sessions w /\
    running_processes w2 = running_processes w /\
    training_processes w2 = delete sid (training_processes w) /\
    (forall pid, training_processes w !! sid = Some pid -> is_alive pid w2 = false) /\
    (forall p, is_alive p w = false -> is_alive p w2 = false).
Proof.
  destruct (training_processes w !! sid) as [pid|] eqn:Htp.
  - destruct (kill_process_tree_total pid w) as (wk & Hk & Hdec & Hdead).
    pose proof Hdec as (Hfr & _).
    destruct Hfr as (Hfs & _ & _ & _ & _ & Hss & Hrp & Htp' & _ & Hbg).
    eexists. split.
    { erewrite bind_ok by exact Hk. apply (del_training_processes_ok sid pid).
      rewrite Htp'. exact Htp. }
    simpl. rewrite Htp'. repeat split; auto.
    + intros q [= <-]. exact Hdead.
    + intros p Hp. change (is_alive p wk = false). eapply decays_dead; eauto.
  - exists w. split; [reflexivity|]. repeat split; auto.
    + symmetry. apply delete_id. exact Htp.
    + intros pid [=].
Qed.

(** X16: [delete_session] of [livetalking_backend.py] answers 404 for an
    unknown session and changes nothing.  For a known one it never raises:
    the serving process and the trainer registered for the session are
    killed, the session and both registry slots are removed, the file system
    and the queue of background tasks are left alone (a training that is
    still queued is not cancelled), and a later [get_session] answers
    404. *)
Theorem v1_delete_session_removes_all sid w :
  (sessions w !! sid = None ->
   V1.delete_session sid w = (Raise (HTTPException 404 "会话不存在"), w)) /\
  (is_Some (sessions w !! sid) ->
   exists w',
     V1.delete_session sid w
       = (Ok (list_to_map [("status", VStr "deleted"); ("session_id", VStr sid)]), w') /\
     sessions w' = delete sid (sessions w) /\
     running_processes w' = delete sid (running_processes w) /\
     training_processes w' = delete sid (training_processes w) /\
     (forall pid, running_processes w !! sid = Some pid -> is_alive pid w' = false) /\
     (forall pid, training_processes w !! sid = Some pid -> is_alive pid w' = false) /\
     fs w' = fs w /\ background w' = background w /\
     V1.get_session sid w' = (Raise (HTTPException 404 "会话不存在"), w')).
Proof.
  split.
  - intros Hn. unfold V1.delete_session. erewrite bind_ok by reflexivity.
    rewrite Hn, bool_decide_false by (intros [? ?]; discriminate). reflexivity.
  - intros [d Hd].
    destruct (v1_delete_stops sid d w Hd)
      as (w1 & E1 & Hfs1 & Hbg1 & Htp1 & Hrp1 & [d1 Hd1] & Hss1 & Hdead1 & _).
    destruct (v1_delete_kills_trainer sid w1)
      as (w2 & E2 & Hfs2 & Hbg2 & Hss2 & Hrp2 & Htp2 & Hdead2 & Hmono2).
    set (w3 := set_sessions (delete sid (sessions w2)) w2).
    exists w3. split.
    { unfold V1.delete_session. erewrite bind_ok by reflexivity.
      rewrite Hd, bool_decide_true by eauto. cbv [negb when].
      erewrite bind_ok by reflexivity. erewrite bind_ok by reflexivity.
      erewrite bind_ok by exact E1. erewrite bind_ok by reflexivity.
      erewrite bind_ok by exact E2.
      erewrite bind_ok by (apply (del_sessions_ok sid d1); rewrite Hss2; exact Hd1).
      reflexivity. }
    split; [simpl; rewrite Hss2; exact Hss1|].
    split; [simpl; congruence|]. split; [simpl; congruence|].
    split; [intros pid Hp; apply (Hmono2 pid), Hdead1, Hp|].
    split; [intros pid Hp; apply (Hdead2 pid); rewrite Htp1; exact Hp|].
    split; [simpl; congruence|]. split; [simpl; congruence|].
    unfold V1.get_session. erewrite bind_ok by reflexivity.
    simpl. rewrite lookup_delete_eq. reflexivity.
Qed.

Lemma v1_delete_session_removes_all_witness :
  exists w',
    V1.delete_session "s1" world_v1_stale
      = (Ok (list_to_map [("status", VStr "deleted"); ("session_id", VStr "s1")]), w') /\
    V1.get_session "s1" w' = (Raise (HTTPException 404 "会话不存在"), w').
Proof.
  assert (H1 : is_Some (sessions world_v1_stale !! "s1"))
    by (eexists; apply lookup_singleton_eq).
  destruct (proj2 (v1_delete_session_removes_all "s1" world_v1_stale) H1)
    as (w' & E & _ & _ & _ & _ & _ & _ & _ & Hg).
  exists w'. split; assumption.
Defined.

(** ** Making a video from an image *)

(** X17: [generate_video_from_image] never raises.  When [ffmpeg] cannot be
    started the answer is [False] and nothing has happened; when it has been
    started the answer is [True] exactly when it has exited with the code 0
    within thirty seconds, and in every case it is no longer running
    afterwards (on a timeout it is killed). *)
Theorem generate_video_never_raises image_path output_path w :
  exists b w',
    V1.generate_video_from_image image_path output_path w = (Ok b, w') /\
    (forall e w0,
       Popen (V1.ffmpeg_cmd image_path output_path) (Rel []) w = (Raise e, w0) ->
       b = false /\ procs w' = procs w /\ clock w' = clock w) /\
    (forall pid w0,
       Popen (V1.ffmpeg_cmd image_path output_path) (Rel []) w = (Ok pid, w0) ->
       is_alive pid w' = false /\
       (b = true <-> poll pid w' = Some 0) /\
       (clock w <= clock w' <= clock w + 30)%nat /\
       (forall c, c <> pid -> procs w' !! c = procs w0 !! c)).
Proof.
  unfold V1.generate_video_from_image, subprocess_run.
  destruct (Popen (V1.ffmpeg_cmd image_path output_path) (Rel []) w) as [[pid|e] w0] eqn:Ep.
  - assert (Hc0 : clock w0 = clock w).
    { apply Popen_ok_inv in Ep as (pr & rest & tbl & _ & _ & ->). reflexivity. }
    destruct (popen_wait pid 30 w0) as [rw w1] eqn:Ew.
    pose proof (popen_wait_inv _ _ _ _ _ Ew) as (Hres & Hp1 & _ & _ & _ & _ & Hc1).
    destruct (poll pid w1) as [rc|] eqn:Hpoll.
    + subst rw.
      assert (Hrun : (pid <- Popen (V1.ffmpeg_cmd image_path output_path) (Rel []) ;;
                      try_except (popen_wait pid 30)
                        (fun e => match e with
                                  | SubprocessTimeoutExpired =>
                                      Some (popen_kill pid ;;; raise SubprocessTimeoutExpired)
                                  | _ => None
                                  end)) w = (Ok rc, w1)).
      { erewrite bind_ok by exact Ep. apply try_except_ok. exact Ew. }
      exists (rc =? 0), w1. split.
      { apply try_except_ok. erewrite bind_ok by exact Hrun.
        destruct (rc =? 0); reflexivity. }
      split; [intros e w0' [=]|].
      intros pid' w0' [= <- <-].
      split; [unfold is_alive; rewrite Hpoll; reflexivity|].
      split.
      { rewrite Hpoll, Z.eqb_eq. split; [intros ->; reflexivity | intros [= ->]; reflexivity]. }
      split; [lia|]. intros c _. rewrite Hp1. reflexivity.
    + subst rw.
      destruct (popen_kill pid w1) as [rk w2] eqn:Ek.
      assert (Hk : rk = Ok tt /\ is_alive pid w2 = false /\ clock w2 = clock w1 /\
                   forall c, c <> pid -> procs w2 !! c = procs w1 !! c).
      { unfold popen_kill, bind, log, modify in Ek. simpl in Ek.
        unfold poll in Hpoll.
        destruct (procs w1 !! pid) as [p|] eqn:Hpp; [|discriminate].
        assert (Hal : proc_alive (clock w1) p = true).
        { unfold proc_alive. destruct (returncode (clock w1) p); [discriminate | reflexivity]. }
        rewrite Hal in Ek. injection Ek as <- <-.
        split; [reflexivity|]. split.
        { unfold is_alive, poll. simpl. rewrite lookup_insert_eq. reflexivity. }
        split; [reflexivity|].
        intros c Hne. simpl. rewrite lookup_insert_ne by congruence. reflexivity. }
      destruct Hk as (-> & Hdead & Hc2 & Ho).
      assert (Hrun : (pid <- Popen (V1.ffmpeg_cmd image_path output_path) (Rel []) ;;
                      try_except (popen_wait pid 30)
                        (fun e => match e with
                                  | SubprocessTimeoutExpired =>
                                      Some (popen_kill pid ;;; raise SubprocessTimeoutExpired)
                                  | _ => None
                                  end)) w = (Raise SubprocessTimeoutExpired, w2)).
      { erewrite bind_ok by exact Ep. erewrite try_except_raise by exact Ew.
        cbv beta iota. erewrite bind_ok by exact Ek. reflexivity. }
      exists false, w2. split.
      { erewrite try_except_raise; [reflexivity|].
        erewrite bind_raise by exact Hrun. reflexivity. }
      split; [intros e w0' [=]|].
      intros pid' w0' [= <- <-].
      split; [exact Hdead|]. split.
      { split; [discriminate|]. intros Hz. unfold is_alive in Hdead.
        rewrite Hz in Hdead. exfalso.
        assert (Hx : poll pid w2 = Some (- signum SIGKILL)).
        { clear Hz. unfold popen_kill, bind, log, modify in Ek. simpl in Ek.
          unfold poll in Hpoll |- *.
          destruct (procs w1 !! pid) as [p|] eqn:Hpp; [|discriminate].
          assert (Hal : proc_alive (clock w1) p = true).
          { unfold proc_alive. destruct (returncode (clock w1) p);
              [discriminate | reflexivity]. }
          rewrite Hal in Ek. injection Ek as <-. simpl. rewrite lookup_insert_eq.
          reflexivity. }
        rewrite Hx in Hz. discriminate. }
      split; [lia|]. intros c Hne. rewrite (Ho c Hne), Hp1. reflexivity.
  - exists false, w0. split.
    { erewrite try_except_raise; [reflexivity|].
      erewrite bind_raise; [reflexivity|]. erewrite bind_raise by exact Ep. reflexivity. }
    split; [|intros pid w0' [=]].
    intros e' w0' _. split; [reflexivity|].
    unfold Popen in Ep. destruct (negb _); [injection Ep as _ <-; split; reflexivity|].
    destruct (programs w) as [|[pr|] rest]; try (injection Ep as _ <-; split; reflexivity).
    destruct (spawn_program _ _ _ _). discriminate.
Qed.

Lemma generate_video_never_raises_witness :
  let w := set_programs [Some (Program None 0 false [])]
             (set_fs (tree_with [["uploads"]]) empty_world) in
  exists w',
    V1.generate_video_from_image "uploads\a.png" "uploads\a.mp4" w = (Ok false, w') /\
    is_alive 1 w' = false.
Proof.
  intros w.
  destruct (generate_video_never_raises "uploads\a.png" "uploads\a.mp4" w)
    as (b & w' & E & _ & H).
  assert (Hp : Popen (V1.ffmpeg_cmd "uploads\a.png" "uploads\a.mp4") (Rel []) w
               = (Ok 1%nat, snd (Popen (V1.ffmpeg_cmd "uploads\a.png" "uploads\a.mp4")
                                   (Rel []) w)))
    by (vm_compute; reflexivity).
  destruct (H _ _ Hp) as (Hdead & Hb & _).
  assert (Hw' : w' = snd (V1.generate_video_from_image "uploads\a.png" "uploads\a.mp4" w))
    by (rewrite E; reflexivity).
  assert (Hf : b = false).
  { destruct b; [|reflexivity]. exfalso.
    assert (Hz : poll 1 w' = Some 0) by (apply Hb; reflexivity).
    rewrite Hw' in Hz. vm_compute in Hz. discriminate. }
  subst b. exists w'. split; assumption.
Defined.

(** ** The status of a training in [livetalking_backend_v2.py] *)

(** An accepted [train_model] has found no live trainer for the name. *)
Lemma v2_train_model_guard isoformat (request : V2.TrainRequest) w resp w1 :
  V2.train_model isoformat request w = (Ok resp, w1) ->
  forall pid,
    training_processes w !! V2.full_avatar_id (V2.train_avatar_id request) = Some pid ->
    is_alive pid w = false.
Proof.
  intros H pid Hp. unfold V2.train_model in H.
  apply bind_ok_inv in H as (tp & w0 & E0 & H). injection E0 as <- <-.
  apply bind_ok_inv in H as ([] & w0 & E0 & _). rewrite Hp in E0.
  apply bind_ok_inv in E0 as (rc & w0' & E1 & E2). injection E1 as <- <-.
  rewrite poll_alive in E2. destruct (is_alive pid w); [discriminate | reflexivity].
Qed.

(** X18: [get_training_status] never raises and changes nothing.  A session
    record, when there is one, is the answer as it stands; without one the
    answer is [ready] when the avatar is published and [not_found] when it
    is not.  Right after an accepted [train_model] the answer for the
    normalised name is the new record, with the status [training]. *)
Theorem v2_training_status_query isoformat (request : V2.TrainRequest) avatar_id w :
  (exists resp,
     V2.get_training_status avatar_id w = (Ok resp, w) /\
     (forall d, sessions w !! avatar_id = Some d -> resp = d) /\
     (sessions w !! avatar_id = None ->
      let published := bool_decide (is_Some (lookup_path (path_join AVATARS_DIR avatar_id) w)) in
      resp !! "avatar_id" = Some (VStr avatar_id) /\
      resp !! "exists" = Some (VBool published) /\
      resp !! "status" = Some (VStr (if published then "ready" else "not_found")))) /\
  (forall r w1,
     V2.train_model isoformat request w = (Ok r, w1) ->
     exists d,
       V2.get_training_status (V2.full_avatar_id (V2.train_avatar_id request)) w1
         = (Ok d, w1) /\
       d !! "status" = Some (VStr "training") /\
       d !! "avatar_id" = Some (VStr (V2.full_avatar_id (V2.train_avatar_id request)))).
Proof.
  split.
  - unfold V2.get_training_status, V2.check_avatar_exists, os_path_exists, bind, gets, ret.
    destruct (sessions w !! avatar_id) as [d|] eqn:Hd.
    + exists d. split; [reflexivity|]. split; [intros ? [= <-]; reflexivity | discriminate].
    + destruct (lookup_path (path_join AVATARS_DIR avatar_id) w) as [n|] eqn:Hl;
        cbv beta; rewrite ?Hl.
      * eexists. split; [reflexivity|]. split; [discriminate|]. intros _.
        rewrite bool_decide_true by eauto. repeat split.
      * eexists. split; [reflexivity|]. split; [discriminate|]. intros _.
        rewrite bool_decide_false by (intros [? ?]; discriminate). repeat split.
  - intros r w1 H.
    destruct (v2_train_model_ok isoformat request w (v2_train_model_guard _ _ _ _ _ H))
      as (resp & w' & d & t & E & _ & Hd & Hid & Hst & _).
    rewrite H in E. injection E as <- <-.
    exists d. split; [|split; assumption].
    unfold V2.get_training_status. erewrite bind_ok by reflexivity. rewrite Hd. reflexivity.
Qed.

Lemma v2_training_status_query_witness :
  exists d,
    V2.get_training_status "wav2lip256_anna"
      (snd (V2.train_model (fun _ => "2025-01-01T00:00:00") v2_train_request empty_world))
    = (Ok d, snd (V2.train_model (fun _ => "2025-01-01T00:00:00") v2_train_request
                    empty_world)) /\
    d !! "status" = Some (VStr "training").
Proof.
  set (first := V2.train_model (fun _ => "2025-01-01T00:00:00") v2_train_request empty_world).
  assert (H : first = (Ok (list_to_map
                             [("status", VStr "training_started");
                              ("avatar_id", VStr "wav2lip256_anna");
                              ("message", VStr "开始训练 wav2lip256_anna")] : pydict),
                       snd first)) by (vm_compute; reflexivity).
  destruct (proj2 (v2_training_status_query (fun _ => "2025-01-01T00:00:00") v2_train_request
                     "wav2lip256_anna" empty_world) _ (snd first) H) as (d & E & Hst & _).
  exists d. split; assumption.
Defined.

(** ** Starting without a reference audio *)

Lemma v2_choose_ref_file_no_wav avatar_id w :
  fs_lookup (fs w) (LIVETALKING_PATH ++ ["wav"]) = None ->
  V2.choose_ref_file avatar_id w = (Raise (OSError "listdir: not a directory"), w).
Proof.
  intros H. unfold V2.choose_ref_file, bind, os_path_exists, gets, os_listdir.
  assert (H1 : lookup_path (Abs (LIVETALKING_PATH ++ ["wav"; avatar_id +:+ ".wav"])) w = None).
  { change (fs_lookup (fs w) ((LIVETALKING_PATH ++ ["wav"]) ++ [avatar_id +:+ ".wav"]) = None).
    rewrite fs_lookup_app, H. reflexivity. }
  rewrite H1.
  change (lookup_path WAV_DIR w) with (fs_lookup (fs w) (LIVETALKING_PATH ++ ["wav"])).
  rewrite H. reflexivity.
Qed.

(** X19: [start_avatar] of [livetalking_backend_v2.py] for a published
    avatar that is not being served, when there is no [wav] directory at
    all: the search for a reference audio raises, the call answers 500,
    nothing is spawned, the registry is as it was, the working directory is
    back at the directory of the script, and a session of that name, when
    there is one, is left in the state [error]. *)
Theorem v2_start_without_audio strftime name w n :
  lookup_path (path_join AVATARS_DIR name) w = Some n ->
  (forall pid, running_processes w !! name = Some pid -> is_alive pid w = false) ->
  fs_lookup (fs w) (LIVETALKING_PATH ++ ["wav"]) = None ->
  is_dir (fs_lookup (fs w) (script_dir w)) = true ->
  exists detail w',
    V2.start_avatar strftime name w = (Raise (HTTPException 500 detail), w') /\
    procs w' = procs w /\ programs w' = programs w /\
    running_processes w' = running_processes w /\
    fs w' = fs w /\ cwd w' = script_dir w /\
    (is_Some (sessions w !! name) -> session_field name "status" w' = Some (VStr "error")).
Proof.
  intros Hex Hlive Hwav Hsd.
  pose proof (avatar_exists_livetalking_dir w name n Hex) as Hlt.
  set (w3 := set_cwd LIVETALKING_PATH (set_trace (trace w ++ [EChdir LIVETALKING_PATH]) w)).
  assert (Hch : os_chdir (Abs LIVETALKING_PATH) w = (Ok tt, w3)).
  { unfold os_chdir. simpl resolve. rewrite Hlt. reflexivity. }
  assert (Hfin : forall w4, fs w4 = fs w -> script_dir w4 = script_dir w ->
             (sd <- gets script_dir ;; os_chdir (Abs sd)) w4
             = (Ok tt, set_cwd (script_dir w) (set_trace (trace w4 ++ [EChdir (script_dir w)]) w4))).
  { intros w4 Hfs4 Hsd4. erewrite bind_ok by reflexivity. unfold os_chdir. simpl resolve.
    rewrite Hfs4, Hsd4, Hsd. reflexivity. }
  unfold V2.start_avatar, V2.check_avatar_exists.
  erewrite bind_ok by reflexivity. rewrite Hex. cbv [negb when].
  erewrite bind_ok by reflexivity. erewrite bind_ok by reflexivity.
  erewrite bind_ok.
  2:{ destruct (running_processes w !! name) as [pid|] eqn:E; [|reflexivity].
      specialize (Hlive pid eq_refl). unfold is_alive in Hlive.
      erewrite bind_ok by reflexivity.
      destruct (poll pid w); [reflexivity | discriminate]. }
  destruct (sessions w !! name) as [d|] eqn:Hd.
  - set (w4 := set_sessions (<[name := <["status" := VStr "error"]> d]> (sessions w3)) w3).
    eexists _, _. split.
    { erewrite try_finally_eq.
      2:{ erewrite try_except_raise.
          2:{ erewrite bind_ok by exact Hch. erewrite bind_ok by reflexivity. cbv zeta.
              erewrite bind_raise; [reflexivity|].
              apply v2_choose_ref_file_no_wav. exact Hwav. }
          cbv beta iota delta [except_Exception].
          erewrite bind_ok by reflexivity.
          change (sessions w3 !! name) with (sessions w !! name). rewrite Hd.
          rewrite bool_decide_true by eauto. cbv [when].
          erewrite bind_ok by (apply session_set_field; exact Hd).
          reflexivity. }
      erewrite Hfin by reflexivity. reflexivity. }
    simpl. repeat split. intros _. unfold session_field. simpl.
    rewrite lookup_insert_eq. apply lookup_insert_eq.
  - eexists _, _. split.
    { erewrite try_finally_eq.
      2:{ erewrite try_except_raise.
          2:{ erewrite bind_ok by exact Hch. erewrite bind_ok by reflexivity. cbv zeta.
              erewrite bind_raise; [reflexivity|].
              apply v2_choose_ref_file_no_wav. exact Hwav. }
          cbv beta iota delta [except_Exception].
          erewrite bind_ok by reflexivity.
          change (sessions w3 !! name) with (sessions w !! name). rewrite Hd.
          rewrite bool_decide_false by (intros [? ?]; discriminate). cbv [when].
          erewrite bind_ok by reflexivity.
          reflexivity. }
      erewrite Hfin by reflexivity. reflexivity. }
    simpl. repeat split. intros [? ?]. discriminate.
Qed.

Lemma v2_start_without_audio_witness :
  let w := set_running_processes ∅ (set_procs ∅ world_serving) in
  exists detail w',
    V2.start_avatar (fun _ => "20250101_000000") "wav2lip256_a" w
      = (Raise (HTTPException 500 detail), w') /\
    procs w' = procs w.
Proof.
  intros w.
  assert (H1 : lookup_path (path_join AVATARS_DIR "wav2lip256_a") w = Some (Dir ∅))
    by (vm_compute; reflexivity).
  assert (H2 : forall pid, running_processes w !! "wav2lip256_a" = Some pid ->
                           is_alive pid w = false)
    by (intros pid H; vm_compute in H; discriminate).
  assert (H3 : fs_lookup (fs w) (LIVETALKING_PATH ++ ["wav"]) = None)
    by (vm_compute; reflexivity).
  assert (H4 : is_dir (fs_lookup (fs w) (script_dir w)) = true) by (vm_compute; reflexivity).
  destruct (v2_start_without_audio (fun _ => "20250101_000000") "wav2lip256_a" w _
              H1 H2 H3 H4) as (detail & w' & E & Hp & _).
  exists detail, w'. split; assumption.
Defined.

(** ** The name under which an avatar is listed *)

Lemma remove_all_free old s : free_of old s = true -> remove_all old 0 s = s.
Proof.
  induction s as [|c s IH]; [reflexivity|].
  intros H. change (free_of old (String c s))
      with (negb (String.prefix old (String c s)) && free_of old s) in H.
  apply andb_true_iff in H as (H1 & H2). apply negb_true_iff in H1.
  change (remove_all old 0 (String c s))
    with (if String.prefix old (String c s) && negb (String.eqb old EmptyString)
          then remove_all old (String.length old - 1) s
          else String c (remove_all old 0 s)).
  rewrite H1. simpl. rewrite (IH H2). reflexivity.
Qed.

Lemma remove_all_prefixed (s : string) :
  remove_all "wav2lip256_" 0 ("wav2lip256_" +:+ s) = remove_all "wav2lip256_" 0 s.
Proof. destruct s; vm_compute; reflexivity. Qed.

Lemma free_of_not_prefixed (s : string) :
  free_of "wav2lip256_" s = true -> startswith s "wav2lip256_" = false.
Proof.
  destruct s as [|c s]; [reflexivity|]. intros H.
  change (free_of "wav2lip256_" (String c s))
      with (negb (String.prefix "wav2lip256_" (String c s)) && free_of "wav2lip256_" s) in H.
  apply andb_true_iff in H as (H1 & _). apply negb_true_iff in H1. exact H1.
Qed.

(** X20: the name shown in the listings is the identifier with every
    occurrence of [wav2lip256_] removed.  For a requested name without the
    marker, training adds it and the listings give the requested name back;
    a requested name that already starts with the marker is trained under
    itself and listed without it, so the requests [x] and [wav2lip256_x]
    lead to the same avatar and the same listed name. *)
Theorem avatar_name_round_trip requested w :
  free_of "wav2lip256_" requested = true ->
  (exists info,
     V2.avatar_info (V2.full_avatar_id requested) w = (Ok info, w) /\
     info !! "name" = Some (VStr requested)) /\
  (exists info,
     V2.avatar_info (V2.full_avatar_id ("wav2lip256_" +:+ requested)) w = (Ok info, w) /\
     info !! "name" = Some (VStr requested)) /\
  Simple.full_avatar_id ("wav2lip256_" +:+ requested) = Simple.full_avatar_id requested /\
  V2.full_avatar_id ("wav2lip256_" +:+ requested) = V2.full_avatar_id requested /\
  remove_all "wav2lip256_" 0 (Simple.full_avatar_id requested) = requested.
Proof.
  intros Hfree.
  pose proof (free_of_not_prefixed requested Hfree) as Hnp.
  assert (Hid2 : V2.full_avatar_id requested = "wav2lip256_" +:+ requested).
  { unfold V2.full_avatar_id. rewrite Hnp. reflexivity. }
  assert (Hid2' : V2.full_avatar_id ("wav2lip256_" +:+ requested)
                  = "wav2lip256_" +:+ requested).
  { unfold V2.full_avatar_id, startswith. rewrite prefix_append. reflexivity. }
  assert (Hids : Simple.full_avatar_id requested = "wav2lip256_" +:+ requested).
  { unfold Simple.full_avatar_id. rewrite Hnp. reflexivity. }
  assert (Hids' : Simple.full_avatar_id ("wav2lip256_" +:+ requested)
                  = "wav2lip256_" +:+ requested).
  { unfold Simple.full_avatar_id, startswith. rewrite prefix_append. reflexivity. }
  assert (Hname : remove_all "wav2lip256_" 0 ("wav2lip256_" +:+ requested) = requested).
  { rewrite remove_all_prefixed. apply remove_all_free. exact Hfree. }
  assert (Hinfo : exists info,
             V2.avatar_info ("wav2lip256_" +:+ requested) w = (Ok info, w) /\
             info !! "name" = Some (VStr requested)).
  { unfold V2.avatar_info, bind, gets, ret. rewrite Hname.
    destruct (running_processes w !! ("wav2lip256_" +:+ requested)) as [p|] eqn:Er;
      destruct (training_processes w !! ("wav2lip256_" +:+ requested)) as [q|] eqn:Et;
      try destruct (is_alive p w) eqn:Hp; try destruct (is_alive q w) eqn:Hq;
      repeat (progress (cbv beta iota; rewrite ?Er, ?Et, ?poll_alive, ?Hp, ?Hq));
      eexists; (split; [reflexivity|]);
      rewrite ?lookup_insert_ne by discriminate; reflexivity. }
  rewrite Hid2, Hid2', Hids, Hids'.
  split; [exact Hinfo|]. split; [exact Hinfo|]. split; [reflexivity|].
  split; [reflexivity | exact Hname].
Qed.

Lemma avatar_name_round_trip_witness :
  remove_all "wav2lip256_" 0 (Simple.full_avatar_id "anna") = "anna".
Proof.
  assert (H : free_of "wav2lip256_" "anna" = true) by reflexivity.
  exact (proj2 (proj2 (proj2 (proj2 (avatar_name_round_trip "anna" empty_world H))))).
Defined.

(** ** The health end points *)

(** X21: the health end points only read.  [health_check] of
    [livetalking_backend.py] never raises; it reports [healthy] exactly when
    the installation directory, [app.py] and [wav2lip/genavatar.py] all
    exist, and its counters are the sizes of the three dictionaries, stale
    entries included.  [health] of [backend_simple.py] raises exactly when
    the path of the avatars is a regular file; otherwise its counter of
    running avatars is the size of [running_processes] and its counter of
    avatars the number of listed directories. *)
Theorem health_only_reads w :
  (let ok := path_exists (Abs LIVETALKING_PATH) w &&
             path_exists (path_join (Abs LIVETALKING_PATH) "app.py") w &&
             path_exists (path_join WAV2LIP_PATH "genavatar.py") w in
   exists resp,
     V1.health_check w = (Ok resp, w) /\
     resp !! "livetalking" = Some (VBool ok) /\
     resp !! "status" = Some (VStr (if ok then "healthy" else "degraded")) /\
     resp !! "sessions" = Some (VInt (Z.of_nat (size (sessions w)))) /\
     resp !! "running" = Some (VInt (Z.of_nat (size (running_processes w)))) /\
     resp !! "training" = Some (VInt (Z.of_nat (size (training_processes w))))) /\
  match lookup_path AVATARS_DIR w with
  | Some (File _) => exists msg, Simple.health w = (Raise (OSError msg), w)
  | dir =>
      exists resp,
        Simple.health w = (Ok resp, w) /\
        resp !! "status" = Some (VStr "ok") /\
        resp !! "running_count" = Some (VInt (Z.of_nat (size (running_processes w)))) /\
        resp !! "avatars_count"
          = Some (VInt (Z.of_nat
                          (length (List.filter (published w)
                                     (match dir with
                                      | Some (Dir m) => map fst (map_to_list m)
                                      | _ => []
                                      end)))))
  end.
Proof.
  split.
  - unfold V1.health_check, V1.check_livetalking_installation, path_exists,
      os_path_exists, bind, gets, ret.
    destruct (lookup_path (Abs LIVETALKING_PATH) w) eqn:E1;
      destruct (lookup_path (path_join (Abs LIVETALKING_PATH) "app.py") w) eqn:E2;
      destruct (lookup_path (path_join WAV2LIP_PATH "genavatar.py") w) eqn:E3;
      repeat (progress (cbv beta iota delta [negb]; rewrite ?E1, ?E2, ?E3));
      eexists; (split; [reflexivity|]); repeat split.
  - unfold Simple.health, Simple.scan_avatars.
    destruct (lookup_path AVATARS_DIR w) as [[data|m]|] eqn:Hl.
    + exists "listdir: not a directory".
      unfold bind, os_path_exists, gets, os_listdir. rewrite !Hl. reflexivity.
    + destruct (simple_scan_items (map fst (map_to_list m)) [] w) as (out & E & Hids).
      eexists. split.
      { unfold bind at 1. unfold bind at 1. unfold os_path_exists, gets at 1. rewrite Hl.
        unfold bind at 1. unfold os_listdir. rewrite Hl. rewrite E.
        unfold bind, gets, ret. reflexivity. }
      split; [reflexivity|]. split; [reflexivity|].
      rewrite !list_to_map_cons.
      rewrite lookup_insert_ne by discriminate. rewrite lookup_insert_eq.
      simpl app. rewrite <- (length_map (fun a : pydict => a !! "id") out), Hids, length_map.
      reflexivity.
    + eexists. split.
      { unfold bind at 1. unfold bind at 1. unfold os_path_exists, gets at 1. rewrite Hl.
        unfold bind, gets, ret. reflexivity. }
      repeat split.
Qed.
